(** * alert2snow-agent: the alert-to-incident correlation and delivery pipeline

    A shallow embedding of the Go sources of [cragr/alert2snow-agent]
    (packages [webhook] and [servicenow]) and the properties of its
    fingerprinting, transformation, retry and batch-processing code.

    Conventions.
    - A Go [string] / [[]byte] is a Rocq [string] (a sequence of 8-bit
      characters); where the code hashes bytes they are numbers in [0,256).
    - A Go [map[string]string] is a [gmap string string]; reading a missing
      key yields the zero value [""].  The order in which [range] visits a
      map is not specified by Go, so the embedding of a function that ranges
      over a map takes the visiting order as an argument.
    - Go [int], [int64] and [time.Duration] values are [Z].
    - Effects (outbound HTTP, logging, the calls made on an interface) are
      written in a state monad over an explicit world; a nil-pointer
      dereference is the [Panicked] result. *)

From Stdlib Require Import ZArith Lia String Ascii List DecimalString SpecFloat.
From stdpp Require Import base tactics option list sorting strings gmap.

Local Open Scope string_scope.
Local Open Scope Z_scope.

(* ===================================================================== *)
(** * Go strings *)
(* ===================================================================== *)

Module GoString.

(** [[]byte(s)]: the bytes of a string, as numbers. *)
Fixpoint bytes (s : string) : list Z :=
  match s with
  | EmptyString => []
  | String c s' => Z.of_N (N_of_ascii c) :: bytes s'
  end.

(** Go compares strings bytewise, lexicographically, a proper prefix
    first; [String.compare] is that comparison. *)
Definition le (s1 s2 : string) : Prop := String.leb s1 s2 = true.

#[export] Instance le_dec : RelDecision le.
Proof. intros s1 s2. unfold le. apply _. Defined.

(** [sort.Strings]: the keys sorted in increasing order.  The result of
    sorting is fixed by the order alone (it is total and antisymmetric), so
    any correct sorting algorithm stands for the library's. *)
Definition sort_Strings (l : list string) : list string := merge_sort le l.

(** [strings.HasPrefix s sub]. *)
Fixpoint HasPrefix (s sub : string) {struct sub} : bool :=
  match sub, s with
  | EmptyString, _ => true
  | String _ _, EmptyString => false
  | String b sub', String a s' =>
      if Ascii.eqb a b then HasPrefix s' sub' else false
  end.

(** [strings.Index s sub]: the index of the first instance of [sub] in
    [s], or [-1]. *)
Fixpoint Index (s sub : string) : Z :=
  if HasPrefix s sub then 0
  else match s with
       | EmptyString => -1
       | String _ s' =>
           let i := Index s' sub in
           if i =? -1 then -1 else i + 1
       end.

(** [s[n:]] for [0 <= n <= len(s)]. *)
Fixpoint slice_from (n : nat) (s : string) : string :=
  match n, s with
  | O, _ => s
  | S n', String _ s' => slice_from n' s'
  | S _, EmptyString => EmptyString
  end.

(** [s[:n]] for [0 <= n <= len(s)]. *)
Fixpoint slice_to (n : nat) (s : string) : string :=
  match n, s with
  | O, _ => EmptyString
  | S n', String c s' => String c (slice_to n' s')
  | S _, EmptyString => EmptyString
  end.

(** A [strings.Builder] after a sequence of [WriteString]s. *)
Definition concat (l : list string) : string :=
  fold_right String.append EmptyString l.

End GoString.

(* ===================================================================== *)
(** * crypto/sha256 and encoding/hex (Go standard library) *)
(* ===================================================================== *)

Module SHA256.

Definition u32 (x : Z) : Z := x mod 2 ^ 32.
Definition add32 (x y : Z) : Z := u32 (x + y).

(** [bits.RotateLeft32 x k]; a negative [k] rotates right. *)
Definition RotateLeft32 (x k : Z) : Z :=
  let s := Z.land k 31 in
  Z.lor (u32 (Z.shiftl x s)) (Z.shiftr x (32 - s)).

(** [^x] on a [uint32]. *)
Definition not32 (x : Z) : Z := Z.lxor x 0xffffffff.

Definition _K : list Z :=
  [
    0x428a2f98%Z; 0x71374491%Z; 0xb5c0fbcf%Z; 0xe9b5dba5%Z;
    0x3956c25b%Z; 0x59f111f1%Z; 0x923f82a4%Z; 0xab1c5ed5%Z;
    0xd807aa98%Z; 0x12835b01%Z; 0x243185be%Z; 0x550c7dc3%Z;
    0x72be5d74%Z; 0x80deb1fe%Z; 0x9bdc06a7%Z; 0xc19bf174%Z;
    0xe49b69c1%Z; 0xefbe4786%Z; 0x0fc19dc6%Z; 0x240ca1cc%Z;
    0x2de92c6f%Z; 0x4a7484aa%Z; 0x5cb0a9dc%Z; 0x76f988da%Z;
    0x983e5152%Z; 0xa831c66d%Z; 0xb00327c8%Z; 0xbf597fc7%Z;
    0xc6e00bf3%Z; 0xd5a79147%Z; 0x06ca6351%Z; 0x14292967%Z;
    0x27b70a85%Z; 0x2e1b2138%Z; 0x4d2c6dfc%Z; 0x53380d13%Z;
    0x650a7354%Z; 0x766a0abb%Z; 0x81c2c92e%Z; 0x92722c85%Z;
    0xa2bfe8a1%Z; 0xa81a664b%Z; 0xc24b8b70%Z; 0xc76c51a3%Z;
    0xd192e819%Z; 0xd6990624%Z; 0xf40e3585%Z; 0x106aa070%Z;
    0x19a4c116%Z; 0x1e376c08%Z; 0x2748774c%Z; 0x34b0bcb5%Z;
    0x391c0cb3%Z; 0x4ed8aa4a%Z; 0x5b9cca4f%Z; 0x682e6ff3%Z;
    0x748f82ee%Z; 0x78a5636f%Z; 0x84c87814%Z; 0x8cc70208%Z;
    0x90befffa%Z; 0xa4506ceb%Z; 0xbef9a3f7%Z; 0xc67178f2%Z
  ].

(** The eight chaining words [h0 .. h7]. *)
Record digest : Type := Digest {
  h0 : Z; h1 : Z; h2 : Z; h3 : Z; h4 : Z; h5 : Z; h6 : Z; h7 : Z
}.

Definition init : digest :=
  Digest 0x6a09e667 0xbb67ae85 0x3c6ef372 0xa54ff53a
         0x510e527f 0x9b05688c 0x1f83d9ab 0x5be0cd19.

Definition at_ (w : list Z) (i : nat) : Z := nth i w 0.

(** [w[i] = uint32(p[j])<<24 | uint32(p[j+1])<<16 | uint32(p[j+2])<<8 | uint32(p[j+3])]
    for the first sixteen words of a 64-byte chunk. *)
Fixpoint be_words (n : nat) (p : list Z) : list Z :=
  match n with
  | O => []
  | S n' =>
      Z.lor (Z.lor (Z.lor (Z.shiftl (at_ p 0) 24) (Z.shiftl (at_ p 1) 16))
                   (Z.shiftl (at_ p 2) 8)) (at_ p 3)
      :: be_words n' (skipn 4 p)
  end.

(** The message schedule: [w[i] = t1 + w[i-7] + t2 + w[i-16]] for
    [i = 16 .. 63]; [w] holds [w[0] .. w[i-1]]. *)
Fixpoint schedule (n : nat) (w : list Z) : list Z :=
  match n with
  | O => w
  | S n' =>
      let i := List.length w in
      let v1 := at_ w (i - 2) in
      let t1 := Z.lxor (Z.lxor (RotateLeft32 v1 (-17)) (RotateLeft32 v1 (-19)))
                       (Z.shiftr v1 10) in
      let v2 := at_ w (i - 15) in
      let t2 := Z.lxor (Z.lxor (RotateLeft32 v2 (-7)) (RotateLeft32 v2 (-18)))
                       (Z.shiftr v2 3) in
      schedule n' (w ++ [add32 (add32 (add32 t1 (at_ w (i - 7))) t2) (at_ w (i - 16))])%list
  end.

(** One round of the compression loop, on the working variables. *)
Definition round (s : digest) (k w : Z) : digest :=
  let '(Digest a b c d e f g h) := s in
  let t1 :=
    add32 (add32 (add32 (add32 h
      (Z.lxor (Z.lxor (RotateLeft32 e (-6)) (RotateLeft32 e (-11)))
              (RotateLeft32 e (-25))))
      (Z.lxor (Z.land e f) (Z.land (not32 e) g))) k) w in
  let t2 :=
    add32 (Z.lxor (Z.lxor (RotateLeft32 a (-2)) (RotateLeft32 a (-13)))
                  (RotateLeft32 a (-22)))
          (Z.lxor (Z.lxor (Z.land a b) (Z.land a c)) (Z.land b c)) in
  Digest (add32 t1 t2) a b c (add32 d t1) e f g.

Fixpoint rounds (s : digest) (ks ws : list Z) : digest :=
  match ks, ws with
  | k :: ks', w :: ws' => rounds (round s k w) ks' ws'
  | _, _ => s
  end.

(** [blockGeneric] on one 64-byte chunk. *)
Definition block (d : digest) (p : list Z) : digest :=
  let w := schedule 48 (be_words 16 p) in
  let s := rounds d _K w in
  Digest (add32 (h0 d) (h0 s)) (add32 (h1 d) (h1 s))
         (add32 (h2 d) (h2 s)) (add32 (h3 d) (h3 s))
         (add32 (h4 d) (h4 s)) (add32 (h5 d) (h5 s))
         (add32 (h6 d) (h6 s)) (add32 (h7 d) (h7 s)).

(** [for len(p) >= chunk { ...; p = p[chunk:] }]. *)
Fixpoint blocks (n : nat) (d : digest) (p : list Z) : digest :=
  match n with
  | O => d
  | S n' => blocks n' (block d (firstn 64 p)) (skipn 64 p)
  end.

(** Big-endian bytes of a 32-bit and of a 64-bit word. *)
Definition be32 (x : Z) : list Z :=
  [ Z.land (Z.shiftr x 24) 255; Z.land (Z.shiftr x 16) 255;
    Z.land (Z.shiftr x 8) 255; Z.land x 255 ].

Definition be64 (x : Z) : list Z :=
  (be32 (Z.shiftr x 32) ++ be32 (Z.land x 0xffffffff))%list.

(** The padding of [checkSum]: [0x80], zeros up to 56 mod 64, and the
    length in bits as a [uint64]. *)
Definition padding (len : Z) : list Z :=
  let t := if len mod 64 <? 56 then 56 - len mod 64
           else 64 + 56 - len mod 64 in
  (0x80 :: repeat 0 (Z.to_nat (t - 1)) ++ be64 (Z.shiftl len 3 mod 2 ^ 64))%list.

(** [sha256.Sum256 data]: the 32 bytes of the digest. *)
Definition Sum256 (data : list Z) : list Z :=
  let p := (data ++ padding (Z.of_nat (List.length data)))%list in
  let d := blocks (Nat.div (List.length p) 64) init p in
  (be32 (h0 d) ++ be32 (h1 d) ++ be32 (h2 d) ++ be32 (h3 d) ++
   be32 (h4 d) ++ be32 (h5 d) ++ be32 (h6 d) ++ be32 (h7 d))%list.

End SHA256.

Module Hex.

Definition hextable : string := "0123456789abcdef".

(** [hextable[i]]. *)
Definition digit (i : Z) : ascii :=
  match String.get (Z.to_nat i) hextable with
  | Some c => c
  | None => "0"%char
  end.

(** [hex.EncodeToString]: for each byte [v], [hextable[v>>4]] then
    [hextable[v&0x0f]]. *)
Fixpoint EncodeToString (src : list Z) : string :=
  match src with
  | [] => EmptyString
  | v :: src' =>
      String (digit (Z.shiftr v 4))
             (String (digit (Z.land v 0x0f)) (EncodeToString src'))
  end.

Definition is_hex (c : ascii) : bool :=
  existsb (Ascii.eqb c) (list_ascii_of_string hextable).

End Hex.

(* ===================================================================== *)
(** * Errors *)
(* ===================================================================== *)

(** An error returned by a library ([net/http], [io], [encoding/json]):
    the type [*RetryableError] belongs to package [servicenow], so no such
    error has one in its chain, and its message is all the code can use. *)
Definition LibError : Type := string.

(** Go [error] values, as far as the code tells them apart: an error of a
    library, an error wrapped with [fmt.Errorf("...: %w", err)], the
    package's own [*RetryableError], and what [ctx.Err()] returns. *)
Inductive error : Type :=
| errorString (msg : LibError)
| wrapError (msg : string) (err : error)
| RetryableError (Err : error) (StatusCode : Z)
| context_Canceled
| context_DeadlineExceeded.

(** [errors.As(err, &retryableErr)] for a [*RetryableError] target: the
    first such error in the chain, with its fields. *)
Fixpoint errors_As_RetryableError (err : error) : option (error * Z) :=
  match err with
  | RetryableError e code => Some (e, code)
  | wrapError _ e => errors_As_RetryableError e
  | errorString _ | context_Canceled | context_DeadlineExceeded => None
  end.

(* ===================================================================== *)
(** * Library functions the code calls but the proofs leave open *)
(* ===================================================================== *)

(** An instant ([time.Time]); only ever formatted. *)
Definition Time : Type := Z.

(** Functions of the Go standard library whose results the code uses as
    they come: every property below holds for whatever they return. *)
Class GoLib : Type := {
  (** [url.Parse rawURL] followed by [Hostname()] on the result; [None]
      when [url.Parse] returns an error. *)
  url_Parse_Hostname : string -> option string;
  (** [url.PathEscape], [url.QueryEscape]. *)
  url_PathEscape : string -> string;
  url_QueryEscape : string -> string;
  (** [t.UTC().Format("2006-01-02 15:04:05 UTC")]. *)
  time_Format_UTC : Time -> string;
  (** The verb [%d] of [fmt]. *)
  fmt_d : Z -> string;
  (** The error, if any, of [http.NewRequestWithContext ctx method url body]. *)
  http_NewRequest_error : string -> string -> option LibError;
}.

(* ===================================================================== *)
(** * Packages [config] and [models] *)
(* ===================================================================== *)

Module config.

(** Modelled from the spec: the declaration of [config.Config] is not
    among the sources; these are the fields the code reads (the spec's
    "configuration surface"). *)
Record Config : Type := {
  ClusterLabelKey : string;
  EnvironmentLabelKey : string;
  ServiceNowBaseURL : string;
  ServiceNowEndpointPath : string;
  ServiceNowUsername : string;
  ServiceNowPassword : string;
  ServiceNowRootCause : string;
  ServiceNowImpact : string;
  ServiceNowUrgency : string;
  ServiceNowCategory : string;
  ServiceNowSubcategory : string;
  ServiceNowAssignmentGroup : string;
  ServiceNowCallerID : string;
}.

End config.

Module models.

(** Modelled from the spec: the declarations of [models.Alert],
    [models.AlertmanagerPayload] and of the two status constants are not
    among the sources; the fields are those of the spec's Alert and
    AlertBatch, under the names the code and its tests use. *)
Module Alert.
Record t : Type := {
  Status : string;
  Labels : gmap string string;
  Annotations : gmap string string;
  StartsAt : Time;
  EndsAt : Time;
  GeneratorURL : string;
  Fingerprint : string;
}.
End Alert.

Module AlertmanagerPayload.
Record t : Type := {
  Version : string;
  Status : string;
  Receiver : string;
  ExternalURL : string;
  Alerts : list Alert.t;
}.
End AlertmanagerPayload.

Definition AlertStatusFiring : string := "firing".
Definition AlertStatusResolved : string := "resolved".

Module ServiceNowIncident.
Record t : Type := {
  ShortDescription : string;
  Description : string;
  Impact : string;
  Urgency : string;
  Category : string;
  Subcategory : string;
  AssignmentGroup : string;
  CallerID : string;
  CorrelationID : string;
}.
End ServiceNowIncident.

Module ServiceNowResult.
Record t : Type := {
  SysID : string;
  Number : string;
  State : string;
  CorrelationID : string;
  ShortDescription : string;
}.
End ServiceNowResult.

Module ServiceNowUpdatePayload.
Record t : Type := {
  State : string;
  CloseCode : string;
  CloseNotes : string;
  RootCause : string;
  RestoredDate : string;
}.
End ServiceNowUpdatePayload.

Definition StateResolved : string := "6".

End models.

(** [m[k]] on a Go map: the zero value when the key is absent. *)
Definition map_get (m : gmap string string) (k : string) : string :=
  default "" (m !! k).

(** The keys of a map, in the order in which the map library lists them;
    one of the orders a [range] loop may take. *)
Definition map_keys (m : gmap string string) : list string :=
  (map_to_list m).*1.

(* ===================================================================== *)
(** * Package [webhook]: the transformer *)
(* ===================================================================== *)

Module webhook_transformer.
Import config models.

(** The [strings.Builder] of [GenerateCorrelationID] after its loop:
    the alert name, then key and value for every key of [keys]. *)
Definition canonical (alertname : string) (labels : gmap string string)
           (keys : list string) : string :=
  alertname ++ GoString.concat (List.map (fun k => k ++ map_get labels k) keys).

(** [GenerateCorrelationID], with the order [visit] in which
    [for k := range labels] visits the keys made explicit. *)
Definition GenerateCorrelationID_visiting (visit : list string)
           (alertname : string) (labels : gmap string string) : string :=
  let keys := GoString.sort_Strings visit in
  let hash := SHA256.Sum256 (GoString.bytes (canonical alertname labels keys)) in
  Hex.EncodeToString (firstn 8 hash).

Definition GenerateCorrelationID (alertname : string)
           (labels : gmap string string) : string :=
  GenerateCorrelationID_visiting (map_keys labels) alertname labels.

Definition buildShortDescription (cluster alertname namespace : string) : string :=
  let cluster := if String.eqb cluster "" then "unknown-cluster" else cluster in
  if negb (String.eqb namespace "")
  then "[" ++ cluster ++ "] " ++ alertname ++ " in namespace: " ++ namespace
  else "[" ++ cluster ++ "] " ++ alertname.

Section with_lib.
Context `{GoLib}.

Definition extractClusterFromURL (rawURL : string) : string :=
  match url_Parse_Hostname rawURL with
  | None => ""
  | Some host =>
      let appsIdx := GoString.Index host ".apps." in
      if appsIdx =? -1 then ""
      else
        let afterApps := GoString.slice_from (Z.to_nat (appsIdx + 6)) host in
        let dotIdx := GoString.Index afterApps "." in
        if dotIdx =? -1 then afterApps
        else GoString.slice_to (Z.to_nat dotIdx) afterApps
  end.

Definition extractClusterName (cfg : Config) (alert : Alert.t) : string :=
  let cluster := map_get (Alert.Labels alert) (ClusterLabelKey cfg) in
  if negb (String.eqb cluster "") then cluster
  else
    if negb (String.eqb (Alert.GeneratorURL alert) "")
    then
      let cluster := extractClusterFromURL (Alert.GeneratorURL alert) in
      if negb (String.eqb cluster "") then cluster else ""
    else "".

Definition buildConsoleURL (cluster namespace : string) : string :=
  "https://console-openshift-console.apps." ++ url_PathEscape cluster
  ++ ".example.com/k8s/cluster/projects/" ++ url_PathEscape namespace.

(** The text that [buildDescription] writes to its builder, piece by
    piece; a Go newline is the character 10. *)
Definition nl : string := String (ascii_of_nat 10) EmptyString.

Definition buildDescription (alert : Alert.t)
           (cluster environment severity namespace pod container : string) : string :=
  let labels := Alert.Labels alert in
  let header :=
    "Alert: " ++ map_get labels "alertname" ++ nl
    ++ "Cluster: " ++ cluster ++ nl
    ++ "Environment: " ++ environment ++ nl
    ++ "Severity: " ++ severity ++ nl
    ++ "Started At: " ++ time_Format_UTC (Alert.StartsAt alert) ++ nl in
  let summary := map_get (Alert.Annotations alert) "summary" in
  let summary_section :=
    if negb (String.eqb summary "")
    then nl ++ "Summary:" ++ nl ++ summary ++ nl else "" in
  let desc := map_get (Alert.Annotations alert) "description" in
  let description_section :=
    if negb (String.eqb desc "")
    then nl ++ "Description:" ++ nl ++ desc ++ nl else "" in
  let resource_section :=
    if negb (String.eqb namespace "") || negb (String.eqb pod "")
       || negb (String.eqb container "")
    then nl ++ "Resource Information:" ++ nl
         ++ (if negb (String.eqb namespace "")
             then "  Namespace: " ++ namespace ++ nl else "")
         ++ (if negb (String.eqb pod "")
             then "  Pod: " ++ pod ++ nl else "")
         ++ (if negb (String.eqb container "")
             then "  Container: " ++ container ++ nl else "")
    else "" in
  let console_section :=
    if negb (String.eqb cluster "") && negb (String.eqb namespace "")
    then nl ++ "OpenShift Console: " ++ buildConsoleURL cluster namespace ++ nl
    else "" in
  let prometheus_section :=
    if negb (String.eqb (Alert.GeneratorURL alert) "")
    then nl ++ "Prometheus Link: " ++ Alert.GeneratorURL alert ++ nl
    else "" in
  let keys := GoString.sort_Strings (map_keys labels) in
  let labels_section :=
    nl ++ "All Labels:" ++ nl
    ++ GoString.concat
         (List.map (fun k => "  " ++ k ++ ": " ++ map_get labels k ++ nl) keys) in
  header ++ summary_section ++ description_section ++ resource_section
  ++ console_section ++ prometheus_section ++ labels_section.

Definition Transform (cfg : Config) (alert : Alert.t) (externalURL : string)
  : ServiceNowIncident.t :=
  let labels := Alert.Labels alert in
  let alertname := map_get labels "alertname" in
  let cluster := extractClusterName cfg alert in
  let namespace := map_get labels "namespace" in
  let pod := map_get labels "pod" in
  let container := map_get labels "container" in
  let severity := map_get labels "severity" in
  let environment := map_get labels (EnvironmentLabelKey cfg) in
  let shortDesc := buildShortDescription cluster alertname namespace in
  let description :=
    buildDescription alert cluster environment severity namespace pod container in
  let correlationID := GenerateCorrelationID alertname labels in
  {| ServiceNowIncident.ShortDescription := shortDesc;
     ServiceNowIncident.Description := description;
     ServiceNowIncident.Impact := ServiceNowImpact cfg;
     ServiceNowIncident.Urgency := ServiceNowUrgency cfg;
     ServiceNowIncident.Category := ServiceNowCategory cfg;
     ServiceNowIncident.Subcategory := ServiceNowSubcategory cfg;
     ServiceNowIncident.AssignmentGroup := ServiceNowAssignmentGroup cfg;
     ServiceNowIncident.CallerID := ServiceNowCallerID cfg;
     ServiceNowIncident.CorrelationID := correlationID |}.

End with_lib.

End webhook_transformer.

(* ===================================================================== *)
(** * Cluster-name resolution, as the specification words it *)
(* ===================================================================== *)

Module cluster_spec.
Import config models.

(** [sub] occurs in [s]. *)
Definition contains (s sub : string) : Prop :=
  exists pre post, s = pre ++ sub ++ post.

(** [s] is [pre], then its first occurrence of [sub], then [post]. *)
Definition first_at (sub s pre post : string) : Prop :=
  s = pre ++ sub ++ post
  /\ forall pre' post', s = pre' ++ sub ++ post' ->
                       (String.length pre <= String.length pre')%nat.

(** The three cases of the resolution order: (a) the value of the
    configured cluster label, when not empty; (b) else, for a source URL
    whose hostname contains [.apps.], the text between the first [.apps.]
    and the next [.], or the whole remainder when no [.] follows; (c) else
    the empty string. *)
Inductive cluster_resolution `{GoLib} (cfg : Config) (alert : Alert.t) : string -> Prop :=
| cluster_from_label :
    map_get (Alert.Labels alert) (ClusterLabelKey cfg) <> "" ->
    cluster_resolution cfg alert (map_get (Alert.Labels alert) (ClusterLabelKey cfg))
| cluster_from_url host pre cluster rest :
    map_get (Alert.Labels alert) (ClusterLabelKey cfg) = "" ->
    Alert.GeneratorURL alert <> "" ->
    url_Parse_Hostname (Alert.GeneratorURL alert) = Some host ->
    first_at ".apps." host pre (cluster ++ rest) ->
    ~ contains cluster "." ->
    (rest = "" \/ exists rest', rest = "." ++ rest') ->
    cluster_resolution cfg alert cluster
| cluster_unknown :
    map_get (Alert.Labels alert) (ClusterLabelKey cfg) = "" ->
    (Alert.GeneratorURL alert = ""
     \/ url_Parse_Hostname (Alert.GeneratorURL alert) = None
     \/ exists host, url_Parse_Hostname (Alert.GeneratorURL alert) = Some host
                     /\ ~ contains host ".apps.") ->
    cluster_resolution cfg alert "".

End cluster_spec.

(* ===================================================================== *)
(** * Histories and the world *)
(* ===================================================================== *)

(** What the [select] of [WithRetry] received first. *)
Inductive SelectResult : Type :=
| CtxDone (err : error)      (* [<-ctx.Done()]; [err] is [ctx.Err()], never nil then *)
| TimerFired.                (* [<-time.After(delay)] *)

Module http.

Record Request : Type := {
  Method : string;
  URL : string;
  Body : string;
  BasicAuth : option (string * string);
  Header : list (string * string);
}.

(** A response: its status code and what [io.ReadAll(resp.Body)]
    returns, the bytes read and the error that stopped the reading. *)
Record Response : Type := {
  StatusCode : Z;
  ReadAll : string * option LibError;
}.

Definition MethodGet : string := "GET".
Definition MethodPost : string := "POST".
Definition MethodPatch : string := "PATCH".
Definition StatusOK : Z := 200.
Definition StatusBadRequest : Z := 400.
Definition StatusMethodNotAllowed : Z := 405.
Definition StatusInternalServerError : Z := 500.

End http.

(** A value logged with a [slog] record. *)
Inductive Attr : Type :=
| AString (s : string)
| AInt (n : Z)
| AError (e : error).

(** The calls the webhook handler makes on its [ServiceNowClient]. *)
Inductive ClientCall : Type :=
| CreateIncidentCall (incident : models.ServiceNowIncident.t)
| FindIncidentByCorrelationIDCall (correlationID : string)
| ResolveIncidentCall (sysID : string).

#[local] Set Warnings "-register-all".

(** The history of a run: what the code did to the outside, oldest first.
    An attempt of [WithRetry] and a call on the client interface enclose
    the history of what ran inside them. *)
Inductive Event : Type :=
| EvAttempt (attempt : Z) (inner : list Event) (err : option error)
| EvWait (delay : Z) (r : SelectResult)
| EvHTTP (req : http.Request) (r : http.Response + LibError)
| EvLog (level msg : string) (attrs : list (string * Attr))
| EvCall (c : ClientCall) (inner : list Event).

(** A computation on a world [W]: its result, its history, the new world. *)
Definition Prog (W A : Type) : Type := W -> A * list Event * W.

Definition ret {W A} (a : A) : Prog W A := fun w => (a, [], w).

Definition bind {W A B} (m : Prog W A) (f : A -> Prog W B) : Prog W B :=
  fun w =>
    let '(a, h1, w1) := m w in
    let '(b, h2, w2) := f a w1 in
    (b, (h1 ++ h2)%list, w2).

Definition emit {W} (e : Event) : Prog W unit := fun w => (tt, [e], w).

#[global] Arguments errorString msg%_string.

(** Runs [m] and records its whole history as the one event [wrap h a]. *)
Definition enclosed {W A} (wrap : list Event -> A -> Event) (m : Prog W A) : Prog W A :=
  fun w => let '(a, h, w') := m w in (a, [wrap h a], w').

(** An action of the outside, recorded by [ev]. *)
Definition outside {W A} (act : W -> A * W) (ev : A -> Event) : Prog W A :=
  fun w => let '(a, w') := act w in (a, [ev a], w').

Declare Scope prog_scope.
Delimit Scope prog_scope with prog.
Notation "x <- m ;; k" := (bind m (fun x => k))
  (at level 100, m at next level, right associativity) : prog_scope.
Notation "m ;;; k" := (bind m (fun _ => k))
  (at level 100, right associativity) : prog_scope.

Definition result_of {W A} (r : A * list Event * W) : A := r.1.1.
Definition history_of {W A} (r : A * list Event * W) : list Event := r.1.2.
Definition world_of {W A} (r : A * list Event * W) : W := r.2.

(** The requests sent and what came back, at any depth of a history. *)
Fixpoint exchanges_of_event (ev : Event) : list (http.Request * (http.Response + LibError)) :=
  match ev with
  | EvHTTP req r => [(req, r)]
  | EvAttempt _ inner _ => flat_map exchanges_of_event inner
  | EvCall _ inner => flat_map exchanges_of_event inner
  | EvWait _ _ | EvLog _ _ _ => []
  end.

Definition exchanges_of (h : list Event) : list (http.Request * (http.Response + LibError)) :=
  flat_map exchanges_of_event h.

(** [logger.Debug/Info/Warn/Error]. *)
Definition slog {W} (level msg : string) (attrs : list (string * Attr)) : Prog W unit :=
  emit (EvLog level msg attrs).

(** The outside of the process, as the code meets it. *)
Class Outside (W : Type) : Type := {
  (** [httpClient.Do(req)]: a response, or a transport error. *)
  httpClient_Do : http.Request -> W -> (http.Response + LibError) * W;
  (** [select { case <-ctx.Done(): ...; case <-time.After(delay): }]. *)
  select_Done_or_After : Z -> W -> SelectResult * W;
  (** [time.Now().UTC().Format("01/02/2006 03:04:05 PM")]. *)
  time_Now_Format : W -> string * W;
}.

(* ===================================================================== *)
(** * The float64 arithmetic of [calculateBackoff] *)
(* ===================================================================== *)

Module float64.

(** An IEEE-754 binary64 value: the number [m * 2^e], an infinity, or
    not-a-number.  (The sign of a zero is not kept: no operation here
    tells the two zeros apart.) *)
Inductive t : Type :=
| Fin (m e : Z)
| Inf (negative : bool)
| NaN.

(** The binary64 nearest to [m * 2^e], ties to even: 53 significant
    bits, least exponent -1074, an infinity from [2^1024] on. *)
Definition round (m e : Z) : t :=
  if m =? 0 then Fin 0 0
  else
    let a := Z.abs m in
    let digits := Z.log2 a + 1 in
    let ex := Z.max (digits + e - 53) (-1074) in
    let k := ex - e in
    let '(q, e') :=
      if k <=? 0 then (a, e)
      else
        let q0 := a / 2 ^ k in
        let r := a mod 2 ^ k in
        let half := 2 ^ (k - 1) in
        if r <? half then (q0, ex)
        else if half <? r then (q0 + 1, ex)
        else if Z.even q0 then (q0, ex) else (q0 + 1, ex) in
    if q =? 0 then Fin 0 0
    else if 1024 <=? Z.log2 q + e' then Inf (m <? 0)
    else Fin (Z.sgn m * q) e'.

(** [float64(x)] for an integer [x]. *)
Definition of_int (x : Z) : t := round x 0.

(** [x * y]. *)
Definition mul (x y : t) : t :=
  match x, y with
  | NaN, _ | _, NaN => NaN
  | Inf s1, Inf s2 => Inf (xorb s1 s2)
  | Inf s, Fin m _ | Fin m _, Inf s =>
      if m =? 0 then NaN else Inf (xorb s (m <? 0))
  | Fin m1 e1, Fin m2 e2 => round (m1 * m2) (e1 + e2)
  end.

(** The integer a value stands for, when it is one. *)
Definition int_value (x : t) : option Z :=
  match x with
  | Fin m e =>
      if 0 <=? e then Some (m * 2 ^ e)
      else if m mod 2 ^ (- e) =? 0 then Some (m / 2 ^ (- e))
      else None
  | _ => None
  end.

(** [math.Pow(2, y)] for an integer-valued [y] (the float64 of an [int]
    is one): the power of two, exact up to the range of the format;
    [+Inf] and [0] at the infinities.  A fractional [y] does not arise. *)
Definition Pow2 (y : t) : t :=
  match y with
  | NaN => NaN
  | Inf false => Inf false
  | Inf true => Fin 0 0
  | Fin _ _ =>
      match int_value y with
      | Some n => round 1 n
      | None => NaN
      end
  end.

(** [int64(x)]: the value truncated toward zero when that is an
    [int64]; otherwise Go leaves the result to the implementation, here
    [unrepresentable x]. *)
Definition to_int64 (unrepresentable : t -> Z) (x : t) : Z :=
  match x with
  | Fin m e =>
      let v := if 0 <=? e then m * 2 ^ e else Z.quot m (2 ^ (- e)) in
      if (- 2 ^ 63 <=? v) && (v <? 2 ^ 63) then v else unrepresentable x
  | _ => unrepresentable x
  end.

(** The same value in the Standard Library's specification of IEEE-754
    arithmetic, at the parameters of binary64. *)
Definition to_spec (x : t) : spec_float :=
  match x with
  | Fin m e => binary_normalize 53 1024 m e false
  | Inf s => S754_infinity s
  | NaN => S754_nan
  end.

(** [float64(baseDelay) * math.Pow(2, float64(attempt))], here and in
    the Standard Library's specification. *)
Definition scaled (baseDelay attempt : Z) : t :=
  mul (of_int baseDelay) (Pow2 (of_int attempt)).

Definition scaled_spec (baseDelay attempt : Z) : spec_float :=
  SFmul 53 1024 (binary_normalize 53 1024 baseDelay 0 false)
                (binary_normalize 53 1024 1 attempt false).

(** The conversion of the amd64 target (the image is built for amd64):
    [CVTTSD2SI] yields the "integer indefinite" value. *)
Definition amd64_unrepresentable (_ : t) : Z := - 2 ^ 63.

End float64.

(** The implementation-dependent part of the Go implementation. *)
Class GoImpl : Type := {
  float64_to_int64_unrepresentable : float64.t -> Z;
}.

(* ===================================================================== *)
(** * Package [servicenow]: retry *)
(* ===================================================================== *)

Module servicenow_retry.

Definition Second : Z := 1000000000.

Record RetryConfig : Type := {
  MaxAttempts : Z;
  BaseDelay : Z;
  MaxDelay : Z;
}.

Definition DefaultRetryConfig : RetryConfig :=
  {| MaxAttempts := 3; BaseDelay := 1 * Second; MaxDelay := 10 * Second |}.

Definition IsRetryable (err : error) : bool :=
  match errors_As_RetryableError err with
  | Some (_, StatusCode) => 500 <=? StatusCode
  | None => true
  end.

Definition IsClientError (statusCode : Z) : bool :=
  (http.StatusBadRequest <=? statusCode)
  && (statusCode <? http.StatusInternalServerError).

Definition IsServerError (statusCode : Z) : bool :=
  http.StatusInternalServerError <=? statusCode.

Section with_impl.
Context `{GoImpl}.

Definition calculateBackoff (attempt baseDelay maxDelay : Z) : Z :=
  let delay :=
    float64.to_int64 float64_to_int64_unrepresentable
      (float64.mul (float64.of_int baseDelay)
                   (float64.Pow2 (float64.of_int attempt))) in
  if maxDelay <? delay then maxDelay else delay.

Context {W : Type} `{Outside W}.
Local Open Scope prog_scope.

(** The body of the [for] loop of [WithRetry], [n] iterations from
    [attempt] on; [lastErr] is the variable of that name. *)
Fixpoint WithRetry_loop (n : nat) (attempt : Z) (cfg : RetryConfig)
         (fn : Prog W (option error)) (lastErr : option error)
  : Prog W (option error) :=
  match n with
  | O => ret lastErr
  | S n' =>
      lastErr <- enclosed (EvAttempt attempt) fn ;;
      match lastErr with
      | None => ret None
      | Some err =>
          let client_error :=
            match errors_As_RetryableError err with
            | Some (_, StatusCode) => (400 <=? StatusCode) && (StatusCode <? 500)
            | None => false
            end in
          if client_error then ret lastErr
          else if attempt <? MaxAttempts cfg - 1 then
            let delay := calculateBackoff attempt (BaseDelay cfg) (MaxDelay cfg) in
            r <- outside (select_Done_or_After delay) (EvWait delay) ;;
            match r with
            | CtxDone ctxErr => ret (Some ctxErr)
            | TimerFired => WithRetry_loop n' (attempt + 1) cfg fn lastErr
            end
          else WithRetry_loop n' (attempt + 1) cfg fn lastErr
      end
  end.

(** [WithRetry ctx cfg fn]: the loop runs while [attempt < MaxAttempts],
    from [attempt = 0]. *)
Definition WithRetry (cfg : RetryConfig) (fn : Prog W (option error))
  : Prog W (option error) :=
  WithRetry_loop (Z.to_nat (MaxAttempts cfg)) 0 cfg fn None.

End with_impl.

End servicenow_retry.

(* ===================================================================== *)
(** * Package [servicenow]: the client *)
(* ===================================================================== *)

(** [encoding/json] on the types of package [models]; a decoder returns
    the value it filled and its error, as [json.Unmarshal] does. *)
Class GoJSON : Type := {
  json_Marshal_incident : models.ServiceNowIncident.t -> string * option LibError;
  json_Marshal_update : models.ServiceNowUpdatePayload.t -> string * option LibError;
  json_Unmarshal_response : string -> models.ServiceNowResult.t * option LibError;
  json_Unmarshal_list : string -> list models.ServiceNowResult.t * option LibError;
  json_Unmarshal_payload : string -> models.AlertmanagerPayload.t * option LibError;
}.

(** A variable captured by a closure lives beside the world while the
    closure may run. *)
#[export] Instance Outside_with_local {W S : Type} `{Outside W} : Outside (W * S) := {|
  httpClient_Do req ws :=
    let '(r, w') := httpClient_Do req ws.1 in (r, (w', ws.2));
  select_Done_or_After delay ws :=
    let '(r, w') := select_Done_or_After delay ws.1 in (r, (w', ws.2));
  time_Now_Format ws :=
    let '(r, w') := time_Now_Format ws.1 in (r, (w', ws.2));
|}.

(** [v = x] on the captured variable. *)
Definition assign {W S : Type} (x : S) : Prog (W * S) unit :=
  fun ws => (tt, [], (ws.1, x)).

(** Declares the variable with value [init], runs [m], reads the variable. *)
Definition with_local {W S A : Type} (init : S) (m : Prog (W * S) A) : Prog W (A * S) :=
  fun w => let '(a, h, ws) := m (w, init) in ((a, ws.2), h, ws.1).

Module servicenow_client.
Import config models servicenow_retry.

Record Client : Type := {
  baseURL : string;
  endpointPath : string;
  username : string;
  password : string;
  rootCause : string;
  retryConfig : RetryConfig;
}.

Definition NewClient (cfg : Config) : Client :=
  {| baseURL := ServiceNowBaseURL cfg;
     endpointPath := ServiceNowEndpointPath cfg;
     username := ServiceNowUsername cfg;
     password := ServiceNowPassword cfg;
     rootCause := ServiceNowRootCause cfg;
     retryConfig := DefaultRetryConfig |}.

Module CreateIncidentResult.
Record t : Type := {
  SysID : string;
  Number : string;
}.
End CreateIncidentResult.

Definition setHeaders (c : Client) (req : http.Request) : http.Request :=
  {| http.Method := http.Method req;
     http.URL := http.URL req;
     http.Body := http.Body req;
     http.BasicAuth := Some (username c, password c);
     http.Header := [("Content-Type", "application/json");
                     ("Accept", "application/json")] |}.

Definition newRequest (method url body : string) : http.Request :=
  {| http.Method := method; http.URL := url; http.Body := body;
     http.BasicAuth := None; http.Header := [] |}.

Section with_world.
Context `{GoLib} `{GoJSON} `{GoImpl}.
Local Open Scope prog_scope.

Definition checkResponse {W : Type} (resp : http.Response) : Prog W (option error) :=
  if (200 <=? http.StatusCode resp) && (http.StatusCode resp <? 300)
  then ret None
  else
    let body := (http.ReadAll resp).1 in
    slog "ERROR" "ServiceNow API error"
         [("status_code", AInt (http.StatusCode resp)); ("response", AString body)] ;;;
    ret (Some (RetryableError
                 (errorString ("ServiceNow API returned status "
                               ++ fmt_d (http.StatusCode resp) ++ ": " ++ body))
                 (http.StatusCode resp))).

(** What the three closures share: build the request, send it, check the
    response, and hand the response to [on_success]. *)
Definition send {W : Type} `{Outside W} (c : Client) (method endpoint body : string)
           (on_success : http.Response -> Prog W (option error))
  : Prog W (option error) :=
  match http_NewRequest_error method endpoint with
  | Some err => ret (Some (wrapError "failed to create request" (errorString err)))
  | None =>
      let req := setHeaders c (newRequest method endpoint body) in
      r <- outside (httpClient_Do req) (EvHTTP req) ;;
      match r with
      | inr err => ret (Some (wrapError "failed to send request" (errorString err)))
      | inl resp =>
          cerr <- checkResponse resp ;;
          match cerr with
          | Some err => ret (Some err)
          | None => on_success resp
          end
      end
  end.

Context {W : Type} `{Outside W}.

(** The closure that [CreateIncident] hands to [WithRetry]; it assigns the
    captured [result]. *)
Definition CreateIncident_fn (c : Client) (endpoint body : string)
  : Prog (W * option CreateIncidentResult.t) (option error) :=
  send c http.MethodPost endpoint body (fun resp =>
    let '(respBody, rerr) := http.ReadAll resp in
    match rerr with
    | Some err => ret (Some (wrapError "failed to read response" (errorString err)))
    | None =>
        let '(snowResp, uerr) := json_Unmarshal_response respBody in
        match uerr with
        | Some err => ret (Some (wrapError "failed to unmarshal response" (errorString err)))
        | None =>
            assign (Some {| CreateIncidentResult.SysID := ServiceNowResult.SysID snowResp;
                            CreateIncidentResult.Number := ServiceNowResult.Number snowResp |}) ;;;
            ret None
        end
    end).

Definition CreateIncident (c : Client) (incident : ServiceNowIncident.t)
  : Prog W (option CreateIncidentResult.t * option error) :=
  let endpoint := baseURL c ++ endpointPath c in
  let '(body, merr) := json_Marshal_incident incident in
  match merr with
  | Some err => ret (None, Some (wrapError "failed to marshal incident" (errorString err)))
  | None =>
      slog "DEBUG" "creating incident in ServiceNow"
           [("correlation_id", AString (ServiceNowIncident.CorrelationID incident));
            ("short_description", AString (ServiceNowIncident.ShortDescription incident))] ;;;
      r <- with_local None (WithRetry (retryConfig c) (CreateIncident_fn c endpoint body)) ;;
      match r with
      | (Some err, _) => ret (None, Some err)
      | (None, result) => ret (result, None)
      end
  end.

Definition FindIncidentByCorrelationID_fn (c : Client) (endpoint : string)
  : Prog (W * option ServiceNowResult.t) (option error) :=
  send c http.MethodGet endpoint "" (fun resp =>
    let '(respBody, rerr) := http.ReadAll resp in
    match rerr with
    | Some err => ret (Some (wrapError "failed to read response" (errorString err)))
    | None =>
        let '(listResp, uerr) := json_Unmarshal_list respBody in
        match uerr with
        | Some err => ret (Some (wrapError "failed to unmarshal response" (errorString err)))
        | None =>
            match listResp with
            | first :: _ => assign (Some first) ;;; ret None
            | [] => ret None
            end
        end
    end).

Definition FindIncidentByCorrelationID (c : Client) (correlationID : string)
  : Prog W (option ServiceNowResult.t * option error) :=
  let endpoint :=
    baseURL c ++ endpointPath c ++ "?sysparm_query=correlation_id="
    ++ url_QueryEscape correlationID ++ "&sysparm_limit=1" in
  slog "DEBUG" "searching for incident by correlation_id"
       [("correlation_id", AString correlationID)] ;;;
  r <- with_local None
         (WithRetry (retryConfig c) (FindIncidentByCorrelationID_fn c endpoint)) ;;
  match r with
  | (Some err, _) => ret (None, Some err)
  | (None, result) => ret (result, None)
  end.

Definition ResolveIncident (c : Client) (sysID : string) : Prog W (option error) :=
  let endpoint := baseURL c ++ endpointPath c ++ "/" ++ sysID in
  now <- (fun w => let '(t, w') := time_Now_Format w in (t, [], w')) ;;
  let payload :=
    {| ServiceNowUpdatePayload.State := StateResolved;
       ServiceNowUpdatePayload.CloseCode := "Solved (Permanently)";
       ServiceNowUpdatePayload.CloseNotes :=
         "Alert resolved - condition cleared automatically";
       ServiceNowUpdatePayload.RootCause := rootCause c;
       ServiceNowUpdatePayload.RestoredDate := now |} in
  let '(body, merr) := json_Marshal_update payload in
  match merr with
  | Some err => ret (Some (wrapError "failed to marshal update payload" (errorString err)))
  | None =>
      slog "DEBUG" "resolving incident in ServiceNow" [("sys_id", AString sysID)] ;;;
      WithRetry (retryConfig c)
        (send c http.MethodPatch endpoint body (fun _ => ret None))
  end.

End with_world.

End servicenow_client.

(* ===================================================================== *)
(** * Package [webhook]: the handler *)
(* ===================================================================== *)

(** How a Go function call ends: it returns, or it panics. *)
Inductive outcome (A : Type) : Type :=
| Returned (a : A)
| Panicked (msg : string).
Arguments Returned {A} a.
Arguments Panicked {A} msg.

(** The interface [ServiceNowClient]; a method returns the Go pair of a
    pointer (nil is [None]) and an error. *)
Class ServiceNowClient (W : Type) : Type := {
  snow_CreateIncident :
    models.ServiceNowIncident.t ->
    Prog W (option servicenow_client.CreateIncidentResult.t * option error);
  snow_FindIncidentByCorrelationID :
    string -> Prog W (option models.ServiceNowResult.t * option error);
  snow_ResolveIncident : string -> Prog W (option error);
}.

(** [*servicenow.Client] implements the interface. *)
Definition Client_ServiceNowClient {W : Type} `{Outside W} `{GoLib} `{GoJSON} `{GoImpl}
           (c : servicenow_client.Client) : ServiceNowClient W :=
  {| snow_CreateIncident := servicenow_client.CreateIncident c;
     snow_FindIncidentByCorrelationID := servicenow_client.FindIncidentByCorrelationID c;
     snow_ResolveIncident := servicenow_client.ResolveIncident c |}.

Module webhook_handler.
Import config models webhook_transformer.

(** An inbound request, as far as [ServeHTTP] reads it: the method and
    what [io.ReadAll(r.Body)] returns. *)
Record InboundRequest : Type := {
  Method : string;
  ReadAll_Body : string * option LibError;
}.

(** What the handler wrote to its [http.ResponseWriter]. *)
Record ResponseWritten : Type := {
  Code : Z;
  Written : string;
}.

(** [http.Error(w, msg, code)]. *)
Definition http_Error (msg : string) (code : Z) : ResponseWritten :=
  {| Code := code; Written := msg ++ nl |}.

Definition quote : string := String (ascii_of_nat 34) EmptyString.

(** The body [{"status":"ok"}]. *)
Definition status_ok_body : string :=
  "{" ++ quote ++ "status" ++ quote ++ ":" ++ quote ++ "ok" ++ quote ++ "}".

Section with_client.
Context `{GoLib} `{GoJSON} {W : Type} `{ServiceNowClient W}.
Variable cfg : Config.
Local Open Scope prog_scope.

Definition handleFiringAlert (alert : Alert.t) (externalURL correlationID : string)
  : Prog W (outcome (option error)) :=
  let alertname := map_get (Alert.Labels alert) "alertname" in
  slog "INFO" "processing firing alert"
       [("alertname", AString alertname); ("correlation_id", AString correlationID)] ;;;
  let incident := Transform cfg alert externalURL in
  r <- enclosed (fun h _ => EvCall (CreateIncidentCall incident) h)
                (snow_CreateIncident incident) ;;
  match r with
  | (_, Some err) => ret (Returned (Some err))
  | (None, None) => ret (Panicked "invalid memory address or nil pointer dereference")
  | (Some result, None) =>
      slog "INFO" "created incident in ServiceNow"
           [("alertname", AString alertname);
            ("correlation_id", AString correlationID);
            ("incident_number",
             AString (servicenow_client.CreateIncidentResult.Number result));
            ("sys_id", AString (servicenow_client.CreateIncidentResult.SysID result))] ;;;
      ret (Returned None)
  end.

Definition handleResolvedAlert (correlationID alertname : string)
  : Prog W (outcome (option error)) :=
  slog "INFO" "processing resolved alert"
       [("alertname", AString alertname); ("correlation_id", AString correlationID)] ;;;
  r <- enclosed (fun h _ => EvCall (FindIncidentByCorrelationIDCall correlationID) h)
                (snow_FindIncidentByCorrelationID correlationID) ;;
  match r with
  | (_, Some err) => ret (Returned (Some err))
  | (None, None) =>
      slog "WARN" "no existing incident found for resolved alert"
           [("alertname", AString alertname); ("correlation_id", AString correlationID)] ;;;
      ret (Returned None)
  | (Some existing, None) =>
      rerr <- enclosed (fun h _ => EvCall (ResolveIncidentCall (ServiceNowResult.SysID existing)) h)
                       (snow_ResolveIncident (ServiceNowResult.SysID existing)) ;;
      match rerr with
      | Some err => ret (Returned (Some err))
      | None =>
          slog "INFO" "resolved incident in ServiceNow"
               [("alertname", AString alertname);
                ("correlation_id", AString correlationID);
                ("sys_id", AString (ServiceNowResult.SysID existing));
                ("incident_number", AString (ServiceNowResult.Number existing))] ;;;
          ret (Returned None)
      end
  end.

Definition processAlert (alert : Alert.t) (externalURL : string)
  : Prog W (outcome (option error)) :=
  let alertname := map_get (Alert.Labels alert) "alertname" in
  let correlationID := GenerateCorrelationID alertname (Alert.Labels alert) in
  if String.eqb (Alert.Status alert) AlertStatusFiring
  then handleFiringAlert alert externalURL correlationID
  else if String.eqb (Alert.Status alert) AlertStatusResolved
  then handleResolvedAlert correlationID alertname
  else
    slog "WARN" "unknown alert status"
         [("alertname", AString alertname); ("status", AString (Alert.Status alert))] ;;;
    ret (Returned None).

(** [for _, alert := range payload.Alerts { ... errCount++ ... }]: the
    count of failed alerts after the loop, unless an iteration panics. *)
Fixpoint processAlerts (alerts : list Alert.t) (externalURL : string) (errCount : Z)
  : Prog W (outcome Z) :=
  match alerts with
  | [] => ret (Returned errCount)
  | alert :: rest =>
      r <- processAlert alert externalURL ;;
      match r with
      | Panicked msg => ret (Panicked msg)
      | Returned None => processAlerts rest externalURL errCount
      | Returned (Some err) =>
          slog "ERROR" "failed to process alert"
               [("alertname", AString (map_get (Alert.Labels alert) "alertname"));
                ("status", AString (Alert.Status alert));
                ("error", AError err)] ;;;
          processAlerts rest externalURL (errCount + 1)
      end
  end.

Definition ServeHTTP (r : InboundRequest) : Prog W (outcome ResponseWritten) :=
  if negb (String.eqb (Method r) http.MethodPost)
  then ret (Returned (http_Error "Method not allowed" http.StatusMethodNotAllowed))
  else
    let '(body, rerr) := ReadAll_Body r in
    match rerr with
    | Some err =>
        slog "ERROR" "failed to read request body" [("error", AError (errorString err))] ;;;
        ret (Returned (http_Error "Failed to read request body" http.StatusBadRequest))
    | None =>
        let '(payload, uerr) := json_Unmarshal_payload body in
        match uerr with
        | Some err =>
            slog "ERROR" "failed to parse alertmanager payload"
                 [("error", AError (errorString err))] ;;;
            ret (Returned (http_Error "Invalid JSON payload" http.StatusBadRequest))
        | None =>
            let alerts := AlertmanagerPayload.Alerts payload in
            slog "INFO" "received alertmanager webhook"
                 [("alert_count", AInt (Z.of_nat (List.length alerts)));
                  ("status", AString (AlertmanagerPayload.Status payload));
                  ("receiver", AString (AlertmanagerPayload.Receiver payload))] ;;;
            r <- processAlerts alerts (AlertmanagerPayload.ExternalURL payload) 0 ;;
            match r with
            | Panicked msg => ret (Panicked msg)
            | Returned errCount =>
                (if 0 <? errCount
                 then slog "WARN" "some alerts failed to process"
                           [("total", AInt (Z.of_nat (List.length alerts)));
                            ("failed", AInt errCount)]
                 else ret tt) ;;;
                ret (Returned {| Code := http.StatusOK; Written := status_ok_body |})
            end
        end
    end.

End with_client.

(** The call that the processing of an alert starts with: a create for a
    firing alert, a lookup for a resolved one, none for any other status. *)
Definition expected_call `{GoLib} (cfg : Config) (externalURL : string) (alert : Alert.t)
  : option ClientCall :=
  if String.eqb (Alert.Status alert) AlertStatusFiring
  then Some (CreateIncidentCall (Transform cfg alert externalURL))
  else if String.eqb (Alert.Status alert) AlertStatusResolved
  then Some (FindIncidentByCorrelationIDCall
               (GenerateCorrelationID (map_get (Alert.Labels alert) "alertname")
                                      (Alert.Labels alert)))
  else None.

Definition is_firing (alert : Alert.t) : bool :=
  String.eqb (Alert.Status alert) AlertStatusFiring.

(** The calls a history holds at its top level, in order. *)
Definition calls_of (h : list Event) : list ClientCall :=
  omap (fun ev => match ev with EvCall c _ => Some c | _ => None end) h.

Definition is_create (c : ClientCall) : bool :=
  match c with CreateIncidentCall _ => true | _ => false end.

Definition is_resolve (c : ClientCall) : bool :=
  match c with ResolveIncidentCall _ => true | _ => false end.

Definition not_resolve (c : ClientCall) : bool := negb (is_resolve c).

(** The client never answers a create with neither a result nor an
    error (the convention of Go, which the production client keeps). *)
Definition create_answers {W : Type} `{ServiceNowClient W} : Prop :=
  forall (incident : ServiceNowIncident.t) (w : W),
    result_of (snow_CreateIncident incident w) <> (None, None).

(** The record that the loop of [ServeHTTP] logs for an alert whose
    processing returned an error, and the summary it logs after the loop
    when at least one alert failed. *)
Definition is_failure_log (ev : Event) : bool :=
  match ev with
  | EvLog level msg _ =>
      String.eqb level "ERROR" && String.eqb msg "failed to process alert"
  | _ => false
  end.

Definition is_summary_log (ev : Event) : bool :=
  match ev with
  | EvLog level msg _ =>
      String.eqb level "WARN" && String.eqb msg "some alerts failed to process"
  | _ => false
  end.

(** The incidents of the creates and the identifiers of the resolves
    among a list of calls, in order. *)
Definition created_of (calls : list ClientCall) : list ServiceNowIncident.t :=
  omap (fun c => match c with CreateIncidentCall i => Some i | _ => None end) calls.

Definition resolved_of (calls : list ClientCall) : list string :=
  omap (fun c => match c with ResolveIncidentCall s => Some s | _ => None end) calls.

(** The number of requests that an alert may cost a client that tries
    each operation at most [n] times: a create for a firing alert, a lookup
    and a resolve for a resolved one, nothing for any other status; and the
    number for a batch. *)
Definition request_budget (n : nat) (alert : Alert.t) : nat :=
  if String.eqb (Alert.Status alert) AlertStatusFiring then n
  else if String.eqb (Alert.Status alert) AlertStatusResolved then 2 * n
  else 0.

Definition batch_budget (n : nat) (alerts : list Alert.t) : nat :=
  fold_right (fun alert total => request_budget n alert + total)%nat 0%nat alerts.

End webhook_handler.

(* ===================================================================== *)
(** * The retry policy, as the specification words it *)
(* ===================================================================== *)

Module retry_policy.
Import servicenow_retry.

(** A classified error with a status code in the 4xx range. *)
Definition is_client_failure (err : error) : bool :=
  match errors_As_RetryableError err with
  | Some (_, StatusCode) => (400 <=? StatusCode) && (StatusCode <? 500)
  | None => false
  end.

(** A classified error with a status code of 500 or more. *)
Definition is_server_failure (err : error) : bool :=
  match errors_As_RetryableError err with
  | Some (_, StatusCode) => 500 <=? StatusCode
  | None => false
  end.

(** A classified error with a status code outside 2xx and outside 4xx. *)
Definition is_other_status_failure (err : error) : bool :=
  match errors_As_RetryableError err with
  | Some (_, StatusCode) =>
      negb ((200 <=? StatusCode) && (StatusCode <? 300))
      && negb ((400 <=? StatusCode) && (StatusCode <? 500))
  | None => false
  end.

(** The histories and results the policy allows from attempt [k] on:
    success ends the run; a 4xx failure ends it at once; any other failure
    of the final attempt is returned as it is, with no wait; any other
    failure before that is followed by a wait of [calculateBackoff k],
    which either is cut short by the context, whose error then is the
    result, or is followed by the next attempt. *)
Inductive RetryRun `{GoImpl} (cfg : RetryConfig) : Z -> list Event -> option error -> Prop :=
| run_success k h :
    RetryRun cfg k [EvAttempt k h None] None
| run_client_failure k h err :
    is_client_failure err = true ->
    RetryRun cfg k [EvAttempt k h (Some err)] (Some err)
| run_exhausted k h err :
    is_client_failure err = false ->
    k = MaxAttempts cfg - 1 ->
    RetryRun cfg k [EvAttempt k h (Some err)] (Some err)
| run_cancelled k h err ctxErr :
    is_client_failure err = false ->
    k < MaxAttempts cfg - 1 ->
    RetryRun cfg k
      [EvAttempt k h (Some err);
       EvWait (calculateBackoff k (BaseDelay cfg) (MaxDelay cfg)) (CtxDone ctxErr)]
      (Some ctxErr)
| run_retry k h err rest res :
    is_client_failure err = false ->
    k < MaxAttempts cfg - 1 ->
    RetryRun cfg (k + 1) rest res ->
    RetryRun cfg k
      (EvAttempt k h (Some err)
       :: EvWait (calculateBackoff k (BaseDelay cfg) (MaxDelay cfg)) TimerFired
       :: rest)
      res.

(** The attempts of a history, by number and error. *)
Definition attempts_of (h : list Event) : list (Z * option error) :=
  omap (fun ev => match ev with EvAttempt k _ err => Some (k, err) | _ => None end) h.

(** The delays of the waits of a history. *)
Definition waits_of (h : list Event) : list Z :=
  omap (fun ev => match ev with EvWait d _ => Some d | _ => None end) h.

Definition is_cancelled_wait (ev : Event) : bool :=
  match ev with EvWait _ (CtxDone _) => true | _ => false end.

End retry_policy.

(* ===================================================================== *)
(** * Test doubles *)
(* ===================================================================== *)

Module testing.
Import config models.

(** A scripted outside, like the [httptest] servers of the client tests:
    the answers of the server, in order (a refused connection once they
    run out), and what each [select] receives (the timer once they run
    out). *)
Record Script : Type := {
  responses : list (http.Response + LibError);
  selects : list SelectResult;
}.

#[export] Instance Script_Outside : Outside Script := {|
  httpClient_Do _ w :=
    match responses w with
    | r :: rs => (r, {| responses := rs; selects := selects w |})
    | [] => (inr "connection refused", w)
    end;
  select_Done_or_After _ w :=
    match selects w with
    | r :: rs => (r, {| responses := responses w; selects := rs |})
    | [] => (TimerFired, w)
    end;
  time_Now_Format w := ("01/15/2024 10:00:00 AM", w);
|}.

(** A server answer with status [code] and body [body]. *)
Definition answer (code : Z) (body : string) : http.Response + LibError :=
  inl {| http.StatusCode := code; http.ReadAll := (body, None) |}.

(** The host of a URL of the plain shape [scheme://host/path]: a stand-in
    for [net/url] on the URLs of the tests. *)
Definition plain_hostname (rawURL : string) : option string :=
  let i := GoString.Index rawURL "://" in
  if i =? -1 then Some ""
  else
    let rest := GoString.slice_from (Z.to_nat (i + 3)) rawURL in
    let j := GoString.Index rest "/" in
    Some (if j =? -1 then rest else GoString.slice_to (Z.to_nat j) rest).

#[export] Instance plain_lib : GoLib := {|
  url_Parse_Hostname := plain_hostname;
  url_PathEscape s := s;
  url_QueryEscape s := s;
  time_Format_UTC _ := "2024-01-15 10:00:00 UTC";
  fmt_d n := DecimalString.NilZero.string_of_int (Z.to_int n);
  http_NewRequest_error _ _ := None;
|}.

#[export] Instance amd64 : GoImpl := {|
  float64_to_int64_unrepresentable := float64.amd64_unrepresentable;
|}.

Definition zero_result : ServiceNowResult.t :=
  {| ServiceNowResult.SysID := ""; ServiceNowResult.Number := "";
     ServiceNowResult.State := ""; ServiceNowResult.CorrelationID := "";
     ServiceNowResult.ShortDescription := "" |}.

Definition zero_payload : AlertmanagerPayload.t :=
  {| AlertmanagerPayload.Version := ""; AlertmanagerPayload.Status := "";
     AlertmanagerPayload.Receiver := ""; AlertmanagerPayload.ExternalURL := "";
     AlertmanagerPayload.Alerts := [] |}.

Definition alert_with (status : string) (labels : gmap string string) : Alert.t :=
  {| Alert.Status := status; Alert.Labels := labels; Alert.Annotations := ∅;
     Alert.StartsAt := 0; Alert.EndsAt := 0;
     Alert.GeneratorURL := ""; Alert.Fingerprint := "" |}.

(** The payload of [TestHandler_ServeHTTP_MultipleAlerts]. *)
Definition three_firing : AlertmanagerPayload.t :=
  {| AlertmanagerPayload.Version := "4"; AlertmanagerPayload.Status := "firing";
     AlertmanagerPayload.Receiver := ""; AlertmanagerPayload.ExternalURL := "";
     AlertmanagerPayload.Alerts :=
       [ alert_with "firing" {[ "alertname" := "Alert1" ]};
         alert_with "firing" {[ "alertname" := "Alert2" ]};
         alert_with "firing" {[ "alertname" := "Alert3" ]} ] |}.

(** The payload of [TestHandler_ServeHTTP_ResolvedAlert_NoExistingIncident]. *)
Definition one_resolved : AlertmanagerPayload.t :=
  {| AlertmanagerPayload.Version := "4"; AlertmanagerPayload.Status := "resolved";
     AlertmanagerPayload.Receiver := ""; AlertmanagerPayload.ExternalURL := "";
     AlertmanagerPayload.Alerts :=
       [ alert_with "resolved" {[ "alertname" := "TestAlert" ]} ] |}.

(** A decoder that knows the bodies of the tests by name, and the
    answers of the test servers. *)
#[export] Instance table_json : GoJSON := {|
  json_Marshal_incident i := (ServiceNowIncident.CorrelationID i, None);
  json_Marshal_update u := (ServiceNowUpdatePayload.State u, None);
  json_Unmarshal_response body :=
    if String.eqb body "created"
    then ({| ServiceNowResult.SysID := "abc123"; ServiceNowResult.Number := "INC0001234";
             ServiceNowResult.State := ""; ServiceNowResult.CorrelationID := "";
             ServiceNowResult.ShortDescription := "" |}, None)
    else (zero_result, Some "unexpected end of JSON input");
  json_Unmarshal_list body :=
    if String.eqb body "none" then ([], None)
    else ([], Some "unexpected end of JSON input");
  json_Unmarshal_payload body :=
    if String.eqb body "three firing" then (three_firing, None)
    else if String.eqb body "one resolved" then (one_resolved, None)
    else (zero_payload, Some "invalid character");
|}.

(** [mockServiceNowClient] of the handler tests: the three optional
    functions; the state holds [createCalls] and [resolveCalls]. *)
Record mockServiceNowClient : Type := {
  createIncidentFn :
    option (ServiceNowIncident.t ->
            option servicenow_client.CreateIncidentResult.t * option error);
  findIncidentByCorrelationFn :
    option (string -> option ServiceNowResult.t * option error);
  resolveIncidentFn : option (string -> option error);
}.

Record mockCalls : Type := {
  createCalls : list ServiceNowIncident.t;
  resolveCalls : list string;
}.

Definition mock (m : mockServiceNowClient) : ServiceNowClient mockCalls := {|
  snow_CreateIncident incident w :=
    let w' := {| createCalls := (createCalls w ++ [incident])%list;
                 resolveCalls := resolveCalls w |} in
    match createIncidentFn m with
    | Some f => (f incident, [], w')
    | None =>
        ((Some {| servicenow_client.CreateIncidentResult.SysID := "mock-sys-id";
                  servicenow_client.CreateIncidentResult.Number := "INC0000001" |},
          None), [], w')
    end;
  snow_FindIncidentByCorrelationID correlationID w :=
    match findIncidentByCorrelationFn m with
    | Some f => (f correlationID, [], w)
    | None => ((None, None), [], w)
    end;
  snow_ResolveIncident sysID w :=
    let w' := {| createCalls := createCalls w;
                 resolveCalls := (resolveCalls w ++ [sysID])%list |} in
    match resolveIncidentFn m with
    | Some f => (f sysID, [], w')
    | None => (None, [], w')
    end;
|}.

Definition no_calls : mockCalls := {| createCalls := []; resolveCalls := [] |}.

Definition test_config : Config :=
  {| ClusterLabelKey := "cluster"; EnvironmentLabelKey := "environment";
     ServiceNowBaseURL := "https://snow.example.com";
     ServiceNowEndpointPath := "/api/now/table/incident";
     ServiceNowUsername := "testuser"; ServiceNowPassword := "testpass";
     ServiceNowRootCause := "";
     ServiceNowImpact := "3"; ServiceNowUrgency := "3";
     ServiceNowCategory := "software"; ServiceNowSubcategory := "openshift";
     ServiceNowAssignmentGroup := ""; ServiceNowCallerID := "" |}.

Definition test_incident : ServiceNowIncident.t :=
  {| ServiceNowIncident.ShortDescription := "Test";
     ServiceNowIncident.Description := "";
     ServiceNowIncident.Impact := ""; ServiceNowIncident.Urgency := "";
     ServiceNowIncident.Category := ""; ServiceNowIncident.Subcategory := "";
     ServiceNowIncident.AssignmentGroup := ""; ServiceNowIncident.CallerID := "";
     ServiceNowIncident.CorrelationID := "test123" |}.

(** A server that accepts the create with an answer that does not
    decode, then answers properly. *)
Definition garbled_then_created : Script :=
  {| responses := [answer 201 "garbled"; answer 201 "created"]; selects := [] |}.

(** The client of [TestHandler_ServeHTTP_ResolvedAlert_NoExistingIncident]. *)
Definition mock_no_existing_incident : mockServiceNowClient :=
  {| createIncidentFn := None;
     findIncidentByCorrelationFn := Some (fun _ => (None, None));
     resolveIncidentFn := None |}.

(** A client whose every create fails. *)
Definition mock_create_fails : mockServiceNowClient :=
  {| createIncidentFn := Some (fun _ => (None, Some (errorString "boom")));
     findIncidentByCorrelationFn := None;
     resolveIncidentFn := None |}.

Definition post (body : string) : webhook_handler.InboundRequest :=
  {| webhook_handler.Method := "POST"; webhook_handler.ReadAll_Body := (body, None) |}.

(** An operation that fails the same way every time. *)
Definition always (err : error) : Prog Script (option error) :=
  fun w => (Some err, [], w).

Definition quiet : Script := {| responses := []; selects := [] |}.

Definition bad_request : error := RetryableError (errorString "bad request") 400.
Definition server_error : error := RetryableError (errorString "internal server error") 500.
Definition found : error := RetryableError (errorString "found") 302.

(** The error of an attempt whose request never reached the server. *)
Definition transport_error : error :=
  wrapError "failed to send request" (errorString "connection refused").

(** The server of [TestClient_CreateIncident_ServerError]: every request
    is answered 500; the timer of every wait fires. *)
Definition failing_server : Outside unit := {|
  httpClient_Do _ w := (answer 500 "internal server error", w);
  select_Done_or_After _ w := (TimerFired, w);
  time_Now_Format w := ("01/15/2024 10:00:00 AM", w);
|}.

(** A library for which no request can be built, as [net/http] is for a
    base URL that does not parse. *)
Definition unparsable_lib : GoLib := {|
  url_Parse_Hostname := plain_hostname;
  url_PathEscape s := s;
  url_QueryEscape s := s;
  time_Format_UTC _ := "2024-01-15 10:00:00 UTC";
  fmt_d n := DecimalString.NilZero.string_of_int (Z.to_int n);
  http_NewRequest_error _ _ := Some "missing protocol scheme";
|}.

(** The record of [TestClient_FindIncidentByCorrelationID], and a second
    one. *)
Definition test_record : ServiceNowResult.t :=
  {| ServiceNowResult.SysID := "sys123"; ServiceNowResult.Number := "INC0001234";
     ServiceNowResult.State := ""; ServiceNowResult.CorrelationID := "test-correlation-id";
     ServiceNowResult.ShortDescription := "" |}.

Definition other_record : ServiceNowResult.t :=
  {| ServiceNowResult.SysID := "sys456"; ServiceNowResult.Number := "INC0005678";
     ServiceNowResult.State := ""; ServiceNowResult.CorrelationID := "test-correlation-id";
     ServiceNowResult.ShortDescription := "" |}.

(** A decoder that knows, besides, a list of two records. *)
Definition records_json : GoJSON := {|
  json_Marshal_incident := json_Marshal_incident (GoJSON := table_json);
  json_Marshal_update := json_Marshal_update (GoJSON := table_json);
  json_Unmarshal_response := json_Unmarshal_response (GoJSON := table_json);
  json_Unmarshal_list body :=
    if String.eqb body "two records" then ([test_record; other_record], None)
    else json_Unmarshal_list (GoJSON := table_json) body;
  json_Unmarshal_payload := json_Unmarshal_payload (GoJSON := table_json);
|}.

(** The client of [TestHandler_ServeHTTP_ResolvedAlert]: the lookup finds
    an incident. *)
Definition mock_existing_incident : mockServiceNowClient :=
  {| createIncidentFn := None;
     findIncidentByCorrelationFn :=
       Some (fun _ =>
               (Some {| ServiceNowResult.SysID := "abc123";
                        ServiceNowResult.Number := "INC0001234";
                        ServiceNowResult.State := ""; ServiceNowResult.CorrelationID := "";
                        ServiceNowResult.ShortDescription := "" |}, None));
     resolveIncidentFn := None |}.

(** A client whose lookups fail, and one that answers a create with
    neither a result nor an error. *)
Definition mock_lookup_fails : mockServiceNowClient :=
  {| createIncidentFn := None;
     findIncidentByCorrelationFn := Some (fun _ => (None, Some (errorString "lookup failed")));
     resolveIncidentFn := None |}.

Definition mock_create_nil : mockServiceNowClient :=
  {| createIncidentFn := Some (fun _ => (None, None));
     findIncidentByCorrelationFn := None;
     resolveIncidentFn := None |}.

(** [&mockServiceNowClient{}]: no function set. *)
Definition mock_default : mockServiceNowClient :=
  {| createIncidentFn := None;
     findIncidentByCorrelationFn := None;
     resolveIncidentFn := None |}.

(** A request with another method, and one whose body is not JSON, as in
    [TestHandler_ServeHTTP_MethodNotAllowed] and
    [TestHandler_ServeHTTP_InvalidJSON]. *)
Definition get_request : webhook_handler.InboundRequest :=
  {| webhook_handler.Method := "GET"; webhook_handler.ReadAll_Body := ("", None) |}.

End testing.

(* ===================================================================== *)
(** * Properties *)
(* ===================================================================== *)

Example sha256_abc :
  Hex.EncodeToString (SHA256.Sum256 (GoString.bytes "abc"))
  = "ba7816bf8f01cfea414140de5dae2223b00361a396177a9cb410ff61f20015ad".
Proof. vm_compute. reflexivity. Qed.

Example sha256_empty :
  Hex.EncodeToString (SHA256.Sum256 (GoString.bytes ""))
  = "e3b0c44298fc1c149afbf4c8996fb92427ae41e4649b934ca495991b7852b855".
Proof. vm_compute. reflexivity. Qed.

Example sha256_two_blocks :
  Hex.EncodeToString (SHA256.Sum256 (GoString.bytes
    "abcdbcdecdefdefgefghfghighijhijkijkljklmklmnlmnomnopnopq"))
  = "248d6a61d20638b8e5c026930c3e6039a33ce45964ff2167f6ecedd419db06c1".
Proof. vm_compute. reflexivity. Qed.

(* --------------------------------------------------------------------- *)
(** ** The string order and [sort.Strings] *)

Section string_order.
Import GoString.

Lemma ascii_compare_refl (a : ascii) : Ascii.compare a a = Eq.
Proof. unfold Ascii.compare. apply N.compare_refl. Qed.

Lemma ascii_compare_eq (a b : ascii) : Ascii.compare a b = Eq ↔ a = b.
Proof.
  split; [apply Ascii.compare_eq_iff | intros ->; apply ascii_compare_refl].
Qed.

Lemma ascii_compare_lt_trans (a b c : ascii) :
  Ascii.compare a b = Lt → Ascii.compare b c = Lt → Ascii.compare a c = Lt.
Proof.
  unfold Ascii.compare. rewrite !N.compare_lt_iff. lia.
Qed.

Lemma string_compare_refl (s : string) : String.compare s s = Eq.
Proof.
  induction s as [|a s IH]; simpl; [done|].
  by rewrite ascii_compare_refl.
Qed.

Lemma string_compare_lt_trans (s1 s2 s3 : string) :
  String.compare s1 s2 = Lt → String.compare s2 s3 = Lt →
  String.compare s1 s3 = Lt.
Proof.
  revert s2 s3.
  induction s1 as [|a s1 IH]; intros [|b s2] [|c s3]; simpl; try done.
  destruct (Ascii.compare a b) eqn:Hab; try done;
    destruct (Ascii.compare b c) eqn:Hbc; try done; intros H12 H23.
  - apply ascii_compare_eq in Hab as ->. apply ascii_compare_eq in Hbc as ->.
    rewrite ascii_compare_refl. eauto.
  - apply ascii_compare_eq in Hab as ->. by rewrite Hbc.
  - apply ascii_compare_eq in Hbc as ->. by rewrite Hab.
  - by rewrite (ascii_compare_lt_trans a b c).
Qed.

Lemma leb_iff (s1 s2 : string) :
  le s1 s2 ↔ String.compare s1 s2 = Lt ∨ s1 = s2.
Proof.
  unfold le, String.leb. split.
  - destruct (String.compare s1 s2) eqn:E; try done; intros _.
    + right. by apply String.compare_eq_iff.
    + by left.
  - intros [-> | ->]; [done|]. by rewrite string_compare_refl.
Qed.

#[export] Instance le_trans : Transitive le.
Proof.
  intros s1 s2 s3. rewrite !leb_iff.
  intros [H12 | ->] [H23 | ->]; eauto using string_compare_lt_trans.
Qed.

#[export] Instance le_total : Total le.
Proof. intros s1 s2. apply String.leb_total. Qed.

#[export] Instance le_antisym : AntiSymm (=) le.
Proof. intros s1 s2. apply String.leb_antisym. Qed.

(** Sorting forgets the order in which the keys were visited. *)
Lemma sort_Strings_perm (l1 l2 : list string) :
  l1 ≡ₚ l2 → sort_Strings l1 = sort_Strings l2.
Proof.
  intros Hp. unfold sort_Strings.
  apply (Sorted_unique le); try apply Sorted_merge_sort; try apply _.
  by rewrite !merge_sort_Permutation.
Qed.

Lemma sort_Strings_sorted (l : list string) : Sorted le (sort_Strings l).
Proof. apply Sorted_merge_sort; apply _. Qed.

Lemma sort_Strings_Permutation (l : list string) : sort_Strings l ≡ₚ l.
Proof. apply merge_sort_Permutation. Qed.

End string_order.

(* --------------------------------------------------------------------- *)
(** ** The digest and its hexadecimal form *)

Section digest_shape.

Lemma Sum256_length (data : list Z) : List.length (SHA256.Sum256 data) = 32%nat.
Proof. unfold SHA256.Sum256. rewrite !length_app. reflexivity. Qed.

Lemma be32_byte (x : Z) : Forall (fun v => 0 <= v < 256) (SHA256.be32 x).
Proof.
  assert (Hb : ∀ y, 0 <= Z.land y 255 < 256).
  { intros y. change 255 with (Z.ones 8). rewrite Z.land_ones by lia.
    apply Z.mod_pos_bound. lia. }
  unfold SHA256.be32. repeat constructor; apply Hb.
Qed.

Lemma Sum256_bytes (data : list Z) :
  Forall (fun v => 0 <= v < 256) (SHA256.Sum256 data).
Proof.
  unfold SHA256.Sum256. rewrite !Forall_app. repeat split; apply be32_byte.
Qed.

Lemma EncodeToString_length (src : list Z) :
  String.length (Hex.EncodeToString src) = (2 * List.length src)%nat.
Proof. induction src as [|v src IH]; simpl; [done|]. rewrite IH. lia. Qed.

Lemma digit_is_hex (i : Z) : 0 <= i < 16 → Hex.is_hex (Hex.digit i) = true.
Proof.
  intros Hi.
  assert (Hc : i = 0 ∨ i = 1 ∨ i = 2 ∨ i = 3 ∨ i = 4 ∨ i = 5 ∨ i = 6 ∨ i = 7
               ∨ i = 8 ∨ i = 9 ∨ i = 10 ∨ i = 11 ∨ i = 12 ∨ i = 13 ∨ i = 14
               ∨ i = 15) by lia.
  repeat (destruct Hc as [-> | Hc]; [reflexivity|]). by subst.
Qed.

Lemma EncodeToString_hex (src : list Z) :
  Forall (fun v => 0 <= v < 256) src →
  forallb Hex.is_hex (list_ascii_of_string (Hex.EncodeToString src)) = true.
Proof.
  induction 1 as [|v src Hv _ IH]; simpl; [done|].
  rewrite IH, !andb_true_r. apply andb_true_iff. split; apply digit_is_hex.
  - rewrite Z.shiftr_div_pow2 by lia. change (2 ^ 4) with 16.
    split; [apply Z.div_pos; lia | apply Z.div_lt_upper_bound; lia].
  - change 0x0f with (Z.ones 4). rewrite Z.land_ones by lia.
    apply Z.mod_pos_bound. lia.
Qed.

End digest_shape.

(* --------------------------------------------------------------------- *)
(** ** The correlation ID *)

Section correlation_id.
Import webhook_transformer.

Lemma GenerateCorrelationID_visiting_perm visit1 visit2 alertname labels :
  visit1 ≡ₚ visit2 →
  GenerateCorrelationID_visiting visit1 alertname labels
  = GenerateCorrelationID_visiting visit2 alertname labels.
Proof.
  intros Hp. unfold GenerateCorrelationID_visiting.
  by rewrite (sort_Strings_perm _ _ Hp).
Qed.

Lemma GenerateCorrelationID_visiting_length visit alertname labels :
  String.length (GenerateCorrelationID_visiting visit alertname labels) = 16%nat.
Proof.
  unfold GenerateCorrelationID_visiting.
  rewrite EncodeToString_length, length_take, Sum256_length. reflexivity.
Qed.

Lemma GenerateCorrelationID_visiting_hex visit alertname labels :
  forallb Hex.is_hex
    (list_ascii_of_string (GenerateCorrelationID_visiting visit alertname labels))
  = true.
Proof.
  unfold GenerateCorrelationID_visiting.
  apply EncodeToString_hex. apply Forall_take. apply Sum256_bytes.
Qed.

End correlation_id.

(** C1. Whatever order the [range] loop visits the label map in, and
    whatever order a second call visits it in, [GenerateCorrelationID]
    returns the same string for the same alert name and the same label
    map -- the one computed from the map's own key list -- and that string
    has exactly 16 characters, each a hexadecimal digit. *)
Theorem GenerateCorrelationID_deterministic
    (alertname : string) (labels : gmap string string)
    (visit1 visit2 : list string) :
  visit1 ≡ₚ map_keys labels →
  visit2 ≡ₚ map_keys labels →
  let id1 := webhook_transformer.GenerateCorrelationID_visiting visit1 alertname labels in
  let id2 := webhook_transformer.GenerateCorrelationID_visiting visit2 alertname labels in
  id1 = id2
  ∧ id1 = webhook_transformer.GenerateCorrelationID alertname labels
  ∧ String.length id1 = 16%nat
  ∧ forallb Hex.is_hex (list_ascii_of_string id1) = true.
Proof.
  intros H1 H2 id1 id2. subst id1 id2. split; [|split; [|split]].
  - apply GenerateCorrelationID_visiting_perm. by rewrite H1, H2.
  - unfold webhook_transformer.GenerateCorrelationID.
    by apply GenerateCorrelationID_visiting_perm.
  - apply GenerateCorrelationID_visiting_length.
  - apply GenerateCorrelationID_visiting_hex.
Qed.

(* --------------------------------------------------------------------- *)
(** ** Go strings: occurrences and slices *)

Section go_strings.
Import GoString cluster_spec.

Lemma append_nil_l (s : string) : "" ++ s = s.
Proof. reflexivity. Qed.

Lemma append_cons (a : ascii) (s t : string) : String a s ++ t = String a (s ++ t).
Proof. reflexivity. Qed.

Lemma append_nil_r (s : string) : s ++ "" = s.
Proof. induction s as [|a s IH]; [done|]. by rewrite append_cons, IH. Qed.

Lemma append_assoc (s t u : string) : (s ++ t) ++ u = s ++ t ++ u.
Proof. induction s as [|a s IH]; [done|]. by rewrite !append_cons, IH. Qed.

Lemma length_append (s t : string) :
  String.length (s ++ t) = (String.length s + String.length t)%nat.
Proof. induction s as [|a s IH]; [done|]. rewrite append_cons. simpl. by rewrite IH. Qed.

Lemma append_eq_nil (s t : string) : s ++ t = "" → s = "" ∧ t = "".
Proof. destruct s; [done|]. rewrite append_cons. discriminate. Qed.

(** Two splittings of one string: the shorter first part is a prefix of
    the longer. *)
Lemma append_eq_append (s1 t1 s2 t2 : string) :
  s1 ++ t1 = s2 ++ t2 →
  (String.length s1 <= String.length s2)%nat →
  ∃ mid, s2 = s1 ++ mid ∧ t1 = mid ++ t2.
Proof.
  revert s2. induction s1 as [|a s1 IH]; intros s2 Heq Hlen.
  - exists s2. by rewrite !append_nil_l in *.
  - destruct s2 as [|b s2]; [simpl in Hlen; lia|].
    rewrite !append_cons in Heq. injection Heq as -> Heq.
    destruct (IH s2 Heq) as (mid & -> & ->); [simpl in Hlen; lia|].
    by exists mid.
Qed.

Lemma HasPrefix_spec (s sub : string) :
  HasPrefix s sub = true ↔ ∃ post, s = sub ++ post.
Proof.
  revert s. induction sub as [|b sub IH]; intros s; simpl.
  - split; [intros _; exists s; reflexivity | reflexivity].
  - destruct s as [|a s].
    + split; [done | intros (post & Heq); rewrite append_cons in Heq; discriminate].
    + destruct (Ascii.eqb_spec a b) as [->|Hne].
      * rewrite IH. split; intros (post & Heq); exists post.
        -- by rewrite append_cons, Heq.
        -- rewrite append_cons in Heq. by injection Heq.
      * split; [done|]. intros (post & Heq). rewrite append_cons in Heq.
        injection Heq as Hab _. done.
Qed.

Lemma slice_from_append (s t : string) : slice_from (String.length s) (s ++ t) = t.
Proof. induction s as [|a s IH]; [done|]. rewrite append_cons. exact IH. Qed.

Lemma slice_to_append (s t : string) : slice_to (String.length s) (s ++ t) = s.
Proof.
  induction s as [|a s IH]; [by destruct t|]. rewrite append_cons. simpl. by rewrite IH.
Qed.

(** [strings.Index] finds the first occurrence, or none when there is none. *)
Lemma Index_spec (s sub : string) :
  (Index s sub = -1 ∧ ¬ contains s sub)
  ∨ (∃ pre post, first_at sub s pre post ∧ Index s sub = Z.of_nat (String.length pre)).
Proof.
  induction s as [|a s IH].
  - cbn [Index]. destruct (HasPrefix "" sub) eqn:Hp.
    + right. apply HasPrefix_spec in Hp as (post & Hp). exists "", post.
      split; [|done]. split; [done|]. intros pre' post' _. simpl. lia.
    + left. split; [done|]. intros (pre & post & Heq).
      symmetry in Heq. apply append_eq_nil in Heq as (-> & Heq).
      assert (HasPrefix "" sub = true) by (apply HasPrefix_spec; eauto).
      congruence.
  - cbn [Index]. destruct (HasPrefix (String a s) sub) eqn:Hp.
    + right. apply HasPrefix_spec in Hp as (post & Hp). exists "", post.
      split; [|done]. split; [done|]. intros pre' post' _. simpl. lia.
    + assert (Hhead : ∀ post, String a s ≠ "" ++ sub ++ post).
      { intros post Heq.
        assert (HasPrefix (String a s) sub = true) by (apply HasPrefix_spec; eauto).
        congruence. }
      destruct IH as [(-> & Hnone) | (pre & post & (Heq & Hmin) & ->)].
      * left. split; [done|]. intros ([|b pre] & post & Heq); [by eapply Hhead|].
        rewrite append_cons in Heq. injection Heq as -> Heq.
        apply Hnone. by exists pre, post.
      * right. exists (String a pre), post. split.
        -- split; [by rewrite append_cons, <- Heq|].
           intros [|b pre'] post' Heq'; [by eapply Hhead in Heq'|].
           rewrite append_cons in Heq'. injection Heq' as -> Heq'.
           specialize (Hmin pre' post' Heq'). simpl. lia.
        -- destruct (Z.eqb_spec (Z.of_nat (String.length pre)) (-1)); [lia|].
           simpl String.length. lia.
Qed.

Lemma first_at_unique (sub s pre1 post1 pre2 post2 : string) :
  first_at sub s pre1 post1 → first_at sub s pre2 post2 → pre1 = pre2 ∧ post1 = post2.
Proof.
  intros [Heq1 Hmin1] [Heq2 Hmin2].
  pose proof (Hmin1 _ _ Heq2) as Hle1. pose proof (Hmin2 _ _ Heq1) as Hle2.
  assert (Heq : pre1 ++ sub ++ post1 = pre2 ++ sub ++ post2) by congruence.
  destruct (append_eq_append _ _ _ _ Heq Hle1) as (mid & -> & Hrest).
  rewrite length_append in Hle2.
  destruct mid as [|c mid]; [|simpl in Hle2; lia].
  rewrite append_nil_r. split; [done|].
  rewrite append_nil_l in Hrest.
  assert (Hinj : ∀ x y z : string, x ++ y = x ++ z → y = z).
  { intros x y z. induction x as [|c x IHx]; [done|].
    rewrite !append_cons. intros [= Hxy]. auto. }
  by apply Hinj in Hrest.
Qed.

Lemma first_at_contains (sub s pre post : string) :
  first_at sub s pre post → contains s sub.
Proof. intros [Heq _]. by exists pre, post. Qed.

(** The text up to the first dot holds no dot. *)
Lemma first_at_dot_free (s pre post : string) :
  first_at "." s pre post → ¬ contains pre ".".
Proof.
  intros [Heq Hmin] (p & q & ->).
  specialize (Hmin p (q ++ "." ++ post)).
  rewrite Heq, !append_assoc in Hmin. specialize (Hmin eq_refl).
  rewrite !length_append in Hmin. simpl in Hmin. lia.
Qed.

(** A dot-free text followed by a dot: that dot is the first. *)
Lemma dot_free_first_at (cluster rest : string) :
  ¬ contains cluster "." → first_at "." (cluster ++ "." ++ rest) cluster rest.
Proof.
  intros Hfree. split; [done|]. intros pre' post' Heq.
  destruct (Nat.le_gt_cases (String.length cluster) (String.length pre')) as [|Hlt]; [done|].
  exfalso. apply Hfree.
  symmetry in Heq.
  destruct (append_eq_append _ _ _ _ Heq ltac:(lia)) as (mid & -> & Hmid).
  destruct mid as [|c mid].
  - rewrite append_nil_r in Hlt. lia.
  - rewrite append_cons in Hmid. injection Hmid as <- _.
    by exists pre', mid.
Qed.

End go_strings.

(* --------------------------------------------------------------------- *)
(** ** The cluster name *)

Section cluster_name.
Import config models GoString cluster_spec webhook_transformer.
Context `{GoLib}.

Lemma eqb_empty (s : string) : String.eqb s "" = true ↔ s = "".
Proof. apply String.eqb_eq. Qed.

(** What [extractClusterFromURL] returns lies between the first [.apps.]
    of the hostname and the next dot, or is the remainder. *)
Lemma extractClusterFromURL_resolves (rawURL host : string) :
  url_Parse_Hostname rawURL = Some host →
  (¬ contains host ".apps." ∧ extractClusterFromURL rawURL = "")
  ∨ (∃ pre rest,
       first_at ".apps." host pre (extractClusterFromURL rawURL ++ rest)
       ∧ ¬ contains (extractClusterFromURL rawURL) "."
       ∧ (rest = "" ∨ ∃ rest', rest = "." ++ rest')).
Proof.
  intros Hhost. unfold extractClusterFromURL. rewrite Hhost.
  destruct (Index_spec host ".apps.") as [(-> & Hnone) | (pre & post & Hfirst & ->)].
  { left. by split. }
  right. destruct (Z.eqb_spec (Z.of_nat (String.length pre)) (-1)) as [|_]; [lia|].
  assert (Hafter : slice_from (Z.to_nat (Z.of_nat (String.length pre) + 6)) host = post).
  { destruct Hfirst as [-> _].
    replace (Z.to_nat (Z.of_nat (String.length pre) + 6))
      with (String.length (pre ++ ".apps.")) by (rewrite length_append; simpl; lia).
    by rewrite <- append_assoc, slice_from_append. }
  rewrite Hafter.
  destruct (Index_spec post ".") as [(-> & Hnodot) | (c & rest' & Hdot & ->)].
  - exists pre, "". rewrite append_nil_r. simpl (_ =? _). cbn iota. auto.
  - destruct (Z.eqb_spec (Z.of_nat (String.length c)) (-1)) as [|_]; [lia|].
    rewrite Nat2Z.id.
    assert (Hc : slice_to (String.length c) post = c).
    { destruct Hdot as [-> _]. apply slice_to_append. }
    rewrite Hc. exists pre, ("." ++ rest'). split; [|split].
    + destruct Hdot as [<- _]. exact Hfirst.
    + by eapply first_at_dot_free.
    + right. by exists rest'.
Qed.

(** Conversely, a hostname of the shape of case (b) yields its cluster. *)
Lemma extractClusterFromURL_found (rawURL host pre cluster rest : string) :
  url_Parse_Hostname rawURL = Some host →
  first_at ".apps." host pre (cluster ++ rest) →
  ¬ contains cluster "." →
  (rest = "" ∨ ∃ rest', rest = "." ++ rest') →
  extractClusterFromURL rawURL = cluster.
Proof.
  intros Hhost Hfirst Hfree Hrest.
  destruct (extractClusterFromURL_resolves rawURL host Hhost)
    as [(Hnone & _) | (pre' & rest' & Hfirst' & Hfree' & Hrest')].
  { destruct Hnone. by eapply first_at_contains. }
  destruct (first_at_unique _ _ _ _ _ _ Hfirst Hfirst') as [_ Heq].
  set (found := extractClusterFromURL rawURL) in *.
  assert (Hsame : ∀ c1 r1 c2 r2 : string,
            c1 ++ r1 = c2 ++ r2 → ¬ contains c2 "." →
            (r1 = "" ∨ ∃ r, r1 = "." ++ r) →
            (String.length c1 <= String.length c2)%nat → c1 = c2).
  { intros c1 r1 c2 r2 Happ Hf2 Hr1 Hlen.
    destruct (append_eq_append _ _ _ _ Happ Hlen) as (mid & -> & Hmid).
    destruct mid as [|m mid]; [by rewrite append_nil_r|].
    destruct Hr1 as [-> | (r & ->)]; [discriminate|].
    rewrite append_cons in Hmid. injection Hmid as <- _.
    destruct Hf2. by exists c1, mid. }
  destruct (Nat.le_ge_cases (String.length found) (String.length cluster)).
  - by apply (Hsame found rest' cluster rest).
  - symmetry. by apply (Hsame cluster rest found rest').
Qed.

Lemma extractClusterName_resolves (cfg : Config) (alert : Alert.t) :
  cluster_resolution cfg alert (extractClusterName cfg alert).
Proof.
  unfold extractClusterName.
  destruct (String.eqb_spec (map_get (Alert.Labels alert) (ClusterLabelKey cfg)) "")
    as [Hlabel|Hlabel]; [|by apply cluster_from_label].
  cbn [negb].
  destruct (String.eqb_spec (Alert.GeneratorURL alert) "") as [Hurl|Hurl];
    [apply cluster_unknown; auto|].
  cbn [negb].
  assert (Hsame : (if negb (extractClusterFromURL (Alert.GeneratorURL alert) =? "")%string
                   then extractClusterFromURL (Alert.GeneratorURL alert) else "")
                  = extractClusterFromURL (Alert.GeneratorURL alert)).
  { by destruct (String.eqb_spec (extractClusterFromURL (Alert.GeneratorURL alert)) ""). }
  rewrite Hsame.
  destruct (url_Parse_Hostname (Alert.GeneratorURL alert)) as [host|] eqn:Hhost.
  - destruct (extractClusterFromURL_resolves _ _ Hhost)
      as [(Hnone & ->) | (pre & rest & Hfirst & Hfree & Hrest)].
    + apply cluster_unknown; eauto.
    + by eapply cluster_from_url.
  - unfold extractClusterFromURL. rewrite Hhost. apply cluster_unknown; auto.
Qed.

Lemma extractClusterName_unique (cfg : Config) (alert : Alert.t) (c : string) :
  cluster_resolution cfg alert c → c = extractClusterName cfg alert.
Proof.
  unfold extractClusterName.
  intros [Hlabel | host pre cluster rest Hlabel Hurl Hhost Hfirst Hfree Hrest
         | Hlabel Hnone].
  - by destruct (String.eqb_spec (map_get (Alert.Labels alert) (ClusterLabelKey cfg)) "").
  - rewrite Hlabel. cbn [String.eqb negb].
    destruct (String.eqb_spec (Alert.GeneratorURL alert) ""); [done|]. cbn [negb].
    rewrite (extractClusterFromURL_found _ _ _ _ _ Hhost Hfirst Hfree Hrest).
    by destruct (String.eqb_spec cluster "").
  - rewrite Hlabel. cbn [String.eqb negb].
    destruct (String.eqb_spec (Alert.GeneratorURL alert) ""); [done|]. cbn [negb].
    destruct Hnone as [Hurl | [Hparse | (host & Hhost & Hnone)]]; [done| |].
    + unfold extractClusterFromURL. by rewrite Hparse.
    + destruct (extractClusterFromURL_resolves _ _ Hhost)
        as [(_ & ->) | (pre & rest & Hfirst & _)]; [done|].
      destruct Hnone. by eapply first_at_contains.
Qed.

End cluster_name.

(** C7. The cluster name that [Transform] uses is the one the resolution
    order gives, and no other: (a) the value of the configured cluster
    label when not empty; (b) else, for a source URL whose hostname
    contains [.apps.], the text between the first [.apps.] and the next
    dot, or the whole remainder when no dot follows; (c) else the empty
    string.  The short description shows it between brackets, with
    [unknown-cluster] in place of the empty string, and the second line of
    the description is [Cluster: ] followed by the name as it is, empty
    when empty. *)
Theorem cluster_name_resolution `{GoLib}
    (cfg : config.Config) (alert : models.Alert.t) (externalURL : string) :
  let cluster := webhook_transformer.extractClusterName cfg alert in
  let incident := webhook_transformer.Transform cfg alert externalURL in
  let alertname := map_get (models.Alert.Labels alert) "alertname" in
  let namespace := map_get (models.Alert.Labels alert) "namespace" in
  cluster_spec.cluster_resolution cfg alert cluster
  ∧ (∀ c, cluster_spec.cluster_resolution cfg alert c → c = cluster)
  ∧ models.ServiceNowIncident.ShortDescription incident
    = "[" ++ (if String.eqb cluster "" then "unknown-cluster" else cluster) ++ "] "
      ++ alertname
      ++ (if String.eqb namespace "" then "" else " in namespace: " ++ namespace)
  ∧ ∃ tail,
      models.ServiceNowIncident.Description incident
      = "Alert: " ++ alertname ++ webhook_transformer.nl
        ++ "Cluster: " ++ cluster ++ webhook_transformer.nl ++ tail.
Proof.
  intros cluster incident alertname namespace.
  split; [apply extractClusterName_resolves|].
  split; [intros c; apply extractClusterName_unique|].
  split.
  - subst incident. cbn [webhook_transformer.Transform models.ServiceNowIncident.ShortDescription].
    fold cluster alertname namespace. unfold webhook_transformer.buildShortDescription.
    destruct (String.eqb namespace ""); cbn [negb]; [|done].
    by rewrite !append_nil_r.
  - subst incident. cbn [webhook_transformer.Transform models.ServiceNowIncident.Description].
    fold cluster alertname namespace. unfold webhook_transformer.buildDescription.
    fold alertname. cbv zeta. eexists. rewrite !append_assoc. reflexivity.
Qed.

(* --------------------------------------------------------------------- *)
(** ** Collisions and samples of the correlation ID *)

Section correlation_id_claims.
Import webhook_transformer testing.

Lemma GenerateCorrelationID_deterministic_witness :
  let labels : gmap string string :=
    {[ "severity" := "warning"; "alertname" := "TestAlert"; "namespace" := "default" ]} in
  GenerateCorrelationID_visiting ["severity"; "alertname"; "namespace"] "TestAlert" labels
  = GenerateCorrelationID_visiting ["namespace"; "severity"; "alertname"] "TestAlert" labels
  ∧ String.length
      (GenerateCorrelationID_visiting ["severity"; "alertname"; "namespace"] "TestAlert" labels)
    = 16%nat.
Proof.
  intros labels.
  destruct (GenerateCorrelationID_deterministic "TestAlert" labels
              ["severity"; "alertname"; "namespace"]
              ["namespace"; "severity"; "alertname"]) as (Hsame & _ & Hlen & _).
  - apply (bool_decide_unpack _). vm_compute. exact I.
  - apply (bool_decide_unpack _). vm_compute. exact I.
  - split; [exact Hsame | exact Hlen].
Defined.

(** The ID of the first test case, as [crypto/sha256] gives it. *)
Example GenerateCorrelationID_TestAlert :
  GenerateCorrelationID "TestAlert"
    {[ "alertname" := "TestAlert"; "severity" := "warning" ]}
  = "8747d418e1edfa9c".
Proof. vm_compute. reflexivity. Qed.

(** C2, as stated, fails: the builder writes keys and values one after
    the other with nothing between them, so two different label sets can
    spell the same text, and then get the same ID. *)
Lemma GenerateCorrelationID_collision :
  let labels1 : gmap string string := {[ "alertname" := "X"; "a" := "bc" ]} in
  let labels2 : gmap string string := {[ "alertname" := "X"; "ab" := "c" ]} in
  labels1 ≠ labels2
  ∧ GenerateCorrelationID "X" labels1 = GenerateCorrelationID "X" labels2.
Proof.
  intros labels1 labels2. split.
  - intros Heq. assert (Ha : labels1 !! "a" = labels2 !! "a") by (by rewrite Heq).
    vm_compute in Ha. discriminate.
  - vm_compute. reflexivity.
Qed.

(** Two more ways of spelling the same text: a label with an empty key
    and an empty value writes nothing, and with the same keys a character
    can move from one value to the next key's. *)
Example GenerateCorrelationID_empty_label_collision :
  GenerateCorrelationID "X" {[ "" := "" ]} = GenerateCorrelationID "X" ∅.
Proof. vm_compute. reflexivity. Qed.

Example GenerateCorrelationID_same_keys_collision :
  GenerateCorrelationID "X" {[ "a" := "ab"; "ab" := "" ]}
  = GenerateCorrelationID "X" {[ "a" := ""; "ab" := "ab" ]}.
Proof. vm_compute. reflexivity. Qed.

End correlation_id_claims.

(* --------------------------------------------------------------------- *)
(** ** What the hashed text tells apart *)

Section canonical_text.
Import GoString webhook_transformer.

(** Two splittings of one string at the same length are the same. *)
Lemma append_inj_length (s1 t1 s2 t2 : string) :
  s1 ++ t1 = s2 ++ t2 → String.length s1 = String.length s2 → s1 = s2 ∧ t1 = t2.
Proof.
  intros Heq Hlen.
  destruct (append_eq_append s1 t1 s2 t2 Heq) as (mid & -> & ->); [lia|].
  rewrite length_append in Hlen.
  destruct mid; [|simpl in Hlen; lia]. by rewrite append_nil_r.
Qed.

Lemma append_inv_l (s t1 t2 : string) : s ++ t1 = s ++ t2 → t1 = t2.
Proof. intros Heq. by apply (append_inj_length s t1 s t2). Qed.

Lemma append_inv_r (s1 s2 t : string) : s1 ++ t = s2 ++ t → s1 = s2.
Proof.
  intros Heq. apply (append_inj_length s1 t s2 t Heq).
  apply (f_equal String.length) in Heq. rewrite !length_append in Heq. lia.
Qed.

Lemma concat_strings_app (l1 l2 : list string) :
  concat (l1 ++ l2) = concat l1 ++ concat l2.
Proof.
  induction l1 as [|s l1 IH]; [done|].
  cbn [app concat fold_right] in *. fold (concat (l1 ++ l2)). fold (concat l1).
  by rewrite IH, append_assoc.
Qed.

(** The text around the place of one key. *)
Lemma canonical_at (alertname : string) (labels : gmap string string)
    (pre post : list string) (k : string) :
  canonical alertname labels (pre ++ k :: post)
  = alertname ++ concat (List.map (fun k => k ++ map_get labels k) pre)
    ++ (k ++ map_get labels k)
    ++ concat (List.map (fun k => k ++ map_get labels k) post).
Proof. unfold canonical. rewrite map_app, concat_strings_app. reflexivity. Qed.

Lemma elem_of_map_keys (labels : gmap string string) (k : string) :
  k ∈ map_keys labels ↔ is_Some (labels !! k).
Proof.
  unfold map_keys. rewrite list_elem_of_fmap. split.
  - intros ([k' v] & -> & Hin). apply elem_of_map_to_list in Hin. by eexists.
  - intros [v Hv]. exists (k, v). split; [done|]. by apply elem_of_map_to_list.
Qed.

Lemma NoDup_map_keys (labels : gmap string string) : NoDup (map_keys labels).
Proof. apply NoDup_fst_map_to_list. Qed.

(** Maps with the same keys have the same sorted key list. *)
Lemma sort_Strings_same_keys (labels1 labels2 : gmap string string) :
  (∀ k, is_Some (labels1 !! k) ↔ is_Some (labels2 !! k)) →
  sort_Strings (map_keys labels1) = sort_Strings (map_keys labels2).
Proof.
  intros Hdom. apply sort_Strings_perm.
  apply NoDup_Permutation; try apply NoDup_map_keys.
  intros k. by rewrite !elem_of_map_keys.
Qed.

(** The sorted keys of a map with one more key: those of the map, with
    the new key in its place. *)
Lemma sort_Strings_insert_fresh (labels : gmap string string) (k v : string) :
  labels !! k = None →
  ∃ pre post,
    sort_Strings (map_keys labels) = (pre ++ post)%list
    ∧ sort_Strings (map_keys (<[k := v]> labels)) = (pre ++ k :: post)%list.
Proof.
  intros Hk.
  assert (Hin : k ∈ sort_Strings (map_keys (<[k := v]> labels))).
  { rewrite sort_Strings_Permutation, elem_of_map_keys, lookup_insert_eq. by eexists. }
  apply list_elem_of_split in Hin as (pre & post & Hsplit).
  exists pre, post. split; [|done].
  assert (Hperm : (pre ++ post)%list ≡ₚ map_keys labels).
  { apply (Permutation_cons_inv (a := k)).
    rewrite Permutation_middle, <- Hsplit, sort_Strings_Permutation.
    apply NoDup_Permutation; [apply NoDup_map_keys| |].
    - constructor; [|apply NoDup_map_keys]. rewrite elem_of_map_keys, Hk. by intros [? ?].
    - intros k'. rewrite elem_of_cons, !elem_of_map_keys.
      destruct (decide (k' = k)) as [->|Hne].
      + rewrite lookup_insert_eq. split; [by left|by eexists].
      + rewrite lookup_insert_ne by done. split; [by right|]. by intros [?|?]. }
  symmetry. apply (Sorted_unique le); [| |by rewrite sort_Strings_Permutation].
  - pose proof (sort_Strings_sorted (map_keys (<[k := v]> labels))) as Hs.
    rewrite Hsplit in Hs. apply Sorted_StronglySorted in Hs; [|apply _].
    apply StronglySorted_Sorted.
    apply StronglySorted_app in Hs as (Hcross & Hpre & Hpost).
    apply StronglySorted_app_2.
    + intros x1 x2 H1 H2. apply Hcross; [done|]. by right.
    + done.
    + by apply StronglySorted_cons in Hpost as [_ ?].
  - apply sort_Strings_sorted.
Qed.

(** Pieces of the same lengths spell the same text only when they are the
    same. *)
Lemma concat_inj_lengths (f1 f2 : string → string) (keys : list string) :
  (∀ k, k ∈ keys → String.length (f1 k) = String.length (f2 k)) →
  concat (List.map f1 keys) = concat (List.map f2 keys) →
  ∀ k, k ∈ keys → f1 k = f2 k.
Proof.
  induction keys as [|k0 keys IH]; intros Hlen Heq k Hk; [by apply elem_of_nil in Hk|].
  cbn [List.map concat fold_right] in Heq.
  apply append_inj_length in Heq as [H0 Heq]; [|apply Hlen; by left].
  apply elem_of_cons in Hk as [->|Hk]; [done|].
  apply IH; [|done|done]. intros k' Hk'. apply Hlen. by right.
Qed.

(** Another alert name before the same labels is another text. *)
Lemma canonical_other_name (alertname1 alertname2 : string)
    (labels : gmap string string) (keys : list string) :
  alertname1 ≠ alertname2 →
  canonical alertname1 labels keys ≠ canonical alertname2 labels keys.
Proof. intros Hne Heq. apply Hne. unfold canonical in Heq. by apply append_inv_r in Heq. Qed.

(** Setting one label leaves what the other keys write as it was. *)
Lemma pieces_insert_ne (labels : gmap string string) (k v : string) (keys : list string) :
  k ∉ keys →
  List.map (fun k0 => k0 ++ map_get (<[k := v]> labels) k0) keys
  = List.map (fun k0 => k0 ++ map_get labels k0) keys.
Proof.
  intros Hnot. apply map_ext_in. intros k' Hk'%list_elem_of_In.
  unfold map_get. rewrite lookup_insert_ne; [done|]. by intros ->.
Qed.

(** The texts of a map and of the map with another value for one of its
    keys, around the place of that key. *)
Lemma canonical_at_changed (alertname1 alertname2 : string)
    (labels : gmap string string) (k v1 v2 : string) :
  labels !! k = Some v1 →
  ∃ before after,
    canonical alertname1 labels (sort_Strings (map_keys labels))
    = alertname1 ++ before ++ (k ++ v1) ++ after
    ∧ canonical alertname2 (<[k := v2]> labels)
        (sort_Strings (map_keys (<[k := v2]> labels)))
      = alertname2 ++ before ++ (k ++ v2) ++ after.
Proof.
  intros Hk.
  assert (Hkeys : sort_Strings (map_keys (<[k := v2]> labels))
                  = sort_Strings (map_keys labels)).
  { apply sort_Strings_same_keys. intros k'.
    destruct (decide (k' = k)) as [->|Hne].
    - rewrite lookup_insert_eq, Hk. split; by eexists.
    - by rewrite lookup_insert_ne. }
  rewrite Hkeys.
  assert (Hin : k ∈ sort_Strings (map_keys labels)).
  { rewrite sort_Strings_Permutation, elem_of_map_keys, Hk. by eexists. }
  pose proof (NoDup_map_keys labels) as Hnd.
  rewrite <- (sort_Strings_Permutation (map_keys labels)) in Hnd.
  apply list_elem_of_split in Hin as (pre & post & Hsplit).
  rewrite Hsplit in Hnd |- *. rewrite !canonical_at.
  apply NoDup_app in Hnd as (_ & Hpre & Hpost). apply NoDup_cons in Hpost as [Hpost _].
  rewrite !pieces_insert_ne by (done || (intros Hin; by apply (Hpre k); [|left])).
  unfold map_get. rewrite lookup_insert_eq, Hk. cbn [default from_option].
  by eexists _, _.
Qed.

(** One label set to another value, or added, is another text, unless
    the label added has an empty key and an empty value. *)
Lemma canonical_one_label (alertname : string) (labels : gmap string string)
    (k v : string) :
  labels !! k ≠ Some v →
  is_Some (labels !! k) ∨ k ≠ "" ∨ v ≠ "" →
  canonical alertname labels (sort_Strings (map_keys labels))
  ≠ canonical alertname (<[k := v]> labels)
      (sort_Strings (map_keys (<[k := v]> labels))).
Proof.
  intros Hchange Hspell Heq.
  pose proof (pieces_insert_ne labels k v) as Hsame.
  destruct (labels !! k) as [v1|] eqn:Hk.
  - destruct (canonical_at_changed alertname alertname labels k v1 v Hk)
      as (before & after & H1 & H2).
    rewrite H1, H2 in Heq.
    apply append_inv_l, append_inv_l, append_inv_r, append_inv_l in Heq.
    apply Hchange. by rewrite Heq.
  - destruct (sort_Strings_insert_fresh labels k v Hk) as (pre & post & Hold & Hnew).
    rewrite Hold, Hnew in Heq. rewrite canonical_at in Heq.
    unfold canonical in Heq. rewrite map_app, concat_strings_app in Heq.
    assert (Hnot : k ∉ (pre ++ post)%list).
    { rewrite <- Hold, sort_Strings_Permutation, elem_of_map_keys, Hk. by intros [? ?]. }
    apply not_elem_of_app in Hnot as [Hpre Hpost].
    rewrite !Hsame in Heq by done.
    apply append_inv_l, append_inv_l in Heq.
    assert (Hempty : k ++ map_get (<[k := v]> labels) k = "").
    { apply (append_inv_r _ _ (concat (List.map (fun k0 => k0 ++ map_get labels k0) post))).
      by rewrite append_nil_l, <- Heq. }
    unfold map_get in Hempty. rewrite lookup_insert_eq in Hempty. cbn in Hempty.
    apply append_eq_nil in Hempty as [-> ->].
    destruct Hspell as [Hs|[Hs|Hs]]; [by destruct Hs|done|done].
Qed.

(** As the handler calls it, the alert name is the value of one of the
    labels: another name, there and as the alert name, is another text. *)
Lemma canonical_other_name_label (alertname1 alertname2 : string)
    (labels : gmap string string) (k : string) :
  labels !! k = Some alertname1 →
  alertname1 ≠ alertname2 →
  canonical alertname1 labels (sort_Strings (map_keys labels))
  ≠ canonical alertname2 (<[k := alertname2]> labels)
      (sort_Strings (map_keys (<[k := alertname2]> labels))).
Proof.
  intros Hk Hne Heq.
  destruct (canonical_at_changed alertname1 alertname2 labels k alertname1 alertname2 Hk)
    as (before & after & H1 & H2).
  rewrite H1, H2 in Heq.
  apply append_inj_length in Heq as [Hname _]; [done|].
  apply (f_equal String.length) in Heq. rewrite !length_append in Heq. lia.
Qed.

(** Alert names of the same length before the same keys, each with
    values of the same length, spell the same text only when they are the
    same, and the values too. *)
Lemma canonical_same_shape (alertname1 alertname2 : string)
    (labels1 labels2 : gmap string string) :
  String.length alertname1 = String.length alertname2 →
  (∀ k, String.length <$> labels1 !! k = String.length <$> labels2 !! k) →
  canonical alertname1 labels1 (sort_Strings (map_keys labels1))
  = canonical alertname2 labels2 (sort_Strings (map_keys labels2)) →
  alertname1 = alertname2 ∧ labels1 = labels2.
Proof.
  intros Hlen Hshape Heq.
  assert (Hdom : ∀ k, is_Some (labels1 !! k) ↔ is_Some (labels2 !! k)).
  { intros k. specialize (Hshape k).
    destruct (labels1 !! k), (labels2 !! k); try done; split; by eexists. }
  rewrite <- (sort_Strings_same_keys _ _ Hdom) in Heq.
  unfold canonical in Heq.
  apply append_inj_length in Heq as [Hname Heq]; [|done].
  assert (Hvalues : ∀ k, k ∈ sort_Strings (map_keys labels1) →
            k ++ map_get labels1 k = k ++ map_get labels2 k).
  { apply concat_inj_lengths; [|done]. intros k _. rewrite !length_append.
    specialize (Hshape k). unfold map_get.
    destruct (labels1 !! k), (labels2 !! k); try done. cbn in *. by injection Hshape as ->. }
  split; [done|].
  apply map_eq. intros k. specialize (Hshape k).
  destruct (labels1 !! k) as [v1|] eqn:H1, (labels2 !! k) as [v2|] eqn:H2; try done.
  f_equal. specialize (Hvalues k). unfold map_get in Hvalues. rewrite H1, H2 in Hvalues.
  apply (append_inv_l k). apply Hvalues.
  rewrite sort_Strings_Permutation, elem_of_map_keys, H1. by eexists.
Qed.

End canonical_text.

Section hex_form.

Lemma digit_inj (i j : Z) : 0 <= i < 16 → 0 <= j < 16 → Hex.digit i = Hex.digit j → i = j.
Proof.
  intros Hi Hj.
  assert (Hci : i = 0 ∨ i = 1 ∨ i = 2 ∨ i = 3 ∨ i = 4 ∨ i = 5 ∨ i = 6 ∨ i = 7
               ∨ i = 8 ∨ i = 9 ∨ i = 10 ∨ i = 11 ∨ i = 12 ∨ i = 13 ∨ i = 14
               ∨ i = 15) by lia.
  assert (Hcj : j = 0 ∨ j = 1 ∨ j = 2 ∨ j = 3 ∨ j = 4 ∨ j = 5 ∨ j = 6 ∨ j = 7
               ∨ j = 8 ∨ j = 9 ∨ j = 10 ∨ j = 11 ∨ j = 12 ∨ j = 13 ∨ j = 14
               ∨ j = 15) by lia.
  clear Hi Hj.
  repeat (destruct Hci as [-> | Hci]); try subst i;
    repeat (destruct Hcj as [-> | Hcj]); try subst j;
    (reflexivity || (intros Hd; vm_compute in Hd; discriminate)).
Qed.

(** The hexadecimal form loses nothing of the bytes. *)
Lemma EncodeToString_inj (src1 src2 : list Z) :
  Forall (fun v => 0 <= v < 256) src1 → Forall (fun v => 0 <= v < 256) src2 →
  Hex.EncodeToString src1 = Hex.EncodeToString src2 → src1 = src2.
Proof.
  intros H1. revert src2.
  induction H1 as [|v1 src1 Hv1 _ IH]; intros src2 H2 Heq;
    destruct H2 as [|v2 src2 Hv2 H2]; try done.
  cbn [Hex.EncodeToString] in Heq. injection Heq as Hhi Hlo Heq.
  assert (Hnib : ∀ v, 0 <= v < 256 →
            0 <= Z.shiftr v 4 < 16 ∧ 0 <= Z.land v 0x0f < 16
            ∧ v = 16 * Z.shiftr v 4 + Z.land v 0x0f).
  { intros v Hv. rewrite Z.shiftr_div_pow2 by lia. change (2 ^ 4) with 16.
    change 0x0f with (Z.ones 4). rewrite Z.land_ones by lia. change (2 ^ 4) with 16.
    pose proof (Z.div_mod v 16 ltac:(lia)). pose proof (Z.mod_pos_bound v 16 ltac:(lia)).
    split; [split; [apply Z.div_pos; lia | apply Z.div_lt_upper_bound; lia]|].
    split; lia. }
  destruct (Hnib v1 Hv1) as (Hh1 & Hl1 & E1). destruct (Hnib v2 Hv2) as (Hh2 & Hl2 & E2).
  apply digit_inj in Hhi; [|done..]. apply digit_inj in Hlo; [|done..].
  f_equal; [lia|]. by apply IH.
Qed.

End hex_form.

Section few_outputs.
Import webhook_transformer.

(** The strings of [n] hexadecimal digits are finitely many. *)
Lemma hex_strings_listed (n : nat) :
  ∃ all : list string,
    ∀ s, String.length s = n →
         forallb Hex.is_hex (list_ascii_of_string s) = true → s ∈ all.
Proof.
  induction n as [|n [all Hall]].
  - exists [""]. intros [|c s] Hlen _; [by left|discriminate].
  - exists (flat_map (fun c => List.map (String c) all) (list_ascii_of_string Hex.hextable)).
    intros [|c s] Hlen Hhex; [discriminate|].
    cbn [list_ascii_of_string forallb] in Hhex. apply andb_true_iff in Hhex as [Hc Hs].
    apply list_elem_of_In, in_flat_map.
    apply existsb_exists in Hc as (c' & Hin & Hc'). apply Ascii.eqb_eq in Hc' as <-.
    exists c. split; [done|]. apply in_map, list_elem_of_In, Hall; [|done].
    by injection Hlen.
Qed.

(** Alert names are infinitely many and correlation IDs are not: under
    any label set some two alert names get the same ID, although the texts
    hashed for them differ.  No statement that all distinct pairs, or all
    pairs of distinct texts, get different IDs can hold. *)
Lemma GenerateCorrelationID_names_collide (labels : gmap string string) :
  ¬ ∀ alertname1 alertname2,
      alertname1 ≠ alertname2 →
      GenerateCorrelationID alertname1 labels ≠ GenerateCorrelationID alertname2 labels.
Proof.
  intros Hinj. destruct (hex_strings_listed 16) as [all Hall].
  set (name := fun i : nat => string_of_list_ascii (repeat "a"%char i)).
  assert (Hname : ∀ i, String.length (name i) = i).
  { intros i. subst name. induction i as [|i IH]; [done|]. cbn. by rewrite IH. }
  set (names := name <$> seq 0 (S (List.length all))).
  assert (Hnames : NoDup names).
  { apply NoDup_fmap_2_strong; [|apply NoDup_seq].
    intros i j _ _ Heq. by rewrite <- (Hname i), <- (Hname j), Heq. }
  set (ids := (fun n => GenerateCorrelationID n labels) <$> names).
  assert (Hids : NoDup ids).
  { apply NoDup_fmap_2_strong; [|done]. intros n1 n2 _ _ Heq.
    destruct (decide (n1 = n2)) as [|Hne]; [done|]. by destruct (Hinj n1 n2 Hne). }
  assert (Hsub : ∀ id, id ∈ ids → id ∈ all).
  { intros id (n & -> & _)%list_elem_of_fmap. unfold GenerateCorrelationID.
    apply Hall; [apply GenerateCorrelationID_visiting_length
                |apply GenerateCorrelationID_visiting_hex]. }
  apply (NoDup_submseteq _ _ Hids) in Hsub. apply submseteq_length in Hsub.
  subst ids names. rewrite !length_fmap, length_seq in Hsub. lia.
Qed.

End few_outputs.

(** C2, as amended.  [GenerateCorrelationID] is the hexadecimal form of
    the first 8 bytes of the SHA-256 of a text -- the alert name followed by
    each key and its value, in sorted key order, with no separator -- and
    the hexadecimal form loses nothing: two pairs of alert name and labels
    get the same ID exactly when those 8 bytes are the same for their two
    texts.  The texts of two pairs differ whenever the pairs differ (a) in
    the alert name alone; (b) in one label alone: its value is another, or
    it is there on one side only and its key or its value is not empty;
    (c) in any way, while the alert names have the same length, the keys
    are the same and the two values of every key have the same length;
    (d) in the alert name and in the label [alertname] that holds it, as in
    the calls of the handler, and in nothing else.  So such pairs get
    different IDs unless SHA-256 gives their two different texts the same
    first 8 bytes. *)
Theorem GenerateCorrelationID_collides_on_text_or_digest_only
    (alertname1 alertname2 : string) (labels1 labels2 : gmap string string) :
  let text1 :=
    webhook_transformer.canonical alertname1 labels1
      (GoString.sort_Strings (map_keys labels1)) in
  let text2 :=
    webhook_transformer.canonical alertname2 labels2
      (GoString.sort_Strings (map_keys labels2)) in
  let digest (text : string) := firstn 8 (SHA256.Sum256 (GoString.bytes text)) in
  webhook_transformer.GenerateCorrelationID alertname1 labels1
  = Hex.EncodeToString (digest text1)
  ∧ webhook_transformer.GenerateCorrelationID alertname2 labels2
    = Hex.EncodeToString (digest text2)
  ∧ (webhook_transformer.GenerateCorrelationID alertname1 labels1
     = webhook_transformer.GenerateCorrelationID alertname2 labels2
     ↔ digest text1 = digest text2)
  ∧ (labels1 = labels2 → alertname1 ≠ alertname2 → text1 ≠ text2)
  ∧ (alertname1 = alertname2 →
     ∀ k v,
       (labels2 = <[k := v]> labels1 ∧ labels1 !! k ≠ Some v
        ∧ (is_Some (labels1 !! k) ∨ k ≠ "" ∨ v ≠ ""))
       ∨ (labels1 = <[k := v]> labels2 ∧ labels2 !! k ≠ Some v
          ∧ (is_Some (labels2 !! k) ∨ k ≠ "" ∨ v ≠ "")) →
       text1 ≠ text2)
  ∧ (String.length alertname1 = String.length alertname2 →
     (∀ k, String.length <$> labels1 !! k = String.length <$> labels2 !! k) →
     alertname1 ≠ alertname2 ∨ labels1 ≠ labels2 →
     text1 ≠ text2)
  ∧ (labels1 !! "alertname" = Some alertname1 →
     labels2 = <["alertname" := alertname2]> labels1 →
     alertname1 ≠ alertname2 →
     text1 ≠ text2).
Proof.
  intros text1 text2 digest. split; [reflexivity|]. split; [reflexivity|].
  split; [|split; [|split; [|split]]].
  - unfold webhook_transformer.GenerateCorrelationID,
      webhook_transformer.GenerateCorrelationID_visiting.
    cbv zeta. fold text1 text2. fold (digest text1) (digest text2).
    assert (Hb : ∀ t, Forall (fun v => 0 <= v < 256) (digest t)).
    { intros t. apply Forall_take, Sum256_bytes. }
    generalize (Hb text1) (Hb text2). generalize (digest text1) (digest text2).
    intros d1 d2 H1 H2. split; [by apply EncodeToString_inj | by intros ->].
  - intros <- Hne. by apply canonical_other_name.
  - intros <- k v [(-> & Hchange & Hspell) | (-> & Hchange & Hspell)].
    + by apply canonical_one_label.
    + intros Heq. by apply (canonical_one_label alertname1 labels2 k v).
  - intros Hlen Hshape Hdiff Heq.
    destruct (canonical_same_shape _ _ _ _ Hlen Hshape Heq) as [Hn Hl].
    by destruct Hdiff.
  - intros Hname -> Hne. by apply canonical_other_name_label.
Qed.

(** The pairs of [TestGenerateCorrelationID_DifferentAlerts]: alert names
    of the same length before the same keys, with values of the same
    lengths. *)
Lemma GenerateCorrelationID_collides_on_text_or_digest_only_witness :
  let labels1 : gmap string string := {[ "alertname" := "Alert1"; "severity" := "warning" ]} in
  let labels2 : gmap string string := {[ "alertname" := "Alert2"; "severity" := "warning" ]} in
  webhook_transformer.canonical "Alert1" labels1 (GoString.sort_Strings (map_keys labels1))
  ≠ webhook_transformer.canonical "Alert2" labels2 (GoString.sort_Strings (map_keys labels2))
  ∧ webhook_transformer.GenerateCorrelationID "Alert1" labels1
    ≠ webhook_transformer.GenerateCorrelationID "Alert2" labels2.
Proof.
  intros labels1 labels2.
  destruct (GenerateCorrelationID_collides_on_text_or_digest_only
              "Alert1" "Alert2" labels1 labels2) as (_ & _ & Hid & _ & _ & Hshape & _).
  split.
  - apply Hshape; [reflexivity| |left; discriminate].
    intros k. subst labels1 labels2.
    destruct (decide (k = "alertname")) as [->|Hne]; [by rewrite !lookup_insert_eq|].
    by rewrite !lookup_insert_ne.
  - intros Heq. apply Hid in Heq. vm_compute in Heq. discriminate.
Defined.

Section transformer_examples.
Import webhook_transformer testing models.

(** The cases of [TestExtractClusterFromURL], with the stand-in for
    [net/url]. *)
Example extractClusterFromURL_console :
  extractClusterFromURL
    "https://console-openshift-console.apps.os-lb3az1d1.ssnc-corp.cloud/monitoring/alerts"
  = "os-lb3az1d1".
Proof. vm_compute. reflexivity. Qed.

Example extractClusterFromURL_no_apps :
  extractClusterFromURL "https://prometheus.example.com/graph" = "".
Proof. vm_compute. reflexivity. Qed.

(** [TestTransformer_Transform_MissingCluster] and
    [TestTransformer_ExtractClusterName_LabelTakesPrecedence]. *)
Example Transform_unknown_cluster :
  ServiceNowIncident.ShortDescription
    (Transform test_config
       (alert_with "firing" {[ "alertname" := "TestAlert"; "severity" := "warning" ]}) "")
  = "[unknown-cluster] TestAlert".
Proof. vm_compute. reflexivity. Qed.

Example Transform_label_wins :
  ServiceNowIncident.ShortDescription
    (Transform test_config
       {| Alert.Status := "firing";
          Alert.Labels := {[ "alertname" := "TestAlert"; "cluster" := "label-cluster";
                            "namespace" := "default" ]};
          Alert.Annotations := ∅; Alert.StartsAt := 0; Alert.EndsAt := 0;
          Alert.GeneratorURL := "https://console.apps.url-cluster.example.com/";
          Alert.Fingerprint := "" |} "")
  = "[label-cluster] TestAlert in namespace: default".
Proof. vm_compute. reflexivity. Qed.

End transformer_examples.

(* --------------------------------------------------------------------- *)
(** ** [WithRetry] follows the retry policy *)

Section retry_runs.
Import servicenow_retry retry_policy.
Context `{GoImpl} {W : Type} `{Outside W}.
Variables (cfg : RetryConfig) (fn : Prog W (option error)).

Lemma WithRetry_loop_unfold (n : nat) (k : Z) (lastErr : option error) (w : W) :
  WithRetry_loop (S n) k cfg fn lastErr w =
  let '(r, h, w1) := fn w in
  match r with
  | None => (None, [EvAttempt k h None], w1)
  | Some err =>
      if is_client_failure err then (Some err, [EvAttempt k h (Some err)], w1)
      else if k <? MaxAttempts cfg - 1 then
        let d := calculateBackoff k (BaseDelay cfg) (MaxDelay cfg) in
        let '(s, w2) := select_Done_or_After d w1 in
        match s with
        | CtxDone ctxErr => (Some ctxErr, [EvAttempt k h (Some err); EvWait d (CtxDone ctxErr)], w2)
        | TimerFired =>
            let '(res, rest, w3) := WithRetry_loop n (k + 1) cfg fn (Some err) w2 in
            (res, EvAttempt k h (Some err) :: EvWait d TimerFired :: rest, w3)
        end
      else
        let '(res, rest, w3) := WithRetry_loop n (k + 1) cfg fn (Some err) w1 in
        (res, EvAttempt k h (Some err) :: rest, w3)
  end.
Proof.
  cbn [WithRetry_loop]. unfold bind, enclosed, outside, ret, is_client_failure.
  destruct (fn w) as [[[err|] h] w1]; [|reflexivity].
  destruct (errors_As_RetryableError err) as [[e code]|]; cbn zeta.
  - destruct ((400 <=? code) && (code <? 500)); [reflexivity|].
    destruct (k <? MaxAttempts cfg - 1).
    + destruct (select_Done_or_After _ w1) as [[ctxErr|] w2]; [reflexivity|].
      destruct (WithRetry_loop n (k + 1) cfg fn (Some err) w2) as [[res rest] w3].
      reflexivity.
    + destruct (WithRetry_loop n (k + 1) cfg fn (Some err) w1) as [[res rest] w3].
      reflexivity.
  - destruct (k <? MaxAttempts cfg - 1).
    + destruct (select_Done_or_After _ w1) as [[ctxErr|] w2]; [reflexivity|].
      destruct (WithRetry_loop n (k + 1) cfg fn (Some err) w2) as [[res rest] w3].
      reflexivity.
    + destruct (WithRetry_loop n (k + 1) cfg fn (Some err) w1) as [[res rest] w3].
      reflexivity.
Qed.

Lemma WithRetry_loop_run (n : nat) :
  ∀ (k : Z) (lastErr : option error) (w : W),
    Z.of_nat (S n) = MaxAttempts cfg - k →
    RetryRun cfg k (history_of (WithRetry_loop (S n) k cfg fn lastErr w))
                   (result_of (WithRetry_loop (S n) k cfg fn lastErr w)).
Proof.
  induction n as [|n IH]; intros k lastErr w Hn; rewrite WithRetry_loop_unfold;
    destruct (fn w) as [[[err|] h] w1]; try apply run_success;
    destruct (is_client_failure err) eqn:Hc; try (by apply run_client_failure).
  - assert ((k <? MaxAttempts cfg - 1) = false) as -> by lia.
    cbn. apply run_exhausted; [done|lia].
  - assert ((k <? MaxAttempts cfg - 1) = true) as -> by lia.
    cbn zeta.
    destruct (select_Done_or_After _ w1) as [[ctxErr|] w2].
    + apply run_cancelled; [done|lia].
    + specialize (IH (k + 1) (Some err) w2 ltac:(lia)).
      destruct (WithRetry_loop (S n) (k + 1) cfg fn (Some err) w2) as [[res rest] w3].
      apply run_retry; [done|lia|exact IH].
Qed.

Lemma WithRetry_run (w : W) :
  1 <= MaxAttempts cfg →
  RetryRun cfg 0 (history_of (WithRetry cfg fn w)) (result_of (WithRetry cfg fn w)).
Proof.
  intros Hm. unfold WithRetry.
  destruct (Z.to_nat (MaxAttempts cfg)) as [|n] eqn:En; [lia|].
  apply WithRetry_loop_run. lia.
Qed.

Lemma WithRetry_no_attempt (w : W) :
  MaxAttempts cfg <= 0 → WithRetry cfg fn w = (None, [], w).
Proof.
  intros Hm. unfold WithRetry.
  replace (Z.to_nat (MaxAttempts cfg)) with 0%nat by lia. reflexivity.
Qed.

End retry_runs.


(* --------------------------------------------------------------------- *)
(** ** What the policy implies *)

Section policy_facts.
Import servicenow_retry retry_policy.
Context `{GoImpl}.
Variable cfg : RetryConfig.

Lemma app_cons_cases {A : Type} (pre post l : list A) (x a : A) :
  (pre ++ x :: post)%list = a :: l →
  (pre = [] ∧ x = a ∧ post = l) ∨ (∃ pre', pre = a :: pre' ∧ l = (pre' ++ x :: post)%list).
Proof.
  destruct pre as [|b pre]; simpl; intros [= -> <-]; [left|right]; eauto.
Qed.

Lemma app_cons_singleton {A : Type} (pre post : list A) (x a : A) :
  (pre ++ x :: post)%list = [a] → pre = [] ∧ x = a ∧ post = [].
Proof.
  intros Hd. apply app_cons_cases in Hd as [Hd | (pre' & -> & Hd)]; [done|].
  by destruct pre'.
Qed.

(** Attempts are numbered from [k] on, one by one. *)
Lemma RetryRun_numbering k h res :
  RetryRun cfg k h res →
  ∀ pre j hj r post,
    h = (pre ++ EvAttempt j hj r :: post)%list →
    Z.of_nat (List.length (attempts_of pre)) = j - k.
Proof.
  induction 1 as [k h|k h err Hc|k h err Hc Hk|k h err ctxErr Hc Hk
                 |k h err rest res Hc Hk Hrun IH];
    intros pre j hj r post Hd; symmetry in Hd.
  - apply app_cons_singleton in Hd as (-> & [= -> -> ->] & ->). simpl. lia.
  - apply app_cons_singleton in Hd as (-> & [= -> -> ->] & ->). simpl. lia.
  - apply app_cons_singleton in Hd as (-> & [= -> -> ->] & ->). simpl. lia.
  - apply app_cons_cases in Hd as [(-> & [= -> -> ->] & _) | (pre' & -> & Hd)];
      [simpl; lia|].
    symmetry in Hd. apply app_cons_singleton in Hd as (_ & [=] & _).
  - apply app_cons_cases in Hd as [(-> & [= -> -> ->] & _) | (pre' & -> & Hd)];
      [simpl; lia|].
    symmetry in Hd.
    apply app_cons_cases in Hd as [(_ & [=] & _) | (pre'' & -> & Hd)].
    specialize (IH pre'' j hj r post Hd). simpl. lia.
Qed.

(** No attempt is numbered [MaxAttempts - 1] or more, save the last. *)
Lemma RetryRun_bound k h res :
  RetryRun cfg k h res → k <= MaxAttempts cfg - 1 →
  ∀ pre j hj r post,
    h = (pre ++ EvAttempt j hj r :: post)%list → k <= j <= MaxAttempts cfg - 1.
Proof.
  induction 1 as [k h|k h err Hc|k h err Hc Hk|k h err ctxErr Hc Hk
                 |k h err rest res Hc Hk Hrun IH];
    intros Hle pre j hj r post Hd; symmetry in Hd.
  - apply app_cons_singleton in Hd as (-> & [= -> -> ->] & ->). lia.
  - apply app_cons_singleton in Hd as (-> & [= -> -> ->] & ->). lia.
  - apply app_cons_singleton in Hd as (-> & [= -> -> ->] & ->). lia.
  - apply app_cons_cases in Hd as [(-> & [= -> -> ->] & _) | (pre' & -> & Hd)]; [lia|].
    symmetry in Hd. apply app_cons_singleton in Hd as (_ & [=] & _).
  - apply app_cons_cases in Hd as [(-> & [= -> -> ->] & _) | (pre' & -> & Hd)]; [lia|].
    symmetry in Hd.
    apply app_cons_cases in Hd as [(_ & [=] & _) | (pre'' & -> & Hd)].
    specialize (IH ltac:(lia) pre'' j hj r post Hd). lia.
Qed.

(** A 4xx failure ends the run, and is its result. *)
Lemma RetryRun_client_failure_last k h res :
  RetryRun cfg k h res →
  ∀ pre j hj err post,
    h = (pre ++ EvAttempt j hj (Some err) :: post)%list →
    is_client_failure err = true →
    post = [] ∧ res = Some err.
Proof.
  induction 1 as [k h|k h err Hc|k h err Hc Hk|k h err ctxErr Hc Hk
                 |k h err rest res Hc Hk Hrun IH];
    intros pre j hj err' post Hd Hc'; symmetry in Hd.
  - apply app_cons_singleton in Hd as (_ & [=] & _).
  - by apply app_cons_singleton in Hd as (-> & [= -> -> ->] & ->).
  - apply app_cons_singleton in Hd as (-> & [= -> -> ->] & ->). congruence.
  - apply app_cons_cases in Hd as [(-> & [= -> -> ->] & _) | (pre' & -> & Hd)];
      [congruence|].
    symmetry in Hd. apply app_cons_singleton in Hd as (_ & [=] & _).
  - apply app_cons_cases in Hd as [(-> & [= -> -> ->] & _) | (pre' & -> & Hd)];
      [congruence|].
    symmetry in Hd.
    apply app_cons_cases in Hd as [(_ & [=] & _) | (pre'' & -> & Hd)].
    eauto.
Qed.

(** After any other failure: the final attempt ends the run with that
    failure; an earlier one is followed by the wait of its backoff and,
    the timer firing, by the next attempt. *)
Lemma RetryRun_failure_step k h res :
  RetryRun cfg k h res →
  ∀ pre j hj err post,
    h = (pre ++ EvAttempt j hj (Some err) :: post)%list →
    is_client_failure err = false →
    (j = MaxAttempts cfg - 1 ∧ post = [] ∧ res = Some err)
    ∨ (j < MaxAttempts cfg - 1 ∧
       ∃ r post',
         post = EvWait (calculateBackoff j (BaseDelay cfg) (MaxDelay cfg)) r :: post'
         ∧ match r with
           | CtxDone ctxErr => post' = [] ∧ res = Some ctxErr
           | TimerFired => ∃ hj' r' post'', post' = EvAttempt (j + 1) hj' r' :: post''
           end).
Proof.
  induction 1 as [k h|k h err Hc|k h err Hc Hk|k h err ctxErr Hc Hk
                 |k h err rest res Hc Hk Hrun IH];
    intros pre j hj err' post Hd Hc'; symmetry in Hd.
  - apply app_cons_singleton in Hd as (_ & [=] & _).
  - apply app_cons_singleton in Hd as (-> & [= -> -> ->] & ->). congruence.
  - apply app_cons_singleton in Hd as (-> & [= -> -> ->] & ->). by left.
  - apply app_cons_cases in Hd as [(-> & [= -> -> ->] & ->) | (pre' & -> & Hd)].
    + right. split; [done|]. by eexists _, _.
    + symmetry in Hd. apply app_cons_singleton in Hd as (_ & [=] & _).
  - apply app_cons_cases in Hd as [(-> & [= -> -> ->] & ->) | (pre' & -> & Hd)].
    + right. split; [done|]. eexists _, _. split; [done|].
      inversion Hrun; subst; by eexists _, _, _.
    + symmetry in Hd.
      apply app_cons_cases in Hd as [(_ & [=] & _) | (pre'' & -> & Hd)].
      eauto.
Qed.

(** A wait cut short by the context ends the run, with the context's
    error as the result. *)
Lemma RetryRun_cancelled_last k h res :
  RetryRun cfg k h res →
  ∀ pre d ctxErr post,
    h = (pre ++ EvWait d (CtxDone ctxErr) :: post)%list →
    post = [] ∧ res = Some ctxErr.
Proof.
  induction 1 as [k h|k h err Hc|k h err Hc Hk|k h err ctxErr Hc Hk
                 |k h err rest res Hc Hk Hrun IH];
    intros pre d ctxErr' post Hd; symmetry in Hd.
  - apply app_cons_singleton in Hd as (_ & [=] & _).
  - apply app_cons_singleton in Hd as (_ & [=] & _).
  - apply app_cons_singleton in Hd as (_ & [=] & _).
  - apply app_cons_cases in Hd as [(_ & [=] & _) | (pre' & -> & Hd)].
    symmetry in Hd. by apply app_cons_singleton in Hd as (_ & [= -> ->] & ->).
  - apply app_cons_cases in Hd as [(_ & [=] & _) | (pre' & -> & Hd)].
    symmetry in Hd.
    apply app_cons_cases in Hd as [(_ & [=] & _) | (pre'' & -> & Hd)].
    eauto.
Qed.

(** When every attempt fails otherwise than by a 4xx and no wait is cut
    short, the attempts run up to [MaxAttempts], the delays are those of
    the backoff, and the result is the failure of the last attempt. *)
Lemma RetryRun_exhausts k h res :
  RetryRun cfg k h res →
  Forall (fun a => ∃ err, a.2 = Some err ∧ is_client_failure err = false) (attempts_of h) →
  Forall (fun ev => is_cancelled_wait ev = false) h →
  Z.of_nat (List.length (attempts_of h)) = MaxAttempts cfg - k
  ∧ (∃ hl errl, last h = Some (EvAttempt (MaxAttempts cfg - 1) hl (Some errl))
                ∧ res = Some errl).
Proof.
  induction 1 as [k h|k h err Hc|k h err Hc Hk|k h err ctxErr Hc Hk
                 |k h err rest res Hc Hk Hrun IH];
    intros Ha Hw.
  - apply Forall_cons in Ha as [(err & [=] & _) _].
  - apply Forall_cons in Ha as [(err' & [= <-] & Hc') _]. congruence.
  - subst k. simpl. split; [lia|]. by eexists _, _.
  - apply Forall_cons in Hw as [_ Hw]. by apply Forall_cons in Hw as [[=] _].
  - apply Forall_cons in Ha as [_ Ha].
    apply Forall_cons in Hw as [_ Hw]. apply Forall_cons in Hw as [_ Hw].
    destruct (IH Ha Hw) as (Hlen & hl & errl & Hlast & ->).
    split; [simpl in *; lia|].
    exists hl, errl. split; [|done].
    destruct rest as [|ev rest]; [done|]. exact Hlast.
Qed.

End policy_facts.

(* --------------------------------------------------------------------- *)
(** ** The arithmetic of [calculateBackoff] *)

(** On samples through the range -- exact products, rounded base delays,
    ties, the largest finite values, overflow -- the float64 arithmetic
    above computes what the Standard Library's IEEE-754 specification
    computes. *)
Example float64_agrees_with_SpecFloat :
  forallb (fun '(b, n) => SFeqb (float64.to_spec (float64.scaled b n))
                                (float64.scaled_spec b n))
    [ (1, 0); (10 ^ 9, 0); (10 ^ 9, 1); (10 ^ 9, 2); (10 ^ 9, 33); (10 ^ 9, 34);
      (2 ^ 53 + 1, 0); (2 ^ 53 + 1, 3); (2 ^ 53 + 3, 0); (2 ^ 54 + 2, 0);
      (2 ^ 54 + 6, 0); (2 ^ 62 + 2 ^ 9, 0); (2 ^ 62 + 2 ^ 9 + 1, 0);
      (2 ^ 62 + 3 * 2 ^ 9, 0); (2 ^ 63 - 1, 0); (2 ^ 63 - 1, 100);
      (123456789123456789, 7); (5, 1000); (5, 1021); (5, 1022); (7, 1021);
      (2 ^ 53 - 1, 971); (2 ^ 53 - 1, 972); (2 ^ 63 - 1, 960); (10 ^ 9, 1023) ]
  = true.
Proof. vm_compute. reflexivity. Qed.

Section backoff_arithmetic.
Import servicenow_retry.

(** An integer of at most 53 bits, scaled by a power of two below the
    range of the format, is a binary64 as it stands. *)
Lemma round_exact (m e : Z) :
  m ≠ 0 → Z.abs m < 2 ^ 53 → 0 <= e → Z.log2 (Z.abs m) + e < 1024 →
  float64.round m e = float64.Fin m e.
Proof.
  intros Hm Hb He Hr. unfold float64.round.
  assert ((m =? 0) = false) as -> by lia.
  assert (Hlog : Z.log2 (Z.abs m) < 53) by (apply Z.log2_lt_pow2; lia).
  assert (0 <= Z.log2 (Z.abs m)) by apply Z.log2_nonneg.
  assert ((Z.max (Z.log2 (Z.abs m) + 1 + e - 53) (-1074) - e <=? 0) = true) as -> by lia.
  assert ((Z.abs m =? 0) = false) as -> by lia.
  assert ((1024 <=? Z.log2 (Z.abs m) + e) = false) as -> by lia.
  f_equal. rewrite Z.mul_comm. apply Z.abs_sgn.
Qed.

Lemma of_int_exact (x : Z) : Z.abs x < 2 ^ 53 → float64.of_int x = float64.Fin x 0.
Proof.
  intros Hb. unfold float64.of_int.
  destruct (decide (x = 0)) as [->|Hx]; [reflexivity|].
  apply round_exact; try lia.
  assert (Z.log2 (Z.abs x) < 53) by (apply Z.log2_lt_pow2; lia). lia.
Qed.

Lemma Pow2_exact (n : Z) :
  0 <= n < 1024 → float64.Pow2 (float64.of_int n) = float64.Fin 1 n.
Proof.
  intros Hn. rewrite of_int_exact by lia.
  unfold float64.Pow2, float64.int_value. simpl (0 <=? 0).
  cbn iota. rewrite Z.pow_0_r, Z.mul_1_r.
  apply round_exact; simpl; lia.
Qed.

Lemma log2_scaled_bound (a n : Z) :
  0 < a → 0 <= n → a * 2 ^ n < 2 ^ 63 → Z.log2 a + n < 63.
Proof.
  intros Ha Hn Hb.
  assert (Hl : 2 ^ Z.log2 a <= a) by (apply Z.log2_spec; lia).
  assert (0 <= Z.log2 a) by apply Z.log2_nonneg.
  assert (Hp : 2 ^ (Z.log2 a + n) < 2 ^ 63).
  { rewrite Z.pow_add_r by lia.
    assert (0 < 2 ^ n) by (apply Z.pow_pos_nonneg; lia). nia. }
  apply Z.pow_lt_mono_r_iff in Hp; lia.
Qed.

Lemma to_int64_Fin (unrepresentable : float64.t → Z) (m e : Z) :
  0 <= e → - 2 ^ 63 <= m * 2 ^ e < 2 ^ 63 →
  float64.to_int64 unrepresentable (float64.Fin m e) = m * 2 ^ e.
Proof.
  intros He Hr. unfold float64.to_int64.
  assert ((0 <=? e) = true) as -> by lia.
  destruct (Z.leb_spec (- 2 ^ 63) (m * 2 ^ e)); [|lia].
  destruct (Z.ltb_spec (m * 2 ^ e) (2 ^ 63)); [done|lia].
Qed.

(** In the range where the float64 arithmetic is exact, the delay is the
    capped exponential. *)
Lemma calculateBackoff_exact `{GoImpl} (attempt baseDelay maxDelay : Z) :
  0 <= attempt < 1024 →
  0 <= baseDelay < 2 ^ 53 →
  baseDelay * 2 ^ attempt < 2 ^ 63 →
  calculateBackoff attempt baseDelay maxDelay
  = Z.min (baseDelay * 2 ^ attempt) maxDelay.
Proof.
  intros Ha Hb Hr. unfold calculateBackoff.
  rewrite Pow2_exact, of_int_exact by lia.
  assert (0 < 2 ^ attempt) by (apply Z.pow_pos_nonneg; lia).
  assert (Hv : float64.mul (float64.Fin baseDelay 0) (float64.Fin 1 attempt)
               = float64.Fin (baseDelay * 2 ^ attempt) 0
               ∨ float64.mul (float64.Fin baseDelay 0) (float64.Fin 1 attempt)
               = float64.Fin baseDelay attempt).
  { cbn [float64.mul]. rewrite Z.mul_1_r, Z.add_0_l.
    destruct (decide (baseDelay = 0)) as [->|Hz]; [by left|right].
    apply round_exact; try lia.
    pose proof (log2_scaled_bound (Z.abs baseDelay) attempt). lia. }
  assert (Hi : float64.to_int64 float64_to_int64_unrepresentable
                 (float64.mul (float64.Fin baseDelay 0) (float64.Fin 1 attempt))
               = baseDelay * 2 ^ attempt).
  { destruct Hv as [-> | ->].
    - rewrite to_int64_Fin by lia. by rewrite Z.pow_0_r, Z.mul_1_r.
    - apply to_int64_Fin; lia. }
  rewrite Hi. destruct (Z.ltb_spec maxDelay (baseDelay * 2 ^ attempt)); lia.
Qed.

End backoff_arithmetic.

(* --------------------------------------------------------------------- *)
(** ** The claims about [WithRetry] *)

Section retry_claims.
Import servicenow_retry retry_policy.


Lemma checkResponse_classifies `{GoLib} {W : Type} (resp : http.Response) (w : W) :
  ¬ (200 <= http.StatusCode resp < 300) →
  ∃ e, result_of (servicenow_client.checkResponse resp w)
       = Some (RetryableError e (http.StatusCode resp)).
Proof.
  intros Hc. unfold servicenow_client.checkResponse.
  destruct (Z.leb_spec 200 (http.StatusCode resp));
    destruct (Z.ltb_spec (http.StatusCode resp) 300); try lia; by eexists.
Qed.

Lemma checkResponse_accepts `{GoLib} {W : Type} (resp : http.Response) (w : W) :
  200 <= http.StatusCode resp < 300 →
  servicenow_client.checkResponse resp w = (None, [], w).
Proof.
  intros Hc. unfold servicenow_client.checkResponse.
  destruct (Z.leb_spec 200 (http.StatusCode resp));
    destruct (Z.ltb_spec (http.StatusCode resp) 300); try lia; done.
Qed.

Lemma attempts_of_app (h1 h2 : list Event) :
  attempts_of (h1 ++ h2) = (attempts_of h1 ++ attempts_of h2)%list.
Proof. apply omap_app. Qed.

Lemma server_failure_not_client (err : error) :
  is_server_failure err = true → is_client_failure err = false.
Proof.
  unfold is_server_failure, is_client_failure.
  destruct (errors_As_RetryableError err) as [[e code]|]; [|done].
  intros Hs. apply Z.leb_le in Hs. apply andb_false_iff. right. lia.
Qed.

Lemma other_status_failure_not_client (err : error) :
  is_other_status_failure err = true → is_client_failure err = false.
Proof.
  unfold is_other_status_failure, is_client_failure.
  destruct (errors_As_RetryableError err) as [[e code]|]; [|done].
  intros [_ Hs]%andb_true_iff. by apply negb_true_iff in Hs.
Qed.

(** C4. [checkResponse] classifies a 4xx answer as a client failure and
    an answer of 500 or more as a server failure.  Under [WithRetry], an
    attempt that fails with a classified error
    whose status code is in the 4xx range ends the run: nothing follows
    it, its error is the result, and when it is attempt [j] (from 0) the
    run made exactly [j + 1] attempts -- exactly one when the first attempt
    fails so.  When every attempt fails with a status code of 500 or more
    and no wait is cut short by the context, the run makes exactly
    [MaxAttempts] attempts and returns the failure of the last one. *)
Theorem WithRetry_client_error_once_server_error_exhausts
    `{GoLib} `{GoImpl} {W : Type} `{Outside W}
    (cfg : RetryConfig) (fn : Prog W (option error)) (w : W) :
  1 <= MaxAttempts cfg →
  let run := WithRetry cfg fn w in
  (∀ (resp : http.Response) (w' : W),
     ¬ (200 <= http.StatusCode resp < 300) →
     ∃ err, result_of (servicenow_client.checkResponse resp w') = Some err
            ∧ (400 <= http.StatusCode resp < 500 → is_client_failure err = true)
            ∧ (500 <= http.StatusCode resp → is_server_failure err = true))
  ∧ (∀ pre j hj err post,
     history_of run = (pre ++ EvAttempt j hj (Some err) :: post)%list →
     is_client_failure err = true →
     post = [] ∧ result_of run = Some err
     ∧ Z.of_nat (List.length (attempts_of (history_of run))) = j + 1)
  ∧ (Forall (fun a => ∃ err, a.2 = Some err ∧ is_server_failure err = true)
            (attempts_of (history_of run)) →
     Forall (fun ev => is_cancelled_wait ev = false) (history_of run) →
     Z.of_nat (List.length (attempts_of (history_of run))) = MaxAttempts cfg
     ∧ ∃ hl errl,
         last (history_of run) = Some (EvAttempt (MaxAttempts cfg - 1) hl (Some errl))
         ∧ result_of run = Some errl).
Proof.
  intros Hm run. pose proof (WithRetry_run cfg fn w Hm) as Hrun. fold run in Hrun.
  split; [|split].
  - intros resp w' Hcode.
    destruct (checkResponse_classifies resp w' Hcode) as (e & ->).
    eexists. split; [done|].
    unfold is_client_failure, is_server_failure. cbn [errors_As_RetryableError].
    split; intros Hr; [apply andb_true_iff; split|]; lia.
  - intros pre j hj err post Hd Hc.
    destruct (RetryRun_client_failure_last cfg _ _ _ Hrun _ _ _ _ _ Hd Hc) as [-> Hres].
    pose proof (RetryRun_numbering cfg _ _ _ Hrun _ _ _ _ _ Hd) as Hnum.
    split; [done|]. split; [done|].
    rewrite Hd, attempts_of_app, length_app. simpl. lia.
  - intros Ha Hw.
    destruct (RetryRun_exhausts cfg _ _ _ Hrun) as [Hlen Hlast]; [|done|].
    + eapply Forall_impl; [exact Ha|].
      intros a (err & Ha1 & Ha2). eauto using server_failure_not_client.
    + split; [lia|done].
Qed.

(** C5, as amended.  Every failed attempt of a run has a number [j] from
    0 to [MaxAttempts - 1].  When it is the final attempt
    ([j = MaxAttempts - 1]) the run ends there: nothing follows, no wait,
    and that failure is the result.  When it is not the final attempt and
    the failure is not a 4xx classified error, the next event is a wait;
    for a base delay from 0 to less than [2^53] ns, an attempt number of at
    most 1023 and a product [BaseDelay * 2^j] below [2^63], the delay of
    that wait is exactly [min (BaseDelay * 2^j) MaxDelay]; and when the
    timer of the wait fires, attempt [j + 1] follows. *)
Theorem WithRetry_waits_capped_exponential
    `{GoImpl} {W : Type} `{Outside W}
    (cfg : RetryConfig) (fn : Prog W (option error)) (w : W)
    (pre : list Event) (j : Z) (hj : list Event) (err : error) (post : list Event) :
  history_of (WithRetry cfg fn w) = (pre ++ EvAttempt j hj (Some err) :: post)%list →
  0 <= j <= MaxAttempts cfg - 1
  ∧ (j = MaxAttempts cfg - 1 →
     post = [] ∧ result_of (WithRetry cfg fn w) = Some err)
  ∧ (j < MaxAttempts cfg - 1 → is_client_failure err = false →
     ∃ d r post',
       post = EvWait d r :: post'
       ∧ (0 <= BaseDelay cfg < 2 ^ 53 → j <= 1023 → BaseDelay cfg * 2 ^ j < 2 ^ 63 →
          d = Z.min (BaseDelay cfg * 2 ^ j) (MaxDelay cfg))
       ∧ (r = TimerFired → ∃ hj' r' post'', post' = EvAttempt (j + 1) hj' r' :: post'')).
Proof.
  intros Hd.
  assert (Hm : 1 <= MaxAttempts cfg).
  { destruct (Z_lt_le_dec (MaxAttempts cfg) 1) as [Hm|Hm]; [|done].
    rewrite WithRetry_no_attempt in Hd by lia. by destruct pre. }
  pose proof (WithRetry_run cfg fn w Hm) as Hrun.
  pose proof (RetryRun_numbering cfg _ _ _ Hrun _ _ _ _ _ Hd) as Hnum.
  pose proof (RetryRun_bound cfg _ _ _ Hrun ltac:(lia) _ _ _ _ _ Hd) as Hbound.
  split; [lia|]. split.
  - intros Hj. destruct (is_client_failure err) eqn:Hc.
    + exact (RetryRun_client_failure_last cfg _ _ _ Hrun _ _ _ _ _ Hd Hc).
    + destruct (RetryRun_failure_step cfg _ _ _ Hrun _ _ _ _ _ Hd Hc)
        as [(_ & Hpost & Hres) | (Hlt & _)]; [done|lia].
  - intros Hj Hc.
    destruct (RetryRun_failure_step cfg _ _ _ Hrun _ _ _ _ _ Hd Hc)
      as [(Hlast & _) | (_ & r & post' & -> & Hnext)]; [lia|].
    eexists _, r, post'. split; [reflexivity|]. split.
    + intros Hb Hj' Hr. apply calculateBackoff_exact; lia.
    + intros ->. exact Hnext.
Qed.

(** C6. Whenever the [select] of a backoff wait receives from
    [ctx.Done()], [WithRetry] ends there: no event follows that wait -- no
    further attempt is made -- and the result is the context's error. *)
Theorem WithRetry_cancelled_wait_aborts
    `{GoImpl} {W : Type} `{Outside W}
    (cfg : RetryConfig) (fn : Prog W (option error)) (w : W)
    (pre : list Event) (d : Z) (ctxErr : error) (post : list Event) :
  history_of (WithRetry cfg fn w) = (pre ++ EvWait d (CtxDone ctxErr) :: post)%list →
  post = [] ∧ result_of (WithRetry cfg fn w) = Some ctxErr.
Proof.
  intros Hd.
  destruct (Z_lt_le_dec (MaxAttempts cfg) 1) as [Hm|Hm].
  - rewrite WithRetry_no_attempt in Hd by lia. by destruct pre.
  - eapply RetryRun_cancelled_last; [by apply WithRetry_run|exact Hd].
Qed.


(** C10. [checkResponse] turns every status code outside 2xx into a
    classified error carrying that code; and when every attempt of a
    [WithRetry] run fails with a classified error whose code lies outside
    2xx and outside 4xx (a 3xx code, for one) and no wait is cut short by
    the context, the run makes exactly [MaxAttempts] attempts and returns
    the failure of the last one. *)
Theorem WithRetry_other_status_exhausts
    `{GoLib} `{GoImpl} {W : Type} `{Outside W}
    (cfg : RetryConfig) (fn : Prog W (option error)) (w : W) :
  1 <= MaxAttempts cfg →
  Forall (fun a => ∃ err, a.2 = Some err ∧ is_other_status_failure err = true)
         (attempts_of (history_of (WithRetry cfg fn w))) →
  Forall (fun ev => is_cancelled_wait ev = false) (history_of (WithRetry cfg fn w)) →
  (∀ (resp : http.Response) (w' : W),
     ¬ (200 <= http.StatusCode resp < 300) →
     ∃ e, result_of (servicenow_client.checkResponse resp w')
          = Some (RetryableError e (http.StatusCode resp)))
  ∧ Z.of_nat (List.length (attempts_of (history_of (WithRetry cfg fn w)))) = MaxAttempts cfg
  ∧ ∃ hl errl,
      last (history_of (WithRetry cfg fn w))
      = Some (EvAttempt (MaxAttempts cfg - 1) hl (Some errl))
      ∧ result_of (WithRetry cfg fn w) = Some errl.
Proof.
  intros Hm Ha Hw. split; [intros resp w'; apply checkResponse_classifies|].
  destruct (RetryRun_exhausts cfg _ _ _ (WithRetry_run cfg fn w Hm)) as [Hlen Hlast];
    [|done|].
  - eapply Forall_impl; [exact Ha|].
    intros a (err & Ha1 & Ha2). eauto using other_status_failure_not_client.
  - split; [lia|done].
Qed.

Section retry_examples.
Import testing.

(** As in [TestClient_CreateIncident_ClientError_NoRetry] and
    [TestClient_CreateIncident_ServerError]. *)
Lemma WithRetry_client_error_once_server_error_exhausts_witness :
  (result_of (WithRetry DefaultRetryConfig (always bad_request) quiet) = Some bad_request
   ∧ Z.of_nat (List.length (attempts_of
       (history_of (WithRetry DefaultRetryConfig (always bad_request) quiet)))) = 1)
  ∧ (Z.of_nat (List.length (attempts_of
       (history_of (WithRetry DefaultRetryConfig (always server_error) quiet)))) = 3
     ∧ result_of (WithRetry DefaultRetryConfig (always server_error) quiet)
       = Some server_error).
Proof.
  split.
  - destruct (WithRetry_client_error_once_server_error_exhausts
                DefaultRetryConfig (always bad_request) quiet) as (_ & H4 & _);
      [vm_compute; discriminate|].
    destruct (H4 [] 0 [] bad_request [] eq_refl eq_refl) as (_ & Hres & Hlen).
    split; [exact Hres|exact Hlen].
  - destruct (WithRetry_client_error_once_server_error_exhausts
                DefaultRetryConfig (always server_error) quiet) as (_ & _ & H5);
      [vm_compute; discriminate|].
    destruct H5 as (Hlen & hl & errl & Hlast & Hres).
    + vm_compute. repeat constructor; by eexists.
    + vm_compute. repeat constructor.
    + split; [exact Hlen|]. rewrite Hres. vm_compute in Hlast |- *. congruence.
Defined.

Lemma WithRetry_waits_capped_exponential_witness :
  ∃ post',
    history_of (WithRetry DefaultRetryConfig (always server_error) quiet)
    = EvAttempt 0 [] (Some server_error) :: EvWait (1 * Second) TimerFired :: post'.
Proof.
  destruct (WithRetry_waits_capped_exponential
              DefaultRetryConfig (always server_error) quiet
              [] 0 [] server_error
              [EvWait 1000000000 TimerFired;
               EvAttempt 1 [] (Some server_error);
               EvWait 2000000000 TimerFired;
               EvAttempt 2 [] (Some server_error)])
    as (_ & _ & Hwait); [reflexivity|].
  destruct Hwait as (d & r & post' & Hpost & Hd & _);
    [vm_compute; reflexivity | reflexivity |].
  specialize (Hd ltac:(vm_compute; split; [discriminate|reflexivity]) ltac:(lia)
                 ltac:(vm_compute; reflexivity)).
  exists post'.
  transitivity (EvAttempt 0 [] (Some server_error) :: EvWait d r :: post');
    [by rewrite <- Hpost|].
  rewrite Hd. injection Hpost as _ <- _. reflexivity.
Defined.

Lemma WithRetry_cancelled_wait_aborts_witness :
  result_of (WithRetry DefaultRetryConfig (always server_error)
               {| responses := []; selects := [CtxDone context_Canceled] |})
  = Some context_Canceled.
Proof.
  apply (WithRetry_cancelled_wait_aborts DefaultRetryConfig (always server_error)
           {| responses := []; selects := [CtxDone context_Canceled] |}
           [EvAttempt 0 [] (Some server_error)] 1000000000 context_Canceled []).
  reflexivity.
Defined.

Lemma WithRetry_other_status_exhausts_witness :
  Z.of_nat (List.length (attempts_of
    (history_of (WithRetry DefaultRetryConfig (always found) quiet)))) = 3
  ∧ result_of (WithRetry DefaultRetryConfig (always found) quiet) = Some found.
Proof.
  destruct (WithRetry_other_status_exhausts DefaultRetryConfig (always found) quiet)
    as (_ & Hlen & hl & errl & Hlast & Hres).
  - vm_compute. discriminate.
  - vm_compute. repeat constructor; by eexists.
  - vm_compute. repeat constructor.
  - split; [exact Hlen|]. rewrite Hres. vm_compute in Hlast |- *. congruence.
Defined.

(** C5, as stated, fails: with a base delay of [2^53 + 1] ns the first
    wait lasts [2^53] ns, not [min ((2^53 + 1) * 2^0) MaxDelay]: the
    float64 of the base delay is rounded. *)
Lemma WithRetry_wait_not_capped_exponential :
  let cfg := {| MaxAttempts := 2; BaseDelay := 2 ^ 53 + 1; MaxDelay := 2 ^ 62 |} in
  history_of (WithRetry cfg (always server_error) quiet)
  = [ EvAttempt 0 [] (Some server_error);
      EvWait (2 ^ 53) TimerFired;
      EvAttempt 1 [] (Some server_error) ]
  ∧ Z.min (BaseDelay cfg * 2 ^ 0) (MaxDelay cfg) ≠ 2 ^ 53.
Proof. split; [vm_compute; reflexivity | vm_compute; discriminate]. Qed.

(** On amd64 a product beyond the [int64] range converts to [-2^63],
    which the cap leaves as it is. *)
Example calculateBackoff_overflow_amd64 :
  calculateBackoff 34 (1 * Second) (10 * Second) = - 2 ^ 63.
Proof. vm_compute. reflexivity. Qed.

End retry_examples.

End retry_claims.

(* --------------------------------------------------------------------- *)
(** ** The client *)

Section client_runs.
Import servicenow_retry retry_policy servicenow_client.
Context `{GoLib} `{GoJSON} `{GoImpl} {W : Type} `{Outside W}.

(** One run of the closure of [CreateIncident] against a server that
    accepts the request but whose answer cannot be read or decoded: a plain
    error, the captured [result] untouched. *)
Lemma CreateIncident_fn_accepted_unreadable
    (c : Client) (endpoint body : string) (resp : http.Response)
    (w w1 : W) (result : option CreateIncidentResult.t) :
  let req := setHeaders c (newRequest http.MethodPost endpoint body) in
  http_NewRequest_error http.MethodPost endpoint = None →
  httpClient_Do req w = (inl resp, w1) →
  200 <= http.StatusCode resp < 300 →
  (http.ReadAll resp).2 ≠ None ∨ (json_Unmarshal_response (http.ReadAll resp).1).2 ≠ None →
  ∃ err,
    CreateIncident_fn c endpoint body (w, result)
    = (Some err, [EvHTTP req (inl resp)], (w1, result))
    ∧ errors_As_RetryableError err = None.
Proof.
  intros req Hnew Hdo Hcode Hbad.
  unfold CreateIncident_fn, send. rewrite Hnew. fold req.
  unfold bind, outside. cbn [httpClient_Do Outside_with_local fst snd].
  rewrite Hdo. rewrite checkResponse_accepts by done.
  destruct (http.ReadAll resp) as [respBody [rerr|]]; [by eexists|].
  destruct Hbad as [Hbad | Hbad]; [done|]. simpl in Hbad.
  destruct (json_Unmarshal_response respBody) as [snowResp [uerr|]]; [by eexists|done].
Qed.


(** Once the request is built, a run of [send] sends it first. *)
Lemma send_sends {V : Type} `{Outside V}
    (c : Client) (method endpoint body : string)
    (on_success : http.Response → Prog V (option error)) (v : V) :
  let req := setHeaders c (newRequest method endpoint body) in
  http_NewRequest_error method endpoint = None →
  ∃ r h', history_of (send c method endpoint body on_success v) = EvHTTP req r :: h'.
Proof.
  intros req Hnew. unfold send. rewrite Hnew. fold req.
  unfold bind, outside, history_of.
  destruct (httpClient_Do req v) as [[resp|e] v1]; [|by eexists _, _].
  destruct (checkResponse resp v1) as [[[cerr|] hc] v2]; [by eexists _, _|].
  destruct (on_success resp v2) as [[b h2] v3].
  by eexists _, _.
Qed.

Lemma WithRetry_loop_head (cfg : RetryConfig) {V : Type} `{Outside V}
    (fn : Prog V (option error)) (n : nat) (k : Z) (lastErr : option error) (v : V) :
  ∃ rest,
    history_of (WithRetry_loop (S n) k cfg fn lastErr v)
    = EvAttempt k (history_of (fn v)) (result_of (fn v)) :: rest.
Proof.
  rewrite WithRetry_loop_unfold. unfold history_of, result_of.
  destruct (fn v) as [[[err|] h] v1]; [|by eexists].
  destruct (is_client_failure err); [by eexists|].
  destruct (k <? MaxAttempts cfg - 1).
  - cbn zeta. destruct (select_Done_or_After _ v1) as [[ctxErr|] v2]; [by eexists|].
    destruct (WithRetry_loop n (k + 1) cfg fn (Some err) v2) as [[res rest] v3].
    by eexists.
  - destruct (WithRetry_loop n (k + 1) cfg fn (Some err) v1) as [[res rest] v3].
    by eexists.
Qed.

End client_runs.

(** C9. When the server accepts the create request with a 2xx status but
    its answer cannot be read or cannot be decoded, the attempt ends in a
    plain, unclassified error; with at least two attempts configured and
    the backoff wait not cut short, [CreateIncident] then sends the same
    create request a second time. *)
Theorem CreateIncident_resends_accepted_create
    `{GoLib} `{GoJSON} `{GoImpl} {W : Type} `{Outside W}
    (c : servicenow_client.Client) (incident : models.ServiceNowIncident.t)
    (body : string) (resp : http.Response) (w w1 w2 : W) :
  let endpoint := servicenow_client.baseURL c ++ servicenow_client.endpointPath c in
  let req := servicenow_client.setHeaders c
               (servicenow_client.newRequest http.MethodPost endpoint body) in
  let cfg := servicenow_client.retryConfig c in
  2 <= servicenow_retry.MaxAttempts cfg →
  json_Marshal_incident incident = (body, None) →
  http_NewRequest_error http.MethodPost endpoint = None →
  httpClient_Do req w = (inl resp, w1) →
  200 <= http.StatusCode resp < 300 →
  (http.ReadAll resp).2 ≠ None ∨ (json_Unmarshal_response (http.ReadAll resp).1).2 ≠ None →
  select_Done_or_After
    (servicenow_retry.calculateBackoff 0 (servicenow_retry.BaseDelay cfg)
                                         (servicenow_retry.MaxDelay cfg)) w1
  = (TimerFired, w2) →
  ∃ err again rest,
    errors_As_RetryableError err = None
    ∧ In (EvAttempt 0 [EvHTTP req (inl resp)] (Some err))
         (history_of (servicenow_client.CreateIncident c incident w))
    ∧ exchanges_of (history_of (servicenow_client.CreateIncident c incident w))
      = (req, inl resp) :: (req, again) :: rest.
Proof.
  intros endpoint req cfg Hmax Hbody Hnew Hdo Hcode Hbad Hsel.
  destruct (CreateIncident_fn_accepted_unreadable c endpoint body resp w w1 None
              Hnew Hdo Hcode Hbad) as (err & Hfn & Hplain).
  fold req in Hfn.
  assert (Hnc : retry_policy.is_client_failure err = false).
  { unfold retry_policy.is_client_failure. by rewrite Hplain. }
  assert (∃ again h',
            history_of (servicenow_client.CreateIncident_fn c endpoint body (w2, None))
            = EvHTTP req again :: h') as (again & h' & Hhead)
    by (apply send_sends; exact Hnew).
  exists err, again.
  unfold servicenow_client.CreateIncident. fold endpoint. rewrite Hbody.
  unfold bind, slog, emit, with_local, servicenow_retry.WithRetry. fold cfg.
  destruct (Z.to_nat (servicenow_retry.MaxAttempts cfg)) as [|[|n]] eqn:En; [lia|lia|].
  rewrite WithRetry_loop_unfold. rewrite Hfn, Hnc.
  assert ((0 <? servicenow_retry.MaxAttempts cfg - 1) = true) as -> by lia.
  cbn zeta. cbn [select_Done_or_After Outside_with_local fst snd].
  rewrite Hsel.
  destruct (WithRetry_loop_head cfg (servicenow_client.CreateIncident_fn c endpoint body)
              n (0 + 1) (Some err) (w2, None)) as (rest & Hrest).
  rewrite Hhead in Hrest. unfold history_of in Hrest.
  destruct (servicenow_retry.WithRetry_loop (S n) (0 + 1) cfg _ (Some err) (w2, None))
    as [[res hrest] ws3].
  simpl in Hrest. subst hrest.
  eexists. split; [done|]. split.
  - destruct res; simpl; auto.
  - destruct res; simpl; reflexivity.
Qed.

(* --------------------------------------------------------------------- *)
(** ** The handler *)

Section handler_runs.
Import config models webhook_transformer webhook_handler.
Context `{GoLib} `{GoJSON} {W : Type} `{ServiceNowClient W}.
Variable cfg : Config.

Lemma calls_of_app (h1 h2 : list Event) :
  calls_of (h1 ++ h2) = (calls_of h1 ++ calls_of h2)%list.
Proof. apply omap_app. Qed.

Lemma processAlert_calls (alert : Alert.t) (externalURL : string) (w : W) :
  create_answers →
  ∃ err,
    result_of (processAlert cfg alert externalURL w) = Returned err
    ∧ List.filter not_resolve (calls_of (history_of (processAlert cfg alert externalURL w)))
      = option_list (expected_call cfg externalURL alert).
Proof.
  intros Hcreate. unfold processAlert, expected_call.
  destruct (String.eqb (Alert.Status alert) AlertStatusFiring).
  - unfold handleFiringAlert, bind, slog, emit, enclosed, ret, result_of, history_of.
    pose proof (Hcreate (Transform cfg alert externalURL) w) as Hc.
    unfold result_of in Hc.
    destruct (snow_CreateIncident (Transform cfg alert externalURL) w)
      as [[[[result|] [err|]] h] w1]; simpl in *; try done; by eexists.
  - destruct (String.eqb (Alert.Status alert) AlertStatusResolved).
    + unfold handleResolvedAlert, bind, slog, emit, enclosed, ret, result_of, history_of.
      destruct (snow_FindIncidentByCorrelationID _ w)
        as [[[[existing|] [err|]] h] w1]; simpl; try (by eexists).
      destruct (snow_ResolveIncident _ w1) as [[[err|] h2] w2]; simpl; by eexists.
    + unfold bind, slog, emit, ret, result_of, history_of. simpl. by eexists.
Qed.

Lemma processAlerts_calls (alerts : list Alert.t) (externalURL : string) :
  create_answers →
  ∀ (errCount : Z) (w : W),
    ∃ failed,
      result_of (processAlerts cfg alerts externalURL errCount w) = Returned failed
      ∧ errCount <= failed <= errCount + Z.of_nat (List.length alerts)
      ∧ List.filter not_resolve
          (calls_of (history_of (processAlerts cfg alerts externalURL errCount w)))
        = omap (expected_call cfg externalURL) alerts.
Proof.
  intros Hcreate. induction alerts as [|alert rest IH]; intros errCount w.
  - exists errCount. simpl. split; [done|]. split; [lia|done].
  - destruct (processAlert_calls alert externalURL w Hcreate) as (err & Hres & Hcalls).
    cbn [processAlerts]. unfold bind, slog, emit.
    unfold result_of, history_of in *.
    destruct (processAlert cfg alert externalURL w) as [[r h] w1].
    cbn [fst snd] in Hres, Hcalls. subst r. destruct err as [err|].
    + destruct (IH (errCount + 1) w1) as (failed & Hres' & Hbound & Hcalls').
      destruct (processAlerts cfg rest externalURL (errCount + 1) w1) as [[r' h'] w2].
      cbn [fst snd] in *. exists failed. split; [done|].
      split; [rewrite length_cons; lia|].
      rewrite calls_of_app, List.filter_app, Hcalls.
      change (calls_of ([EvLog "ERROR" "failed to process alert"
                [("alertname", AString (map_get (Alert.Labels alert) "alertname"));
                 ("status", AString (Alert.Status alert));
                 ("error", AError err)]] ++ h')) with (calls_of h').
      rewrite Hcalls'. simpl.
      by destruct (expected_call cfg externalURL alert).
    + destruct (IH errCount w1) as (failed & Hres' & Hbound & Hcalls').
      destruct (processAlerts cfg rest externalURL errCount w1) as [[r' h'] w2].
      cbn [fst snd] in *. exists failed. split; [done|].
      split; [rewrite length_cons; lia|].
      rewrite calls_of_app, List.filter_app, Hcalls, Hcalls'. simpl.
      by destruct (expected_call cfg externalURL alert).
Qed.

Lemma expected_creates (externalURL : string) (alerts : list Alert.t) :
  List.filter is_create (omap (expected_call cfg externalURL) alerts)
  = List.map (fun alert => CreateIncidentCall (Transform cfg alert externalURL))
             (List.filter is_firing alerts).
Proof.
  induction alerts as [|alert rest IH]; [done|].
  assert (Hstep : ∀ f : Alert.t → option ClientCall,
            omap f (alert :: rest)
            = match f alert with Some c => c :: omap f rest | None => omap f rest end)
    by done.
  rewrite Hstep. cbn [List.filter]. unfold expected_call at 1, is_firing at 1.
  destruct (String.eqb (Alert.Status alert) AlertStatusFiring).
  - cbn [List.filter is_create List.map]. by rewrite IH.
  - destruct (String.eqb (Alert.Status alert) AlertStatusResolved);
      cbn [List.filter is_create]; exact IH.
Qed.

Lemma filter_create_not_resolve (calls : list ClientCall) :
  List.filter is_create (List.filter not_resolve calls) = List.filter is_create calls.
Proof.
  induction calls as [|c calls IH]; [done|].
  destruct c; simpl; by rewrite ?IH.
Qed.

(** A request that is read and decoded is answered 200, and the calls
    made, the resolves apart, are the first calls of the alerts. *)
Lemma ServeHTTP_accepts (r : InboundRequest) (body : string)
    (payload : AlertmanagerPayload.t) (w : W) :
  Method r = http.MethodPost →
  ReadAll_Body r = (body, None) →
  json_Unmarshal_payload body = (payload, None) →
  create_answers →
  result_of (ServeHTTP cfg r w)
  = Returned {| Code := 200; Written := status_ok_body |}
  ∧ List.filter not_resolve (calls_of (history_of (ServeHTTP cfg r w)))
    = omap (expected_call cfg (AlertmanagerPayload.ExternalURL payload))
           (AlertmanagerPayload.Alerts payload).
Proof.
  intros Hpost Hread Hjson Hcreate. unfold ServeHTTP.
  rewrite Hpost. simpl (negb _). cbn iota. rewrite Hread, Hjson.
  destruct (processAlerts_calls (AlertmanagerPayload.Alerts payload)
              (AlertmanagerPayload.ExternalURL payload) Hcreate 0 w)
    as (failed & Hres & _ & Hcalls).
  unfold bind, slog, emit, ret, result_of, history_of in *.
  destruct (processAlerts cfg (AlertmanagerPayload.Alerts payload)
              (AlertmanagerPayload.ExternalURL payload) 0 w) as [[res h] w1].
  simpl in Hres, Hcalls. subst res.
  destruct (0 <? failed); simpl; split; try done;
    by rewrite calls_of_app, List.filter_app, Hcalls, app_nil_r.
Qed.

End handler_runs.

(** C3. For a POST request whose body is read and decodes to a payload,
    served with a client that answers every create with a result or an
    error: [ServeHTTP] answers 200 with the body [{"status":"ok"}],
    whatever the deliveries returned; the calls it made, the resolves
    apart, are exactly the first call of each alert of the batch, in the
    order of the batch (a create for a firing alert, a lookup for a
    resolved one); and the creates it made are exactly one per firing
    alert, in order -- three for a batch of three firing alerts. *)
Theorem ServeHTTP_processes_every_alert
    `{GoLib} `{GoJSON} {W : Type} `{ServiceNowClient W}
    (cfg : config.Config) (r : webhook_handler.InboundRequest)
    (body : string) (payload : models.AlertmanagerPayload.t) (w : W) :
  webhook_handler.Method r = http.MethodPost →
  webhook_handler.ReadAll_Body r = (body, None) →
  json_Unmarshal_payload body = (payload, None) →
  (∀ (incident : models.ServiceNowIncident.t) (w' : W),
     result_of (snow_CreateIncident incident w') ≠ (None, None)) →
  let run := webhook_handler.ServeHTTP cfg r w in
  let alerts := models.AlertmanagerPayload.Alerts payload in
  let externalURL := models.AlertmanagerPayload.ExternalURL payload in
  result_of run
  = Returned {| webhook_handler.Code := 200;
                webhook_handler.Written := webhook_handler.status_ok_body |}
  ∧ List.filter (fun c => negb (webhook_handler.is_resolve c))
                (webhook_handler.calls_of (history_of run))
    = omap (webhook_handler.expected_call cfg externalURL) alerts
  ∧ List.filter webhook_handler.is_create (webhook_handler.calls_of (history_of run))
    = List.map (fun alert =>
                  CreateIncidentCall (webhook_transformer.Transform cfg alert externalURL))
               (List.filter webhook_handler.is_firing alerts)
  ∧ (List.length alerts = 3%nat →
     forallb webhook_handler.is_firing alerts = true →
     List.length (List.filter webhook_handler.is_create
                    (webhook_handler.calls_of (history_of run))) = 3%nat).
Proof.
  intros Hpost Hread Hjson Hcreate run alerts externalURL.
  pose proof (ServeHTTP_accepts cfg r body payload w Hpost Hread Hjson Hcreate) as Hrun.
  fold run alerts externalURL in Hrun.
  destruct Hrun as [Hres Hcalls].
  assert (Hcreates :
    List.filter webhook_handler.is_create (webhook_handler.calls_of (history_of run))
    = List.map (fun alert =>
                  CreateIncidentCall (webhook_transformer.Transform cfg alert externalURL))
               (List.filter webhook_handler.is_firing alerts)).
  { rewrite <- filter_create_not_resolve, Hcalls. apply expected_creates. }
  split; [exact Hres|]. split; [exact Hcalls|]. split; [exact Hcreates|].
  intros Hlen Hall. rewrite Hcreates, length_map.
  rewrite (List.forallb_filter_id _ _ Hall). exact Hlen.
Qed.

(** C8. A resolved alert whose lookup by correlation ID returns neither a
    record nor an error is processed with that one lookup and no other
    call -- no [ResolveIncident] call --, [processAlert] returns nil, the
    world is left as the lookup left it, and the loop over a batch does
    not count the alert as failed. *)
Theorem resolved_alert_without_incident_is_noop
    `{GoLib} {W : Type} `{ServiceNowClient W}
    (cfg : config.Config) (alert : models.Alert.t) (externalURL : string)
    (w w1 : W) (hfind : list Event) :
  let correlationID :=
    webhook_transformer.GenerateCorrelationID
      (map_get (models.Alert.Labels alert) "alertname") (models.Alert.Labels alert) in
  models.Alert.Status alert = models.AlertStatusResolved →
  snow_FindIncidentByCorrelationID correlationID w = ((None, None), hfind, w1) →
  let run := webhook_handler.processAlert cfg alert externalURL w in
  result_of run = Returned None
  ∧ webhook_handler.calls_of (history_of run)
    = [FindIncidentByCorrelationIDCall correlationID]
  ∧ List.filter webhook_handler.is_resolve (webhook_handler.calls_of (history_of run)) = []
  ∧ world_of run = w1
  ∧ ∀ errCount : Z,
      result_of (webhook_handler.processAlerts cfg [alert] externalURL errCount w)
      = Returned errCount.
Proof.
  intros correlationID Hstatus Hfind run.
  assert (Hrun : run = (Returned None,
                        [EvLog "INFO" "processing resolved alert"
                           [("alertname", AString (map_get (models.Alert.Labels alert) "alertname"));
                            ("correlation_id", AString correlationID)];
                         EvCall (FindIncidentByCorrelationIDCall correlationID) hfind;
                         EvLog "WARN" "no existing incident found for resolved alert"
                           [("alertname", AString (map_get (models.Alert.Labels alert) "alertname"));
                            ("correlation_id", AString correlationID)]],
                        w1)).
  { subst run. unfold webhook_handler.processAlert. rewrite Hstatus.
    change (String.eqb models.AlertStatusResolved models.AlertStatusFiring) with false.
    change (String.eqb models.AlertStatusResolved models.AlertStatusResolved) with true.
    cbn iota. fold correlationID.
    unfold webhook_handler.handleResolvedAlert, bind, slog, emit, enclosed, ret.
    by rewrite Hfind. }
  split; [by rewrite Hrun|]. split; [by rewrite Hrun|]. split; [by rewrite Hrun|].
  split; [by rewrite Hrun|].
  intros errCount. cbn [webhook_handler.processAlerts]. unfold bind.
  fold run. by rewrite Hrun.
Qed.

Section production_client.
Import servicenow_retry retry_policy servicenow_client.
Context `{GoLib} `{GoJSON} `{GoImpl} {W : Type} `{Outside W}.

(** A run of the loop that returns nil ends with a run of [fn] that
    returned nil. *)
Lemma WithRetry_loop_success (cfg : RetryConfig) {V : Type} `{Outside V}
    (fn : Prog V (option error)) (n : nat) :
  ∀ (k : Z) (lastErr : option error) (v : V),
    result_of (WithRetry_loop (S n) k cfg fn lastErr v) = None →
    ∃ v0, result_of (fn v0) = None
          ∧ world_of (fn v0) = world_of (WithRetry_loop (S n) k cfg fn lastErr v).
Proof.
  induction n as [|n IH]; intros k lastErr v; rewrite WithRetry_loop_unfold;
    unfold result_of, world_of in *;
    destruct (fn v) as [[[err|] h] v1] eqn:Hfn;
    try (intros _; exists v; by rewrite Hfn);
    destruct (is_client_failure err); try done;
    destruct (k <? MaxAttempts cfg - 1); cbn zeta; try done.
  - by destruct (select_Done_or_After _ v1) as [[ctxErr|] v2].
  - destruct (select_Done_or_After _ v1) as [[ctxErr|] v2]; [done|].
    specialize (IH (k + 1) (Some err) v2).
    destruct (WithRetry_loop (S n) (k + 1) cfg fn (Some err) v2) as [[res rest] v3].
    exact IH.
  - specialize (IH (k + 1) (Some err) v1).
    destruct (WithRetry_loop (S n) (k + 1) cfg fn (Some err) v1) as [[res rest] v3].
    exact IH.
Qed.

(** The closure of [CreateIncident] returns nil only after it has
    assigned a result. *)
Lemma CreateIncident_fn_assigns (c : Client) (endpoint body : string)
    (ws : W * option CreateIncidentResult.t) :
  result_of (CreateIncident_fn c endpoint body ws) = None →
  (world_of (CreateIncident_fn c endpoint body ws)).2 ≠ None.
Proof.
  unfold CreateIncident_fn, send, bind, outside, assign, ret, result_of, world_of.
  destruct (http_NewRequest_error http.MethodPost endpoint); [done|].
  destruct (httpClient_Do _ ws) as [[resp|e] ws1]; [|done].
  destruct (checkResponse resp ws1) as [[[cerr|] hc] ws2]; [done|].
  destruct (http.ReadAll resp) as [respBody [rerr|]]; [done|].
  by destruct (json_Unmarshal_response respBody) as [snowResp [uerr|]].
Qed.

(** With at least one attempt configured -- [NewClient] configures three
    -- [CreateIncident] returns a result or an error. *)
Lemma CreateIncident_answers (c : Client) (incident : models.ServiceNowIncident.t) (w : W) :
  1 <= MaxAttempts (retryConfig c) →
  result_of (CreateIncident c incident w) ≠ (None, None).
Proof.
  intros Hm. unfold CreateIncident.
  destruct (json_Marshal_incident incident) as [body [merr|]]; [done|].
  unfold bind, slog, emit, with_local, ret, WithRetry, result_of.
  destruct (Z.to_nat (MaxAttempts (retryConfig c))) as [|n] eqn:En; [lia|].
  pose proof (WithRetry_loop_success (retryConfig c)
                (CreateIncident_fn c (baseURL c ++ endpointPath c) body)
                n 0 None (w, None)) as Hs.
  unfold result_of, world_of in Hs.
  destruct (WithRetry_loop (S n) 0 (retryConfig c) _ None (w, None))
    as [[[err|] h] [w' result]]; [done|].
  destruct (Hs eq_refl) as (v0 & Hnil & Hworld).
  pose proof (CreateIncident_fn_assigns c _ body v0 Hnil) as Ha.
  unfold world_of in Ha. rewrite Hworld in Ha. simpl in *.
  intros [= ->]. done.
Qed.

(** The lookup returns neither a record nor an error when the server
    answers 2xx with a list of no records. *)
Lemma FindIncidentByCorrelationID_absent (c : Client) (correlationID respBody : string)
    (resp : http.Response) (w w1 : W) :
  let endpoint :=
    baseURL c ++ endpointPath c ++ "?sysparm_query=correlation_id="
    ++ url_QueryEscape correlationID ++ "&sysparm_limit=1" in
  1 <= MaxAttempts (retryConfig c) →
  http_NewRequest_error http.MethodGet endpoint = None →
  httpClient_Do (setHeaders c (newRequest http.MethodGet endpoint "")) w = (inl resp, w1) →
  200 <= http.StatusCode resp < 300 →
  http.ReadAll resp = (respBody, None) →
  json_Unmarshal_list respBody = ([], None) →
  result_of (FindIncidentByCorrelationID c correlationID w) = (None, None)
  ∧ world_of (FindIncidentByCorrelationID c correlationID w) = w1.
Proof.
  intros endpoint Hm Hnew Hdo Hcode Hread Hlist.
  unfold FindIncidentByCorrelationID. fold endpoint.
  unfold bind, slog, emit, with_local, ret, WithRetry, result_of, world_of.
  destruct (Z.to_nat (MaxAttempts (retryConfig c))) as [|n] eqn:En; [lia|].
  rewrite WithRetry_loop_unfold.
  unfold FindIncidentByCorrelationID_fn, send. rewrite Hnew.
  unfold bind, outside. cbn [httpClient_Do Outside_with_local fst snd].
  rewrite Hdo, checkResponse_accepts by done.
  rewrite Hread, Hlist. done.
Qed.

(** The handler as [main] wires it, with the client of [NewClient]: a
    request that is read and decoded is answered 200 whatever the server
    and the context do, with one create per firing alert, in order. *)
Lemma ServeHTTP_production_accepts (cfg : config.Config)
    (r : webhook_handler.InboundRequest) (body : string)
    (payload : models.AlertmanagerPayload.t) (w : W) :
  webhook_handler.Method r = http.MethodPost →
  webhook_handler.ReadAll_Body r = (body, None) →
  json_Unmarshal_payload body = (payload, None) →
  let run := webhook_handler.ServeHTTP (H1 := Client_ServiceNowClient (NewClient cfg))
               cfg r w in
  result_of run
  = Returned {| webhook_handler.Code := 200;
                webhook_handler.Written := webhook_handler.status_ok_body |}
  ∧ List.filter webhook_handler.is_create (webhook_handler.calls_of (history_of run))
    = List.map (fun alert =>
                  CreateIncidentCall
                    (webhook_transformer.Transform cfg alert
                       (models.AlertmanagerPayload.ExternalURL payload)))
               (List.filter webhook_handler.is_firing
                            (models.AlertmanagerPayload.Alerts payload)).
Proof.
  intros Hpost Hread Hjson run.
  destruct (ServeHTTP_accepts (H1 := Client_ServiceNowClient (NewClient cfg))
              cfg r body payload w Hpost Hread Hjson) as [Hres Hcalls].
  { intros incident w'. apply CreateIncident_answers. simpl. lia. }
  split; [exact Hres|].
  rewrite <- filter_create_not_resolve. fold run in Hcalls. rewrite Hcalls.
  apply expected_creates.
Qed.

End production_client.

Section handler_examples.
Import testing.

Lemma CreateIncident_resends_accepted_create_witness :
  ∃ err again rest,
    errors_As_RetryableError err = None
    ∧ In (EvAttempt 0
            [EvHTTP (servicenow_client.setHeaders (servicenow_client.NewClient test_config)
                       (servicenow_client.newRequest "POST"
                          "https://snow.example.com/api/now/table/incident" "test123"))
                    (answer 201 "garbled")]
            (Some err))
         (history_of (servicenow_client.CreateIncident
                        (servicenow_client.NewClient test_config) test_incident
                        garbled_then_created))
    ∧ exchanges_of (history_of (servicenow_client.CreateIncident
                                  (servicenow_client.NewClient test_config) test_incident
                                  garbled_then_created))
      = (servicenow_client.setHeaders (servicenow_client.NewClient test_config)
           (servicenow_client.newRequest "POST"
              "https://snow.example.com/api/now/table/incident" "test123"),
         answer 201 "garbled")
        :: (servicenow_client.setHeaders (servicenow_client.NewClient test_config)
              (servicenow_client.newRequest "POST"
                 "https://snow.example.com/api/now/table/incident" "test123"),
            again)
        :: rest.
Proof.
  apply (CreateIncident_resends_accepted_create
           (servicenow_client.NewClient test_config) test_incident "test123"
           {| http.StatusCode := 201; http.ReadAll := ("garbled", None) |}
           garbled_then_created
           {| responses := [answer 201 "created"]; selects := [] |}
           {| responses := [answer 201 "created"]; selects := [] |}).
  - vm_compute. discriminate.
  - reflexivity.
  - reflexivity.
  - reflexivity.
  - vm_compute. split; [discriminate|reflexivity].
  - right. vm_compute. discriminate.
  - reflexivity.
Defined.

(** Two create requests for one incident, the first accepted with 201,
    and a result from the second. *)
Example CreateIncident_sends_twice :
  List.map (fun x => http.Method x.1)
    (exchanges_of (history_of (servicenow_client.CreateIncident
                                 (servicenow_client.NewClient test_config) test_incident
                                 garbled_then_created)))
  = ["POST"; "POST"]
  ∧ (result_of (servicenow_client.CreateIncident
                  (servicenow_client.NewClient test_config) test_incident
                  garbled_then_created)).2 = None.
Proof. vm_compute. split; reflexivity. Qed.

(** [TestHandler_ServeHTTP_MultipleAlerts], with every create failing. *)
Lemma ServeHTTP_processes_every_alert_witness :
  let run := webhook_handler.ServeHTTP (H1 := mock mock_create_fails)
               test_config (post "three firing") no_calls in
  result_of run
  = Returned {| webhook_handler.Code := 200;
                webhook_handler.Written := webhook_handler.status_ok_body |}
  ∧ List.length (List.filter webhook_handler.is_create
                   (webhook_handler.calls_of (history_of run))) = 3%nat
  ∧ List.length (createCalls (world_of run)) = 3%nat.
Proof.
  intros run.
  destruct (ServeHTTP_processes_every_alert
              (H := plain_lib) (H0 := table_json) (H1 := mock mock_create_fails)
              test_config (post "three firing") "three firing" three_firing no_calls
              eq_refl eq_refl eq_refl) as (Hres & _ & _ & Hthree).
  - intros incident w'. simpl. discriminate.
  - split; [exact Hres|]. split; [apply Hthree; reflexivity|].
    vm_compute. reflexivity.
Defined.

(** [TestHandler_ServeHTTP_ResolvedAlert_NoExistingIncident]. *)
Lemma resolved_alert_without_incident_is_noop_witness :
  let run := webhook_handler.processAlert (H1 := mock mock_no_existing_incident)
               test_config (alert_with "resolved" {[ "alertname" := "TestAlert" ]}) ""
               no_calls in
  result_of run = Returned None
  ∧ List.filter webhook_handler.is_resolve (webhook_handler.calls_of (history_of run)) = []
  ∧ resolveCalls (world_of run) = [].
Proof.
  intros run.
  destruct (resolved_alert_without_incident_is_noop
              (H := plain_lib) (H0 := mock mock_no_existing_incident)
              test_config (alert_with "resolved" {[ "alertname" := "TestAlert" ]}) ""
              no_calls no_calls [] eq_refl eq_refl) as (Hres & _ & Hnone & Hworld & _).
  split; [exact Hres|]. split; [exact Hnone|]. fold run in Hworld. by rewrite Hworld.
Defined.

End handler_examples.

(* ===================================================================== *)
(** * Further properties of the retry loop *)
(* ===================================================================== *)

Section retry_bounds.
Import servicenow_retry retry_policy.
Context `{GoImpl}.
Variable cfg : RetryConfig.

(** The cap of [calculateBackoff] holds whatever the float64 product
    converts to. *)
Lemma calculateBackoff_capped (attempt baseDelay maxDelay : Z) :
  calculateBackoff attempt baseDelay maxDelay <= maxDelay.
Proof.
  unfold calculateBackoff.
  match goal with |- (if ?c <? ?d then _ else _) <= _ => destruct (Z.ltb_spec c d) end; lia.
Qed.

Lemma waits_of_cons_attempt (k : Z) (hk : list Event) (r : option error) (h : list Event) :
  waits_of (EvAttempt k hk r :: h) = waits_of h.
Proof. reflexivity. Qed.

Lemma waits_of_cons_wait (d : Z) (r : SelectResult) (h : list Event) :
  waits_of (EvWait d r :: h) = d :: waits_of h.
Proof. reflexivity. Qed.

Lemma attempts_of_cons_attempt (k : Z) (hk : list Event) (r : option error) (h : list Event) :
  attempts_of (EvAttempt k hk r :: h) = (k, r) :: attempts_of h.
Proof. reflexivity. Qed.

Lemma attempts_of_cons_wait (d : Z) (r : SelectResult) (h : list Event) :
  attempts_of (EvWait d r :: h) = attempts_of h.
Proof. reflexivity. Qed.

(** A run holds attempts and waits only, at most one attempt per number
    up to [MaxAttempts - 1], each wait after an attempt that is not the
    last one allowed; the waits are those of the backoff, in order. *)
Lemma RetryRun_counts k h res :
  RetryRun cfg k h res → k <= MaxAttempts cfg - 1 →
  Z.of_nat (List.length (attempts_of h)) <= MaxAttempts cfg - k
  ∧ (List.length (waits_of h) <= List.length (attempts_of h))%nat
  ∧ Z.of_nat (List.length (waits_of h)) <= MaxAttempts cfg - 1 - k
  ∧ List.length h = (List.length (attempts_of h) + List.length (waits_of h))%nat
  ∧ waits_of h
    = List.map (fun j => calculateBackoff j (BaseDelay cfg) (MaxDelay cfg))
               (seqZ k (Z.of_nat (List.length (waits_of h)))).
Proof.
  induction 1 as [k h|k h err Hc|k h err Hc Hk|k h err ctxErr Hc Hk
                 |k h err rest res Hc Hk Hrun IH]; intros Hle.
  - cbn. repeat split; lia.
  - cbn. repeat split; lia.
  - cbn. repeat split; lia.
  - cbn. repeat split; lia.
  - destruct (IH ltac:(lia)) as (Ha & Hw & Hwn & Hlen & Hseq).
    rewrite attempts_of_cons_attempt, attempts_of_cons_wait,
      waits_of_cons_attempt, waits_of_cons_wait.
    cbn [List.length]. repeat split; try lia.
    rewrite seqZ_cons by lia. cbn [List.map]. f_equal.
    replace (Z.pred (Z.of_nat (S (List.length (waits_of rest)))))
      with (Z.of_nat (List.length (waits_of rest))) by lia.
    replace (Z.succ k) with (k + 1) by lia. exact Hseq.
Qed.

(** A run that goes through every attempt waits after each but the last,
    for the delays of the backoff. *)
Lemma RetryRun_exhausts_waits k h res :
  RetryRun cfg k h res →
  Forall (fun a => ∃ err, a.2 = Some err ∧ is_client_failure err = false) (attempts_of h) →
  Forall (fun ev => is_cancelled_wait ev = false) h →
  waits_of h
  = List.map (fun j => calculateBackoff j (BaseDelay cfg) (MaxDelay cfg))
             (seqZ k (MaxAttempts cfg - 1 - k)).
Proof.
  induction 1 as [k h|k h err Hc|k h err Hc Hk|k h err ctxErr Hc Hk
                 |k h err rest res Hc Hk Hrun IH];
    intros Ha Hw.
  - apply Forall_cons in Ha as [(err & [=] & _) _].
  - apply Forall_cons in Ha as [(err' & [= <-] & Hc') _]. congruence.
  - subst k. by replace (MaxAttempts cfg - 1 - (MaxAttempts cfg - 1)) with 0 by lia.
  - apply Forall_cons in Hw as [_ Hw]. by apply Forall_cons in Hw as [[=] _].
  - apply Forall_cons in Ha as [_ Ha].
    apply Forall_cons in Hw as [_ Hw]. apply Forall_cons in Hw as [_ Hw].
    rewrite waits_of_cons_attempt, waits_of_cons_wait, (IH Ha Hw).
    rewrite (seqZ_cons k) by lia. cbn [List.map].
    replace (Z.succ k) with (k + 1) by lia.
    by replace (Z.pred (MaxAttempts cfg - 1 - k)) with (MaxAttempts cfg - 1 - (k + 1)) by lia.
Qed.

Lemma sum_capped (l : list Z) (cap : Z) :
  Forall (fun d => d <= cap) l → 0 <= cap →
  fold_right Z.add 0 l <= Z.of_nat (List.length l) * cap.
Proof.
  intros Hl Hcap. induction Hl as [|d l Hd _ IH]; cbn [fold_right List.length]; [lia|].
  nia.
Qed.

(** A successful attempt ends the run, and a run that returns nil ends
    with one. *)
Lemma RetryRun_success_last k h res :
  RetryRun cfg k h res →
  ∀ pre j hj post,
    h = (pre ++ EvAttempt j hj None :: post)%list → post = [] ∧ res = None.
Proof.
  induction 1 as [k h|k h err Hc|k h err Hc Hk|k h err ctxErr Hc Hk
                 |k h err rest res Hc Hk Hrun IH];
    intros pre j hj post Hd; symmetry in Hd.
  - by apply app_cons_singleton in Hd as (-> & [= -> ->] & ->).
  - apply app_cons_singleton in Hd as (_ & [=] & _).
  - apply app_cons_singleton in Hd as (_ & [=] & _).
  - apply app_cons_cases in Hd as [(_ & [=] & _) | (pre' & -> & Hd)].
    symmetry in Hd. apply app_cons_singleton in Hd as (_ & [=] & _).
  - apply app_cons_cases in Hd as [(_ & [=] & _) | (pre' & -> & Hd)].
    symmetry in Hd.
    apply app_cons_cases in Hd as [(_ & [=] & _) | (pre'' & -> & Hd)].
    eauto.
Qed.

Lemma RetryRun_nil_result k h :
  RetryRun cfg k h None → ∃ pre j hj, h = (pre ++ [EvAttempt j hj None])%list.
Proof.
  intros Hrun. remember None as res eqn:Hres.
  induction Hrun as [k h|k h err Hc|k h err Hc Hk|k h err ctxErr Hc Hk
                    |k h err rest res Hc Hk Hrun IH]; try discriminate.
  - by exists [], k, h.
  - destruct (IH Hres) as (pre & j & hj & ->).
    by eexists (_ :: _ :: pre), j, hj.
Qed.

End retry_bounds.

(** X1. Whatever the operation, the configuration and the outside do,
    [WithRetry] calls the operation at most [MaxAttempts] times (never,
    when [MaxAttempts] is zero or negative), waits at most once per
    attempt and at most [MaxAttempts - 1] times, never asks for a wait
    longer than [MaxDelay] -- so that the waits of a run add up to at most
    [(MaxAttempts - 1) * MaxDelay] -- and does nothing else: its history
    holds attempts and waits only. *)
Theorem WithRetry_attempts_and_waits_bounded
    `{GoImpl} {W : Type} `{Outside W}
    (cfg : servicenow_retry.RetryConfig) (fn : Prog W (option error)) (w : W) :
  let h := history_of (servicenow_retry.WithRetry cfg fn w) in
  Z.of_nat (List.length (retry_policy.attempts_of h))
    <= Z.max 0 (servicenow_retry.MaxAttempts cfg)
  ∧ (List.length (retry_policy.waits_of h)
     <= List.length (retry_policy.attempts_of h))%nat
  ∧ Z.of_nat (List.length (retry_policy.waits_of h))
    <= Z.max 0 (servicenow_retry.MaxAttempts cfg - 1)
  ∧ Forall (fun d => d <= servicenow_retry.MaxDelay cfg) (retry_policy.waits_of h)
  ∧ (0 <= servicenow_retry.MaxDelay cfg →
     fold_right Z.add 0 (retry_policy.waits_of h)
     <= Z.max 0 (servicenow_retry.MaxAttempts cfg - 1) * servicenow_retry.MaxDelay cfg)
  ∧ List.length h
    = (List.length (retry_policy.attempts_of h)
       + List.length (retry_policy.waits_of h))%nat.
Proof.
  intros h. subst h.
  destruct (Z_lt_le_dec (servicenow_retry.MaxAttempts cfg) 1) as [Hm|Hm].
  - rewrite WithRetry_no_attempt by lia. cbn. repeat split; try lia. constructor.
  - pose proof (WithRetry_run cfg fn w Hm) as Hrun.
    destruct (RetryRun_counts cfg _ _ _ Hrun ltac:(lia)) as (Ha & Hw & Hwn & Hlen & Hseq).
    assert (Hcap : Forall (fun d => d <= servicenow_retry.MaxDelay cfg)
                     (retry_policy.waits_of (history_of (servicenow_retry.WithRetry cfg fn w)))).
    { rewrite Hseq. apply List.Forall_map. apply Forall_true. intros j.
      apply calculateBackoff_capped. }
    repeat split; try lia; [exact Hcap|].
    intros Hpos. pose proof (sum_capped _ _ Hcap Hpos) as Hsum. nia.
Qed.

(** X2. A run of [WithRetry] ends with the first attempt that returns
    nil: nothing follows such an attempt and the result is nil; a run that
    made at least one attempt returns nil only when its last event is an
    attempt that returned nil.  With [MaxAttempts] zero or negative the
    operation is never called and the result is nil all the same; with
    [MaxAttempts] at least one it is called at least once. *)
Theorem WithRetry_returns_nil_with_the_successful_attempt
    `{GoImpl} {W : Type} `{Outside W}
    (cfg : servicenow_retry.RetryConfig) (fn : Prog W (option error)) (w : W) :
  let run := servicenow_retry.WithRetry cfg fn w in
  (∀ pre j hj post,
     history_of run = (pre ++ EvAttempt j hj None :: post)%list →
     post = [] ∧ result_of run = None)
  ∧ (result_of run = None →
     history_of run = []
     ∨ ∃ pre j hj, history_of run = (pre ++ [EvAttempt j hj None])%list)
  ∧ (servicenow_retry.MaxAttempts cfg <= 0 → run = (None, [], w))
  ∧ (1 <= servicenow_retry.MaxAttempts cfg →
     ∃ rest, history_of run = EvAttempt 0 (history_of (fn w)) (result_of (fn w)) :: rest).
Proof.
  intros run. subst run.
  destruct (Z_lt_le_dec (servicenow_retry.MaxAttempts cfg) 1) as [Hm|Hm].
  - rewrite WithRetry_no_attempt by lia. cbn. split; [|split; [|split]].
    + intros pre j hj post Hd. by destruct pre.
    + by left.
    + done.
    + lia.
  - pose proof (WithRetry_run cfg fn w Hm) as Hrun. split; [|split; [|split]].
    + intros pre j hj post Hd. by eapply RetryRun_success_last.
    + intros Hres. right. rewrite Hres in Hrun. by eapply RetryRun_nil_result.
    + lia.
    + intros _. unfold servicenow_retry.WithRetry.
      destruct (Z.to_nat (servicenow_retry.MaxAttempts cfg)) as [|n] eqn:En; [lia|].
      apply WithRetry_loop_head.
Qed.

Section retryable.
Import servicenow_retry retry_policy.

(** An error that [IsRetryable] accepts is not one that [WithRetry]
    refuses to retry. *)
Lemma IsRetryable_not_client_failure (err : error) :
  IsRetryable err = true → is_client_failure err = false.
Proof.
  unfold IsRetryable, is_client_failure.
  destruct (errors_As_RetryableError err) as [[e code]|]; [|done].
  intros Hs. apply Z.leb_le in Hs. apply andb_false_iff. right. lia.
Qed.

End retryable.

(** X3. [WithRetry] retries every error that [IsRetryable] calls
    retryable: when an attempt that is not the last one allowed fails with
    such an error, the run goes on with the backoff wait of that attempt
    (and, the timer firing, with the next attempt). *)
Theorem WithRetry_retries_what_IsRetryable_accepts
    `{GoImpl} {W : Type} `{Outside W}
    (cfg : servicenow_retry.RetryConfig) (fn : Prog W (option error)) (w : W)
    (pre : list Event) (j : Z) (hj : list Event) (err : error) (post : list Event) :
  history_of (servicenow_retry.WithRetry cfg fn w)
  = (pre ++ EvAttempt j hj (Some err) :: post)%list →
  servicenow_retry.IsRetryable err = true →
  j < servicenow_retry.MaxAttempts cfg - 1 →
  ∃ r post',
    post = EvWait (servicenow_retry.calculateBackoff j
                     (servicenow_retry.BaseDelay cfg) (servicenow_retry.MaxDelay cfg)) r
           :: post'
    ∧ (r = TimerFired → ∃ hj' r' post'', post' = EvAttempt (j + 1) hj' r' :: post'').
Proof.
  intros Hd Hr Hj.
  destruct (Z_lt_le_dec (servicenow_retry.MaxAttempts cfg) 1) as [Hm|Hm].
  { rewrite WithRetry_no_attempt in Hd by lia. by destruct pre. }
  pose proof (WithRetry_run cfg fn w Hm) as Hrun.
  destruct (RetryRun_failure_step cfg _ _ _ Hrun _ _ _ _ _ Hd
              (IsRetryable_not_client_failure err Hr))
    as [(Hlast & _) | (_ & r & post' & -> & Hnext)]; [lia|].
  exists r, post'. split; [done|]. by intros ->.
Qed.

(** X4. The status classes: no code is both a client error and a server
    error, and the two classes together are the codes from 400 on.
    [IsRetryable] looks through any wrapping of an error: on a classified
    error it is [IsServerError] of the status code, on an error that holds
    no classified error -- a transport error, a cancelled context -- it is
    true. *)
Theorem status_classes_and_IsRetryable
    (statusCode : Z) (inner err : error) (msg : string) :
  servicenow_retry.IsClientError statusCode && servicenow_retry.IsServerError statusCode
  = false
  ∧ servicenow_retry.IsClientError statusCode || servicenow_retry.IsServerError statusCode
    = (400 <=? statusCode)
  ∧ servicenow_retry.IsRetryable (RetryableError inner statusCode)
    = servicenow_retry.IsServerError statusCode
  ∧ servicenow_retry.IsRetryable (wrapError msg err) = servicenow_retry.IsRetryable err
  ∧ (errors_As_RetryableError err = None → servicenow_retry.IsRetryable err = true)
  ∧ servicenow_retry.IsRetryable context_Canceled = true
  ∧ servicenow_retry.IsRetryable context_DeadlineExceeded = true.
Proof.
  unfold servicenow_retry.IsClientError, servicenow_retry.IsServerError,
    servicenow_retry.IsRetryable, http.StatusBadRequest, http.StatusInternalServerError.
  cbn [errors_As_RetryableError].
  repeat split; try (intros ->; reflexivity);
    destruct (Z.leb_spec 400 statusCode); destruct (Z.ltb_spec statusCode 500);
    destruct (Z.leb_spec 500 statusCode); simpl; try reflexivity; lia.
Qed.

Section default_schedule.
Import servicenow_retry retry_policy.

Lemma calculateBackoff_default_0 `{GoImpl} :
  calculateBackoff 0 (BaseDelay DefaultRetryConfig) (MaxDelay DefaultRetryConfig)
  = 1000000000.
Proof. rewrite calculateBackoff_exact; [reflexivity| |vm_compute; split; [discriminate|reflexivity]|reflexivity]; lia. Qed.

Lemma calculateBackoff_default_1 `{GoImpl} :
  calculateBackoff 1 (BaseDelay DefaultRetryConfig) (MaxDelay DefaultRetryConfig)
  = 2000000000.
Proof. rewrite calculateBackoff_exact; [reflexivity| |vm_compute; split; [discriminate|reflexivity]|reflexivity]; lia. Qed.

End default_schedule.

(** X5. The schedule of the client that [NewClient] builds: whatever the
    server and the context do, an operation is tried at most three times,
    and the waits between the tries are one second, then two seconds (the
    cap of ten seconds is never reached). *)
Theorem NewClient_retry_schedule
    `{GoImpl} {W : Type} `{Outside W}
    (cfg : config.Config) (fn : Prog W (option error)) (w : W) :
  let retry := servicenow_client.retryConfig (servicenow_client.NewClient cfg) in
  let h := history_of (servicenow_retry.WithRetry retry fn w) in
  (List.length (retry_policy.attempts_of h) <= 3)%nat
  ∧ (retry_policy.waits_of h = []
     ∨ retry_policy.waits_of h = [1 * servicenow_retry.Second]
     ∨ retry_policy.waits_of h
       = [1 * servicenow_retry.Second; 2 * servicenow_retry.Second]).
Proof.
  intros retry h. subst retry h. cbn [servicenow_client.NewClient servicenow_client.retryConfig].
  pose proof (WithRetry_run servicenow_retry.DefaultRetryConfig fn w ltac:(done)) as Hrun.
  destruct (RetryRun_counts _ _ _ _ Hrun ltac:(done)) as (Ha & _ & Hwn & _ & Hseq).
  cbn [servicenow_retry.MaxAttempts servicenow_retry.DefaultRetryConfig] in Ha, Hwn.
  split; [lia|].
  destruct (retry_policy.waits_of _) as [|d1 [|d2 [|d3 ws]]] eqn:Hw in Hseq, Hwn |- *;
    cbn [List.length] in *; [by left| | |lia].
  - right. left. vm_compute seqZ in Hseq. cbn [List.map] in Hseq.
    rewrite calculateBackoff_default_0 in Hseq. injection Hseq as ->. reflexivity.
  - right. right. vm_compute seqZ in Hseq. cbn [List.map] in Hseq.
    rewrite calculateBackoff_default_0, calculateBackoff_default_1 in Hseq.
    injection Hseq as -> ->. reflexivity.
Qed.

(** X6. While the float64 product is exact, the backoff never shrinks
    from one attempt to the next and at most doubles: for a base delay
    between 0 and [2^53] ns, a cap of at least 0 and a product
    [baseDelay * 2^(attempt+1)] below [2^63],
    [0 <= backoff attempt <= backoff (attempt + 1) <= 2 * backoff attempt]. *)
Theorem calculateBackoff_grows_and_at_most_doubles
    `{GoImpl} (attempt baseDelay maxDelay : Z) :
  0 <= attempt < 1023 →
  0 <= baseDelay < 2 ^ 53 →
  0 <= maxDelay →
  baseDelay * 2 ^ (attempt + 1) < 2 ^ 63 →
  0 <= servicenow_retry.calculateBackoff attempt baseDelay maxDelay
  ∧ servicenow_retry.calculateBackoff attempt baseDelay maxDelay
    <= servicenow_retry.calculateBackoff (attempt + 1) baseDelay maxDelay
  ∧ servicenow_retry.calculateBackoff (attempt + 1) baseDelay maxDelay
    <= 2 * servicenow_retry.calculateBackoff attempt baseDelay maxDelay.
Proof.
  intros Ha Hb Hm Hr.
  assert (Hpow : 2 ^ (attempt + 1) = 2 * 2 ^ attempt)
    by (rewrite Z.pow_add_r by lia; lia).
  assert (0 < 2 ^ attempt) by (apply Z.pow_pos_nonneg; lia).
  rewrite !calculateBackoff_exact by (try lia; nia).
  rewrite Hpow. nia.
Qed.

(* ===================================================================== *)
(** * Further properties of the client *)
(* ===================================================================== *)

Section loop_facts.
Import servicenow_retry retry_policy.
Context `{GoImpl} {V : Type} `{Outside V}.
Variables (cfg : RetryConfig) (fn : Prog V (option error)).

Lemma exchanges_of_cons_attempt (k : Z) (hk : list Event) (r : option error) (h : list Event) :
  exchanges_of (EvAttempt k hk r :: h) = (exchanges_of hk ++ exchanges_of h)%list.
Proof. reflexivity. Qed.

Lemma exchanges_of_cons_wait (d : Z) (r : SelectResult) (h : list Event) :
  exchanges_of (EvWait d r :: h) = exchanges_of h.
Proof. reflexivity. Qed.

Lemma exchanges_of_cons_log (level msg : string) (attrs : list (string * Attr))
    (h : list Event) :
  exchanges_of (EvLog level msg attrs :: h) = exchanges_of h.
Proof. reflexivity. Qed.

Lemma exchanges_of_app (h1 h2 : list Event) :
  exchanges_of (h1 ++ h2) = (exchanges_of h1 ++ exchanges_of h2)%list.
Proof. unfold exchanges_of. apply flat_map_app. Qed.

(** What holds of every run of [fn] holds of every attempt of the loop. *)
Lemma WithRetry_loop_attempts (A : list Event → option error → Prop) :
  (∀ v, A (history_of (fn v)) (result_of (fn v))) →
  ∀ (n : nat) (k : Z) (lastErr : option error) (v : V),
    Forall (fun ev => match ev with EvAttempt _ h r => A h r | _ => True end)
           (history_of (WithRetry_loop n k cfg fn lastErr v)).
Proof.
  intros Hfn. induction n as [|n IH]; intros k lastErr v; [constructor|].
  rewrite WithRetry_loop_unfold. specialize (Hfn v).
  unfold history_of, result_of in *.
  destruct (fn v) as [[[err|] h] v1]; cbn [fst snd] in Hfn;
    [|by repeat constructor].
  destruct (is_client_failure err); [by repeat constructor|].
  destruct (k <? MaxAttempts cfg - 1); cbn zeta.
  - destruct (select_Done_or_After _ v1) as [[ctxErr|] v2]; [by repeat constructor|].
    specialize (IH (k + 1) (Some err) v2).
    destruct (WithRetry_loop n (k + 1) cfg fn (Some err) v2) as [[res rest] v3].
    by repeat constructor.
  - specialize (IH (k + 1) (Some err) v1).
    destruct (WithRetry_loop n (k + 1) cfg fn (Some err) v1) as [[res rest] v3].
    by repeat constructor.
Qed.

(** The requests of a run are those of its attempts. *)
Lemma WithRetry_loop_exchanges
    (R : http.Request * (http.Response + LibError) → Prop) :
  (∀ v, Forall R (exchanges_of (history_of (fn v)))
        ∧ (List.length (exchanges_of (history_of (fn v))) <= 1)%nat) →
  ∀ (n : nat) (k : Z) (lastErr : option error) (v : V),
    Forall R (exchanges_of (history_of (WithRetry_loop n k cfg fn lastErr v)))
    ∧ (List.length (exchanges_of (history_of (WithRetry_loop n k cfg fn lastErr v)))
       <= n)%nat.
Proof.
  intros Hfn. induction n as [|n IH]; intros k lastErr v.
  { split; [constructor|done]. }
  rewrite WithRetry_loop_unfold. destruct (Hfn v) as [HR Hlen].
  unfold history_of in *.
  destruct (fn v) as [[[err|] h] v1]; cbn [fst snd] in HR, Hlen.
  2:{ cbn [fst snd]. rewrite exchanges_of_cons_attempt, app_nil_r. split; [done|lia]. }
  destruct (is_client_failure err).
  { cbn [fst snd]. rewrite exchanges_of_cons_attempt, app_nil_r. split; [done|lia]. }
  destruct (k <? MaxAttempts cfg - 1); cbn zeta.
  - destruct (select_Done_or_After _ v1) as [[ctxErr|] v2].
    { cbn [fst snd]. rewrite exchanges_of_cons_attempt, exchanges_of_cons_wait, app_nil_r.
      split; [done|lia]. }
    destruct (IH (k + 1) (Some err) v2) as [HR' Hlen'].
    destruct (WithRetry_loop n (k + 1) cfg fn (Some err) v2) as [[res rest] v3].
    cbn [fst snd] in *. rewrite exchanges_of_cons_attempt, exchanges_of_cons_wait.
    split; [by apply Forall_app|]. rewrite length_app. lia.
  - destruct (IH (k + 1) (Some err) v1) as [HR' Hlen'].
    destruct (WithRetry_loop n (k + 1) cfg fn (Some err) v1) as [[res rest] v3].
    cbn [fst snd] in *. rewrite exchanges_of_cons_attempt.
    split; [by apply Forall_app|]. rewrite length_app. lia.
Qed.

(** A run that returns nil ends with a run of [fn] that returned nil,
    started in a world that failed runs and waits led to. *)
Lemma WithRetry_loop_success_run (I : V → Prop) :
  (∀ v, I v → result_of (fn v) ≠ None → I (world_of (fn v))) →
  (∀ d v, I v → I (select_Done_or_After d v).2) →
  ∀ (n : nat) (k : Z) (lastErr : option error) (v : V),
    I v →
    result_of (WithRetry_loop (S n) k cfg fn lastErr v) = None →
    ∃ v0 pre j,
      I v0
      ∧ result_of (fn v0) = None
      ∧ world_of (fn v0) = world_of (WithRetry_loop (S n) k cfg fn lastErr v)
      ∧ history_of (WithRetry_loop (S n) k cfg fn lastErr v)
        = (pre ++ [EvAttempt j (history_of (fn v0)) None])%list.
Proof.
  intros Hfail Hsel.
  induction n as [|n IH]; intros k lastErr v Hv; rewrite WithRetry_loop_unfold;
    pose proof (Hfail v Hv) as Hv1;
    unfold result_of, world_of, history_of in *;
    destruct (fn v) as [[[err|] h] v1] eqn:Hfn; cbn [fst snd] in Hv1;
    try (intros _; exists v, [], k; by rewrite Hfn);
    specialize (Hv1 ltac:(done));
    destruct (is_client_failure err); try done;
    destruct (k <? MaxAttempts cfg - 1); cbn zeta; try done.
  - by destruct (select_Done_or_After _ v1) as [[ctxErr|] v2].
  - pose proof (Hsel (calculateBackoff k (BaseDelay cfg) (MaxDelay cfg)) v1 Hv1) as Hv2.
    destruct (select_Done_or_After _ v1) as [[ctxErr|] v2]; [done|].
    cbn [snd] in Hv2.
    specialize (IH (k + 1) (Some err) v2 Hv2).
    destruct (WithRetry_loop (S n) (k + 1) cfg fn (Some err) v2) as [[res rest] v3].
    cbn [fst snd] in *. intros Hres.
    destruct (IH Hres) as (v0 & pre & j & Hv0 & Hnil & Hw & ->).
    eexists v0, (_ :: _ :: pre), j. repeat (split; [done|]). reflexivity.
  - specialize (IH (k + 1) (Some err) v1 Hv1).
    destruct (WithRetry_loop (S n) (k + 1) cfg fn (Some err) v1) as [[res rest] v3].
    cbn [fst snd] in *. intros Hres.
    destruct (IH Hres) as (v0 & pre & j & Hv0 & Hnil & Hw & ->).
    eexists v0, (_ :: pre), j. repeat (split; [done|]). reflexivity.
Qed.

(** When every attempt of a run sent one request, the run sent as many
    requests as it made attempts. *)
Lemma RetryRun_exchanges_count k h res :
  RetryRun cfg k h res →
  Forall (fun ev => match ev with
                    | EvAttempt _ hk _ => List.length (exchanges_of hk) = 1%nat
                    | _ => True
                    end) h →
  List.length (exchanges_of h) = List.length (attempts_of h).
Proof.
  induction 1 as [k h|k h err Hc|k h err Hc Hk|k h err ctxErr Hc Hk
                 |k h err rest res Hc Hk Hrun IH]; intros Hall.
  - apply Forall_cons in Hall as [Hh _].
    by rewrite exchanges_of_cons_attempt, app_nil_r.
  - apply Forall_cons in Hall as [Hh _].
    by rewrite exchanges_of_cons_attempt, app_nil_r.
  - apply Forall_cons in Hall as [Hh _].
    by rewrite exchanges_of_cons_attempt, app_nil_r.
  - apply Forall_cons in Hall as [Hh _].
    by rewrite exchanges_of_cons_attempt, exchanges_of_cons_wait, app_nil_r.
  - apply Forall_cons in Hall as [Hh Hall]. apply Forall_cons in Hall as [_ Hall].
    rewrite exchanges_of_cons_attempt, exchanges_of_cons_wait, length_app, Hh, (IH Hall).
    reflexivity.
Qed.

End loop_facts.

Section client_facts.
Import config models servicenow_retry retry_policy servicenow_client.
Context `{GoLib} `{GoJSON} `{GoImpl}.

(** The request that the client builds: the method, the URL and the
    body, with the credentials and the two JSON headers. *)
Lemma setHeaders_newRequest (c : Client) (method endpoint body : string) :
  setHeaders c (newRequest method endpoint body)
  = {| http.Method := method; http.URL := endpoint; http.Body := body;
       http.BasicAuth := Some (username c, password c);
       http.Header := [("Content-Type", "application/json");
                       ("Accept", "application/json")] |}.
Proof. reflexivity. Qed.

(** The runs of [send], case by case. *)
Lemma send_cases {V : Type} `{Outside V} (c : Client) (method endpoint body : string)
    (on_success : http.Response → Prog V (option error)) (v : V) :
  let req := setHeaders c (newRequest method endpoint body) in
  match http_NewRequest_error method endpoint with
  | Some e =>
      send c method endpoint body on_success v
      = (Some (wrapError "failed to create request" (errorString e)), [], v)
  | None =>
      match httpClient_Do req v with
      | (inr e, v1) =>
          send c method endpoint body on_success v
          = (Some (wrapError "failed to send request" (errorString e)),
             [EvHTTP req (inr e)], v1)
      | (inl resp, v1) =>
          if (200 <=? http.StatusCode resp) && (http.StatusCode resp <? 300)
          then send c method endpoint body on_success v
               = (let '(r, h, v2) := on_success resp v1 in
                  (r, EvHTTP req (inl resp) :: h, v2))
          else send c method endpoint body on_success v
               = (Some (RetryableError
                          (errorString ("ServiceNow API returned status "
                                        ++ fmt_d (http.StatusCode resp) ++ ": "
                                        ++ (http.ReadAll resp).1))
                          (http.StatusCode resp)),
                  [EvHTTP req (inl resp);
                   EvLog "ERROR" "ServiceNow API error"
                     [("status_code", AInt (http.StatusCode resp));
                      ("response", AString (http.ReadAll resp).1)]],
                  v1)
      end
  end.
Proof.
  intros req. unfold send. fold req.
  destruct (http_NewRequest_error method endpoint) as [e|]; [reflexivity|].
  unfold bind, outside, checkResponse.
  destruct (httpClient_Do req v) as [[resp|e] v1]; [|reflexivity].
  destruct ((200 <=? http.StatusCode resp) && (http.StatusCode resp <? 300)).
  - unfold ret. destruct (on_success resp v1) as [[r h] v2]. reflexivity.
  - reflexivity.
Qed.

(** A run of [send] sends at most one request, the one it built,
    provided that [on_success] sends none. *)
Lemma send_exchanges {V : Type} `{Outside V} (c : Client) (method endpoint body : string)
    (on_success : http.Response → Prog V (option error)) (v : V) :
  (∀ resp v', history_of (on_success resp v') = []) →
  let req := setHeaders c (newRequest method endpoint body) in
  Forall (fun x => x.1 = req) (exchanges_of (history_of (send c method endpoint body on_success v)))
  ∧ (List.length (exchanges_of (history_of (send c method endpoint body on_success v)))
     <= 1)%nat.
Proof.
  intros Hquiet req. pose proof (send_cases c method endpoint body on_success v) as Hs.
  fold req in Hs. cbv zeta in Hs.
  destruct (http_NewRequest_error method endpoint) as [e|].
  { rewrite Hs. split; [constructor|cbn; lia]. }
  destruct (httpClient_Do req v) as [[resp|e] v1].
  2:{ rewrite Hs. split; [by repeat constructor|cbn; lia]. }
  destruct ((200 <=? http.StatusCode resp) && (http.StatusCode resp <? 300)).
  - rewrite Hs. specialize (Hquiet resp v1). unfold history_of in *.
    destruct (on_success resp v1) as [[r h] v2]. cbn [fst snd] in *. subst h.
    split; [by repeat constructor|cbn; lia].
  - rewrite Hs. split; [by repeat constructor|cbn; lia].
Qed.

Context {W : Type} `{Outside W}.

Lemma CreateIncident_fn_quiet (resp : http.Response) (ws : W * option CreateIncidentResult.t) :
  history_of
    ((let '(respBody, rerr) := http.ReadAll resp in
      match rerr with
      | Some err => ret (Some (wrapError "failed to read response" (errorString err)))
      | None =>
          let '(snowResp, uerr) := json_Unmarshal_response respBody in
          match uerr with
          | Some err => ret (Some (wrapError "failed to unmarshal response" (errorString err)))
          | None =>
              bind (assign (Some {| CreateIncidentResult.SysID := ServiceNowResult.SysID snowResp;
                                    CreateIncidentResult.Number := ServiceNowResult.Number snowResp |}))
                   (fun _ => ret None)
          end
      end) ws) = [].
Proof.
  destruct (http.ReadAll resp) as [respBody [rerr|]]; [reflexivity|].
  destruct (json_Unmarshal_response respBody) as [snowResp [uerr|]]; reflexivity.
Qed.

Lemma CreateIncident_fn_exchanges (c : Client) (endpoint body : string)
    (ws : W * option CreateIncidentResult.t) :
  let req := setHeaders c (newRequest http.MethodPost endpoint body) in
  Forall (fun x => x.1 = req) (exchanges_of (history_of (CreateIncident_fn c endpoint body ws)))
  ∧ (List.length (exchanges_of (history_of (CreateIncident_fn c endpoint body ws))) <= 1)%nat.
Proof.
  unfold CreateIncident_fn. apply send_exchanges.
  intros resp v'. apply CreateIncident_fn_quiet.
Qed.

(** The closure of [CreateIncident] returns nil only for an answer with
    a 2xx status that is read and decoded, and then the captured result
    holds the identifier and the number of the decoded record. *)
Lemma CreateIncident_fn_success (c : Client) (endpoint body : string)
    (ws : W * option CreateIncidentResult.t) :
  result_of (CreateIncident_fn c endpoint body ws) = None →
  ∃ resp respBody snowResp,
    history_of (CreateIncident_fn c endpoint body ws)
    = [EvHTTP (setHeaders c (newRequest http.MethodPost endpoint body)) (inl resp)]
    ∧ 200 <= http.StatusCode resp < 300
    ∧ http.ReadAll resp = (respBody, None)
    ∧ json_Unmarshal_response respBody = (snowResp, None)
    ∧ (world_of (CreateIncident_fn c endpoint body ws)).2
      = Some {| CreateIncidentResult.SysID := ServiceNowResult.SysID snowResp;
                CreateIncidentResult.Number := ServiceNowResult.Number snowResp |}.
Proof.
  unfold CreateIncident_fn.
  match goal with |- context [send c ?m ?e ?b ?f ws] =>
    pose proof (send_cases c m e b f ws) as Hs end.
  cbv zeta in Hs.
  destruct (http_NewRequest_error http.MethodPost endpoint) as [e|];
    [by rewrite Hs|].
  destruct (httpClient_Do _ ws) as [[resp|e] ws1]; [|by rewrite Hs].
  destruct (Z.leb_spec 200 (http.StatusCode resp));
    destruct (Z.ltb_spec (http.StatusCode resp) 300); cbn [andb] in Hs;
    rewrite Hs; try done.
  destruct (http.ReadAll resp) as [respBody [rerr|]] eqn:Hread; [done|].
  destruct (json_Unmarshal_response respBody) as [snowResp [uerr|]] eqn:Hjson; [done|].
  intros _. exists resp, respBody, snowResp. rewrite Hread. by repeat split.
Qed.

Lemma FindIncidentByCorrelationID_fn_quiet (resp : http.Response)
    (ws : W * option ServiceNowResult.t) :
  history_of
    ((let '(respBody, rerr) := http.ReadAll resp in
      match rerr with
      | Some err => ret (Some (wrapError "failed to read response" (errorString err)))
      | None =>
          let '(listResp, uerr) := json_Unmarshal_list respBody in
          match uerr with
          | Some err => ret (Some (wrapError "failed to unmarshal response" (errorString err)))
          | None =>
              match listResp with
              | first :: _ => bind (assign (Some first)) (fun _ => ret None)
              | [] => ret None
              end
          end
      end) ws) = [].
Proof.
  destruct (http.ReadAll resp) as [respBody [rerr|]]; [reflexivity|].
  destruct (json_Unmarshal_list respBody) as [[|first rest] [uerr|]]; reflexivity.
Qed.

Lemma FindIncidentByCorrelationID_fn_exchanges (c : Client) (endpoint : string)
    (ws : W * option ServiceNowResult.t) :
  let req := setHeaders c (newRequest http.MethodGet endpoint "") in
  Forall (fun x => x.1 = req)
         (exchanges_of (history_of (FindIncidentByCorrelationID_fn c endpoint ws)))
  ∧ (List.length (exchanges_of (history_of (FindIncidentByCorrelationID_fn c endpoint ws)))
     <= 1)%nat.
Proof.
  unfold FindIncidentByCorrelationID_fn. apply send_exchanges.
  intros resp v'. apply FindIncidentByCorrelationID_fn_quiet.
Qed.

(** The closure of the lookup: a failed run leaves the captured result
    as it was; a run that returns nil had an answer with a 2xx status that
    was read and decoded, and has assigned the first record of the list,
    if there is one. *)
Lemma FindIncidentByCorrelationID_fn_runs (c : Client) (endpoint : string)
    (ws : W * option ServiceNowResult.t) :
  match result_of (FindIncidentByCorrelationID_fn c endpoint ws) with
  | Some _ => (world_of (FindIncidentByCorrelationID_fn c endpoint ws)).2 = ws.2
  | None =>
      ∃ resp respBody listResp,
        history_of (FindIncidentByCorrelationID_fn c endpoint ws)
        = [EvHTTP (setHeaders c (newRequest http.MethodGet endpoint "")) (inl resp)]
        ∧ 200 <= http.StatusCode resp < 300
        ∧ http.ReadAll resp = (respBody, None)
        ∧ json_Unmarshal_list respBody = (listResp, None)
        ∧ (world_of (FindIncidentByCorrelationID_fn c endpoint ws)).2
          = match listResp with first :: _ => Some first | [] => ws.2 end
  end.
Proof.
  unfold FindIncidentByCorrelationID_fn.
  match goal with |- context [send c ?m ?e ?b ?f ws] =>
    pose proof (send_cases c m e b f ws) as Hs end.
  cbv zeta in Hs.
  destruct (http_NewRequest_error http.MethodGet endpoint) as [e|];
    [by rewrite Hs|].
  cbn [httpClient_Do Outside_with_local] in Hs.
  destruct (httpClient_Do _ ws.1) as [[resp|e] w1]; [|by rewrite Hs].
  destruct (Z.leb_spec 200 (http.StatusCode resp));
    destruct (Z.ltb_spec (http.StatusCode resp) 300); cbn [andb] in Hs;
    rewrite Hs; try done.
  destruct (http.ReadAll resp) as [respBody [rerr|]] eqn:Hread; [done|].
  destruct (json_Unmarshal_list respBody) as [listResp [uerr|]] eqn:Hjson; [done|].
  destruct listResp as [|first rest].
  - exists resp, respBody, []. rewrite Hread. by repeat split.
  - exists resp, respBody, (first :: rest). rewrite Hread. by repeat split.
Qed.

End client_facts.

(** X7. Every request that [CreateIncident] sends is the same one: a
    POST to the base URL followed by the endpoint path, with the marshalled
    incident as its body, the client's user name and password as basic
    credentials, and the content type and accept headers set to JSON; and it
    sends at most [MaxAttempts] of them. *)
Theorem CreateIncident_sends_the_same_authenticated_post
    {lib : GoLib} {json : GoJSON} {impl : GoImpl} {W : Type} {out : Outside W}
    (c : servicenow_client.Client) (incident : models.ServiceNowIncident.t)
    (body : string) (w : W) :
  json_Marshal_incident incident = (body, None) →
  let req :=
    {| http.Method := "POST";
       http.URL := servicenow_client.baseURL c ++ servicenow_client.endpointPath c;
       http.Body := body;
       http.BasicAuth := Some (servicenow_client.username c, servicenow_client.password c);
       http.Header := [("Content-Type", "application/json");
                       ("Accept", "application/json")] |} in
  let sent := exchanges_of (history_of (servicenow_client.CreateIncident c incident w)) in
  Forall (fun x => x.1 = req) sent
  ∧ Z.of_nat (List.length sent)
    <= Z.max 0 (servicenow_retry.MaxAttempts (servicenow_client.retryConfig c)).
Proof.
  intros Hbody req sent. subst sent.
  unfold servicenow_client.CreateIncident. rewrite Hbody.
  unfold bind, slog, emit, with_local, servicenow_retry.WithRetry.
  pose proof (WithRetry_loop_exchanges (servicenow_client.retryConfig c)
                (servicenow_client.CreateIncident_fn c
                   (servicenow_client.baseURL c ++ servicenow_client.endpointPath c) body)
                (fun x => x.1 = req)
                (fun ws => CreateIncident_fn_exchanges c _ body ws)
                (Z.to_nat (servicenow_retry.MaxAttempts (servicenow_client.retryConfig c)))
                0 None (w, None)) as [HR Hlen].
  unfold history_of in *.
  destruct (servicenow_retry.WithRetry_loop _ 0 _ _ None (w, None)) as [[[err|] h] ws];
    unfold ret; cbn [fst snd app] in *;
    rewrite exchanges_of_cons_log, app_nil_r; (split; [done|lia]).
Qed.

(** X8. Every request that [FindIncidentByCorrelationID] sends is the
    same one: a GET, with no body, to the table endpoint with the query
    [sysparm_query=correlation_id=<id>&sysparm_limit=1], the ID
    query-escaped, and with the client's credentials and JSON headers; and
    it sends at most [MaxAttempts] of them. *)
Theorem FindIncidentByCorrelationID_sends_the_same_authenticated_get
    {lib : GoLib} {json : GoJSON} {impl : GoImpl} {W : Type} {out : Outside W}
    (c : servicenow_client.Client) (correlationID : string) (w : W) :
  let req :=
    {| http.Method := "GET";
       http.URL := servicenow_client.baseURL c ++ servicenow_client.endpointPath c
                   ++ "?sysparm_query=correlation_id=" ++ url_QueryEscape correlationID
                   ++ "&sysparm_limit=1";
       http.Body := "";
       http.BasicAuth := Some (servicenow_client.username c, servicenow_client.password c);
       http.Header := [("Content-Type", "application/json");
                       ("Accept", "application/json")] |} in
  let sent :=
    exchanges_of (history_of (servicenow_client.FindIncidentByCorrelationID c correlationID w)) in
  Forall (fun x => x.1 = req) sent
  ∧ Z.of_nat (List.length sent)
    <= Z.max 0 (servicenow_retry.MaxAttempts (servicenow_client.retryConfig c)).
Proof.
  intros req sent. subst sent.
  unfold servicenow_client.FindIncidentByCorrelationID.
  unfold bind, slog, emit, with_local, servicenow_retry.WithRetry.
  pose proof (WithRetry_loop_exchanges (servicenow_client.retryConfig c)
                (servicenow_client.FindIncidentByCorrelationID_fn c (http.URL req))
                (fun x => x.1 = req)
                (fun ws => FindIncidentByCorrelationID_fn_exchanges c _ ws)
                (Z.to_nat (servicenow_retry.MaxAttempts (servicenow_client.retryConfig c)))
                0 None (w, None)) as [HR Hlen].
  unfold history_of in *. cbn [http.URL req] in HR, Hlen.
  destruct (servicenow_retry.WithRetry_loop _ 0 _ _ None (w, None)) as [[[err|] h] ws];
    unfold ret; cbn [fst snd app] in *;
    rewrite exchanges_of_cons_log, app_nil_r; (split; [done|lia]).
Qed.

(** X9. Every request that [ResolveIncident] sends is the same one: a
    PATCH to the table endpoint followed by [/] and the identifier as it
    was given, whose body is the marshalled update -- state [6], close code
    [Solved (Permanently)], the fixed close notes, the configured root
    cause, and the time read once, before the first attempt -- with the
    client's credentials and JSON headers; it sends at most [MaxAttempts]
    of them, and it returns nil only after an answer with a 2xx status. *)
Theorem ResolveIncident_sends_the_same_authenticated_patch
    {lib : GoLib} {json : GoJSON} {impl : GoImpl} {W : Type} {out : Outside W}
    (c : servicenow_client.Client) (sysID body : string) (w : W) :
  json_Marshal_update
    {| models.ServiceNowUpdatePayload.State := "6";
       models.ServiceNowUpdatePayload.CloseCode := "Solved (Permanently)";
       models.ServiceNowUpdatePayload.CloseNotes :=
         "Alert resolved - condition cleared automatically";
       models.ServiceNowUpdatePayload.RootCause := servicenow_client.rootCause c;
       models.ServiceNowUpdatePayload.RestoredDate := (time_Now_Format w).1 |}
  = (body, None) →
  let req :=
    {| http.Method := "PATCH";
       http.URL := servicenow_client.baseURL c ++ servicenow_client.endpointPath c
                   ++ "/" ++ sysID;
       http.Body := body;
       http.BasicAuth := Some (servicenow_client.username c, servicenow_client.password c);
       http.Header := [("Content-Type", "application/json");
                       ("Accept", "application/json")] |} in
  let run := servicenow_client.ResolveIncident c sysID w in
  let sent := exchanges_of (history_of run) in
  Forall (fun x => x.1 = req) sent
  ∧ Z.of_nat (List.length sent)
    <= Z.max 0 (servicenow_retry.MaxAttempts (servicenow_client.retryConfig c))
  ∧ (1 <= servicenow_retry.MaxAttempts (servicenow_client.retryConfig c) →
     result_of run = None →
     ∃ resp, last sent = Some (req, inl resp) ∧ 200 <= http.StatusCode resp < 300).
Proof.
  intros Hbody req run sent. subst sent run.
  set (fn := servicenow_client.send c http.MethodPatch
               (servicenow_client.baseURL c ++ servicenow_client.endpointPath c ++ "/" ++ sysID)
               body (fun _ => ret None)).
  set (n := Z.to_nat (servicenow_retry.MaxAttempts (servicenow_client.retryConfig c))).
  assert (Hrun : servicenow_client.ResolveIncident c sysID w
                 = let '(res, h, w1) :=
                     servicenow_retry.WithRetry_loop n 0 (servicenow_client.retryConfig c)
                       fn None (time_Now_Format w).2 in
                   (res, EvLog "DEBUG" "resolving incident in ServiceNow"
                           [("sys_id", AString sysID)] :: h, w1)).
  { unfold servicenow_client.ResolveIncident, bind.
    destruct (time_Now_Format w) as [now w0]. cbn [fst snd] in *.
    change models.StateResolved with "6". rewrite Hbody.
    unfold slog, emit, servicenow_retry.WithRetry. fold fn n.
    by destruct (servicenow_retry.WithRetry_loop n 0 _ fn None w0) as [[res h] w1]. }
  rewrite Hrun. clear Hrun. set (w0 := (time_Now_Format w).2).
  assert (Hfn : ∀ v : W,
            Forall (fun x => x.1 = req) (exchanges_of (history_of (fn v)))
            ∧ (List.length (exchanges_of (history_of (fn v))) <= 1)%nat).
  { intros v. subst fn. by apply send_exchanges. }
  pose proof (WithRetry_loop_exchanges (servicenow_client.retryConfig c) fn
                (fun x => x.1 = req) Hfn n 0 None w0) as [HR Hlen].
  split; [|split].
  - unfold history_of in *.
    destruct (servicenow_retry.WithRetry_loop n 0 _ fn None w0) as [[res h] w1].
    cbn [fst snd] in *. by rewrite exchanges_of_cons_log.
  - unfold history_of in *.
    destruct (servicenow_retry.WithRetry_loop n 0 _ fn None w0) as [[res h] w1].
    cbn [fst snd] in *. rewrite exchanges_of_cons_log. lia.
  - intros Hm Hres.
    destruct n as [|n'] eqn:En; [lia|].
    destruct (WithRetry_loop_success_run (servicenow_client.retryConfig c) fn
                (fun _ => True) ltac:(done) ltac:(done) n' 0 None w0 I)
      as (v0 & pre & j & _ & Hnil & _ & Hh).
    { unfold result_of in *.
      destruct (servicenow_retry.WithRetry_loop (S n') 0 _ fn None w0) as [[res h] w1].
      exact Hres. }
    unfold history_of in *.
    destruct (servicenow_retry.WithRetry_loop (S n') 0 _ fn None w0) as [[res h] w1].
    cbn [fst snd] in *. subst h.
    rewrite exchanges_of_cons_log, exchanges_of_app.
    rewrite exchanges_of_cons_attempt, app_nil_r.
    subst fn.
    pose proof (send_cases c http.MethodPatch
                  (servicenow_client.baseURL c ++ servicenow_client.endpointPath c ++ "/" ++ sysID)
                  body (fun _ => ret None) v0) as Hs.
    cbv zeta in Hs. unfold result_of in Hnil.
    destruct (http_NewRequest_error _ _) as [e|]; [by rewrite Hs in Hnil|].
    destruct (httpClient_Do _ v0) as [[resp|e] v1]; [|by rewrite Hs in Hnil].
    destruct (Z.leb_spec 200 (http.StatusCode resp));
      destruct (Z.ltb_spec (http.StatusCode resp) 300); cbn [andb] in Hs;
      rewrite Hs in Hnil |- *; try done.
    exists resp. split; [|lia]. cbn [ret fst snd].
    by rewrite last_app.
Qed.

(** X10. With at least one attempt configured, [CreateIncident] returns
    either a result or an error, never both and never neither; and when it
    returns a result, the last request it sent was answered with a 2xx
    status and a body that was read and decoded, and the result holds the
    identifier and the number of the record decoded from that body. *)
Theorem CreateIncident_returns_what_the_last_answer_holds
    {lib : GoLib} {json : GoJSON} {impl : GoImpl} {W : Type} {out : Outside W}
    (c : servicenow_client.Client) (incident : models.ServiceNowIncident.t) (w : W) :
  1 <= servicenow_retry.MaxAttempts (servicenow_client.retryConfig c) →
  let run := servicenow_client.CreateIncident c incident w in
  match result_of run with
  | (Some result, None) =>
      ∃ req resp respBody snowResp,
        last (exchanges_of (history_of run)) = Some (req, inl resp)
        ∧ 200 <= http.StatusCode resp < 300
        ∧ http.ReadAll resp = (respBody, None)
        ∧ json_Unmarshal_response respBody = (snowResp, None)
        ∧ result
          = {| servicenow_client.CreateIncidentResult.SysID :=
                 models.ServiceNowResult.SysID snowResp;
               servicenow_client.CreateIncidentResult.Number :=
                 models.ServiceNowResult.Number snowResp |}
  | (None, Some err) => True
  | (Some _, Some _) | (None, None) => False
  end.
Proof.
  intros Hm run. subst run. unfold servicenow_client.CreateIncident.
  destruct (json_Marshal_incident incident) as [body [merr|]]; [done|].
  unfold bind, slog, emit, with_local, servicenow_retry.WithRetry.
  destruct (Z.to_nat (servicenow_retry.MaxAttempts (servicenow_client.retryConfig c)))
    as [|n] eqn:En; [lia|].
  set (fn := servicenow_client.CreateIncident_fn c
               (servicenow_client.baseURL c ++ servicenow_client.endpointPath c) body).
  pose proof (WithRetry_loop_success_run (servicenow_client.retryConfig c) fn
                (fun _ => True) ltac:(done) ltac:(done) n 0 None (w, None) I) as Hs.
  unfold result_of, world_of, history_of in *.
  destruct (servicenow_retry.WithRetry_loop (S n) 0 _ fn None (w, None))
    as [[[err|] h] [w' result]]; [done|].
  destruct (Hs eq_refl) as (v0 & pre & j & _ & Hnil & Hw & Hh). cbn [fst snd] in *.
  destruct (CreateIncident_fn_success c _ body v0 Hnil)
    as (resp & respBody & snowResp & Hfn & Hcode & Hread & Hjson & Hres).
  unfold world_of, history_of in *. fold fn in Hfn, Hres.
  rewrite Hw in Hres. cbn [snd] in Hres. subst result h. unfold ret. cbn [fst snd app].
  eexists _, resp, respBody, snowResp.
  split; [|done].
  rewrite Hfn, exchanges_of_cons_log, app_nil_r, exchanges_of_app.
  rewrite exchanges_of_cons_attempt. cbn [exchanges_of flat_map exchanges_of_event app].
  by rewrite last_app.
Qed.

(** X11. With at least one attempt configured, the lookup returns a
    record, or nothing, or an error, and no record beside an error.  When
    it returns a record or nothing, the last request it sent was answered
    with a 2xx status and a body that was read and decoded as a list: the
    record returned is the first of that list, whatever follows it, and
    nothing is returned exactly when the list is empty. *)
Theorem FindIncidentByCorrelationID_returns_the_first_record
    {lib : GoLib} {json : GoJSON} {impl : GoImpl} {W : Type} {out : Outside W}
    (c : servicenow_client.Client) (correlationID : string) (w : W) :
  1 <= servicenow_retry.MaxAttempts (servicenow_client.retryConfig c) →
  let run := servicenow_client.FindIncidentByCorrelationID c correlationID w in
  match result_of run with
  | (found, None) =>
      ∃ req resp respBody listResp,
        last (exchanges_of (history_of run)) = Some (req, inl resp)
        ∧ 200 <= http.StatusCode resp < 300
        ∧ http.ReadAll resp = (respBody, None)
        ∧ json_Unmarshal_list respBody = (listResp, None)
        ∧ found = head listResp
  | (None, Some err) => True
  | (Some _, Some _) => False
  end.
Proof.
  intros Hm run. subst run. unfold servicenow_client.FindIncidentByCorrelationID.
  unfold bind, slog, emit, with_local, servicenow_retry.WithRetry.
  destruct (Z.to_nat (servicenow_retry.MaxAttempts (servicenow_client.retryConfig c)))
    as [|n] eqn:En; [lia|].
  match goal with |- context [servicenow_client.FindIncidentByCorrelationID_fn c ?e] =>
    set (fn := servicenow_client.FindIncidentByCorrelationID_fn c e);
    pose proof (fun ws => FindIncidentByCorrelationID_fn_runs c e ws) as Hruns
  end.
  fold fn in Hruns.
  pose proof (WithRetry_loop_success_run (servicenow_client.retryConfig c) fn
                (fun ws => ws.2 = None)) as Hs.
  specialize (Hs ltac:(intros ws Hws Hfail; specialize (Hruns ws);
                       destruct (result_of (fn ws)); [congruence|done])).
  specialize (Hs ltac:(intros d ws Hws; cbn [select_Done_or_After Outside_with_local];
                       by destruct (select_Done_or_After d ws.1))).
  specialize (Hs n 0 None (w, None) eq_refl).
  unfold result_of, world_of, history_of in *.
  destruct (servicenow_retry.WithRetry_loop (S n) 0 _ fn None (w, None))
    as [[[err|] h] [w' result]]; [done|].
  destruct (Hs eq_refl) as (v0 & pre & j & Hv0 & Hnil & Hw & Hh). cbn [fst snd] in *.
  specialize (Hruns v0). rewrite Hnil in Hruns.
  destruct Hruns as (resp & respBody & listResp & Hfn & Hcode & Hread & Hjson & Hres).
  rewrite Hw in Hres. cbn [snd] in Hres. subst h. unfold ret. cbn [fst snd app].
  match goal with |- match result with Some _ => ?g | None => _ end =>
    enough g by (by destruct result) end.
  eexists _, resp, respBody, listResp.
  split; [|split; [done|split; [done|split; [done|]]]].
  - rewrite Hfn, exchanges_of_cons_log, app_nil_r, exchanges_of_app.
    rewrite exchanges_of_cons_attempt. cbn [exchanges_of flat_map exchanges_of_event app].
    by rewrite last_app.
  - rewrite Hres. destruct listResp; [exact Hv0|done].
Qed.

Section client_failures.
Import config models servicenow_retry retry_policy servicenow_client.
Context `{GoLib} `{GoJSON} `{GoImpl} {W : Type} `{Outside W}.

(** The run of [CreateIncident] once the incident is marshalled: the
    debug record, then the retry loop on the closure. *)
Lemma CreateIncident_run (c : Client) (incident : ServiceNowIncident.t) (body : string) (w : W) :
  json_Marshal_incident incident = (body, None) →
  CreateIncident c incident w
  = let '(res, h, ws) :=
      WithRetry (retryConfig c)
        (CreateIncident_fn c (baseURL c ++ endpointPath c) body) (w, None) in
    (match res with Some err => (None, Some err) | None => (ws.2, None) end,
     EvLog "DEBUG" "creating incident in ServiceNow"
       [("correlation_id", AString (ServiceNowIncident.CorrelationID incident));
        ("short_description", AString (ServiceNowIncident.ShortDescription incident))]
     :: h,
     ws.1).
Proof.
  intros Hbody. unfold CreateIncident. rewrite Hbody.
  unfold bind, slog, emit, with_local, ret.
  destruct (WithRetry _ _ (w, None)) as [[[err|] h] ws]; cbn [fst snd app];
    by rewrite app_nil_r.
Qed.

(** The closure of [CreateIncident] when the request cannot be built,
    and when the server is reached. *)
Lemma CreateIncident_fn_unbuilt (c : Client) (endpoint body : string) (e : LibError)
    (ws : W * option CreateIncidentResult.t) :
  http_NewRequest_error http.MethodPost endpoint = Some e →
  CreateIncident_fn c endpoint body ws
  = (Some (wrapError "failed to create request" (errorString e)), [], ws).
Proof.
  intros Hnew. unfold CreateIncident_fn.
  match goal with |- send c ?m ?e ?b ?f ws = _ =>
    pose proof (send_cases c m e b f ws) as Hs end.
  cbv zeta in Hs. by rewrite Hnew in Hs.
Qed.

Lemma CreateIncident_fn_refused (c : Client) (endpoint body : string)
    (ws : W * option CreateIncidentResult.t) :
  http_NewRequest_error http.MethodPost endpoint = None →
  let req := setHeaders c (newRequest http.MethodPost endpoint body) in
  match (httpClient_Do req ws.1).1 with
  | inr e =>
      history_of (CreateIncident_fn c endpoint body ws) = [EvHTTP req (inr e)]
      ∧ result_of (CreateIncident_fn c endpoint body ws)
        = Some (wrapError "failed to send request" (errorString e))
  | inl resp =>
      ¬ (200 <= http.StatusCode resp < 300) →
      ∃ e attrs,
        history_of (CreateIncident_fn c endpoint body ws)
        = [EvHTTP req (inl resp); EvLog "ERROR" "ServiceNow API error" attrs]
        ∧ result_of (CreateIncident_fn c endpoint body ws)
          = Some (RetryableError (errorString e) (http.StatusCode resp))
        ∧ e = "ServiceNow API returned status " ++ fmt_d (http.StatusCode resp)
              ++ ": " ++ (http.ReadAll resp).1
  end.
Proof.
  intros Hnew req. unfold CreateIncident_fn.
  match goal with |- context [send c ?m ?e ?b ?f ws] =>
    pose proof (send_cases c m e b f ws) as Hs end.
  cbv zeta in Hs. rewrite Hnew in Hs. fold req in Hs.
  cbn [httpClient_Do Outside_with_local] in Hs.
  destruct (httpClient_Do req ws.1) as [[resp|e] w1]; cbn [fst]; [|by rewrite Hs].
  intros Hcode.
  destruct (Z.leb_spec 200 (http.StatusCode resp));
    destruct (Z.ltb_spec (http.StatusCode resp) 300); cbn [andb] in Hs; try lia;
    rewrite Hs; by eexists _, _.
Qed.

End client_failures.

(** X12. When the first answer to the create request has a 4xx status,
    [CreateIncident] sends that one request and no other, does not wait,
    and returns no result and the classified error that carries the status
    code and a message made of the code and the body of the answer. *)
Theorem CreateIncident_client_error_sends_one_request
    {lib : GoLib} {json : GoJSON} {impl : GoImpl} {W : Type} {out : Outside W}
    (c : servicenow_client.Client) (incident : models.ServiceNowIncident.t)
    (body : string) (resp : http.Response) (w w1 : W) :
  let endpoint := servicenow_client.baseURL c ++ servicenow_client.endpointPath c in
  let req := servicenow_client.setHeaders c
               (servicenow_client.newRequest http.MethodPost endpoint body) in
  1 <= servicenow_retry.MaxAttempts (servicenow_client.retryConfig c) →
  json_Marshal_incident incident = (body, None) →
  http_NewRequest_error http.MethodPost endpoint = None →
  httpClient_Do req w = (inl resp, w1) →
  400 <= http.StatusCode resp < 500 →
  let run := servicenow_client.CreateIncident c incident w in
  exchanges_of (history_of run) = [(req, inl resp)]
  ∧ retry_policy.waits_of (history_of run) = []
  ∧ result_of run
    = (None,
       Some (RetryableError
               (errorString ("ServiceNow API returned status "
                             ++ fmt_d (http.StatusCode resp) ++ ": "
                             ++ (http.ReadAll resp).1))
               (http.StatusCode resp)))
  ∧ world_of run = w1.
Proof.
  intros endpoint req Hm Hbody Hnew Hdo Hcode run. subst run.
  rewrite (CreateIncident_run c incident body w Hbody). fold endpoint.
  unfold servicenow_retry.WithRetry.
  destruct (Z.to_nat (servicenow_retry.MaxAttempts (servicenow_client.retryConfig c)))
    as [|n] eqn:En; [lia|].
  rewrite WithRetry_loop_unfold.
  pose proof (send_cases c http.MethodPost endpoint body
                (fun resp =>
                   let '(respBody, rerr) := http.ReadAll resp in
                   match rerr with
                   | Some err => ret (Some (wrapError "failed to read response" (errorString err)))
                   | None =>
                       let '(snowResp, uerr) := json_Unmarshal_response respBody in
                       match uerr with
                       | Some err =>
                           ret (Some (wrapError "failed to unmarshal response" (errorString err)))
                       | None =>
                           bind (assign
                                   (Some {| servicenow_client.CreateIncidentResult.SysID :=
                                              models.ServiceNowResult.SysID snowResp;
                                            servicenow_client.CreateIncidentResult.Number :=
                                              models.ServiceNowResult.Number snowResp |}))
                                (fun _ => ret None)
                       end
                   end) (w, @None servicenow_client.CreateIncidentResult.t)) as Hs.
  cbv zeta in Hs. rewrite Hnew in Hs. fold req in Hs.
  cbn [httpClient_Do Outside_with_local fst snd] in Hs. rewrite Hdo in Hs.
  destruct (Z.leb_spec 200 (http.StatusCode resp));
    destruct (Z.ltb_spec (http.StatusCode resp) 300); cbn [andb] in Hs; try lia.
  unfold servicenow_client.CreateIncident_fn. rewrite Hs.
  assert (Hc : retry_policy.is_client_failure
                 (RetryableError
                    (errorString ("ServiceNow API returned status "
                                  ++ fmt_d (http.StatusCode resp) ++ ": "
                                  ++ (http.ReadAll resp).1))
                    (http.StatusCode resp)) = true).
  { unfold retry_policy.is_client_failure. cbn [errors_As_RetryableError].
    apply andb_true_iff. split; lia. }
  rewrite Hc. done.
Qed.

(** X13. When every answer to the create request is a transport error
    or has a status outside 2xx and outside 4xx, and no wait is cut short by
    the context, [CreateIncident] sends the request exactly [MaxAttempts]
    times and returns no result and the error of the last attempt: the
    classified error with the status code of the last answer, or the
    wrapped transport error. *)
Theorem CreateIncident_failing_server_gets_every_attempt
    {lib : GoLib} {json : GoJSON} {impl : GoImpl} {W : Type} {out : Outside W}
    (c : servicenow_client.Client) (incident : models.ServiceNowIncident.t)
    (body : string) (w : W) :
  let endpoint := servicenow_client.baseURL c ++ servicenow_client.endpointPath c in
  let req := servicenow_client.setHeaders c
               (servicenow_client.newRequest http.MethodPost endpoint body) in
  let run := servicenow_client.CreateIncident c incident w in
  1 <= servicenow_retry.MaxAttempts (servicenow_client.retryConfig c) →
  json_Marshal_incident incident = (body, None) →
  http_NewRequest_error http.MethodPost endpoint = None →
  (∀ w' : W,
     match (httpClient_Do req w').1 with
     | inl resp => ¬ (200 <= http.StatusCode resp < 300)
                   ∧ ¬ (400 <= http.StatusCode resp < 500)
     | inr _ => True
     end) →
  Forall (fun ev => retry_policy.is_cancelled_wait ev = false) (history_of run) →
  Z.of_nat (List.length (exchanges_of (history_of run)))
  = servicenow_retry.MaxAttempts (servicenow_client.retryConfig c)
  ∧ ∃ answer err,
      last (exchanges_of (history_of run)) = Some (req, answer)
      ∧ result_of run = (None, Some err)
      ∧ match answer with
        | inl resp => ∃ e, err = RetryableError e (http.StatusCode resp)
        | inr e => err = wrapError "failed to send request" (errorString e)
        end.
Proof.
  intros endpoint req run Hm Hbody Hnew Hserver Hwaits. subst run.
  rewrite (CreateIncident_run c incident body w Hbody) in Hwaits |- *.
  fold endpoint in Hwaits |- *.
  set (fn := servicenow_client.CreateIncident_fn c endpoint body) in *.
  set (A := fun (h : list Event) (r : option error) =>
              ∃ answer err,
                exchanges_of h = [(req, answer)]
                ∧ r = Some err
                ∧ retry_policy.is_client_failure err = false
                ∧ match answer with
                  | inl resp => ∃ e, err = RetryableError e (http.StatusCode resp)
                  | inr e => err = wrapError "failed to send request" (errorString e)
                  end).
  assert (Hfn : ∀ ws, A (history_of (fn ws)) (result_of (fn ws))).
  { intros ws. subst fn A. cbv beta.
    pose proof (CreateIncident_fn_refused c endpoint body ws Hnew) as Hr.
    cbv zeta in Hr. fold req in Hr. specialize (Hserver ws.1).
    destruct ((httpClient_Do req ws.1).1) as [resp|e].
    - destruct Hserver as [H2 H4]. destruct (Hr H2) as (e & attrs & -> & -> & _).
      eexists (inl resp), _. split; [done|]. split; [done|]. split; [|by eexists].
      unfold retry_policy.is_client_failure. cbn [errors_As_RetryableError].
      apply andb_false_iff. lia.
    - destruct Hr as [-> ->]. by eexists (inr e), _. }
  pose proof (WithRetry_loop_attempts (servicenow_client.retryConfig c) fn A Hfn
                (Z.to_nat (servicenow_retry.MaxAttempts (servicenow_client.retryConfig c)))
                0 None (w, None)) as Hall.
  pose proof (WithRetry_run (servicenow_client.retryConfig c) fn (w, None) Hm) as Hrun.
  unfold servicenow_retry.WithRetry, history_of, result_of in *.
  destruct (servicenow_retry.WithRetry_loop _ 0 _ fn None (w, None)) as [[res h] ws].
  cbn [fst snd] in *.
  apply Forall_cons in Hwaits as [_ Hwaits].
  destruct (RetryRun_exhausts _ _ _ _ Hrun) as (Hlen & hl & errl & Hlast & ->); [|done|].
  { clear -Hall. induction Hall as [|ev h Hev _ IH]; [constructor|].
    destruct ev; try exact IH.
    destruct Hev as (answer & err' & _ & -> & Hc & _).
    constructor; [by eexists|exact IH]. }
  rewrite exchanges_of_cons_log. split.
  - rewrite Z.sub_0_r in Hlen. rewrite <- Hlen. f_equal.
    apply (RetryRun_exchanges_count _ _ _ _ Hrun).
    eapply Forall_impl; [exact Hall|].
    intros [] Hev; try done. destruct Hev as (answer & err' & Hx & _). by rewrite Hx.
  - apply last_Some in Hlast as (pre & ->).
    apply Forall_app in Hall as [_ Hall]. apply Forall_cons in Hall as [Hev _].
    destruct Hev as (answer & err' & Hx & [= <-] & _ & Hans).
    exists answer, errl. split; [|done].
    rewrite exchanges_of_app, exchanges_of_cons_attempt, Hx, app_nil_r.
    by rewrite last_app.
Qed.

(** X14. With [MaxAttempts] at least 1 and an incident that marshals,
    when the create request cannot even be built (a base URL that does not
    parse, say), [CreateIncident] sends nothing, and every attempt it makes
    fails with the error of the builder, wrapped.  That error holds no
    status code, so it is retried: unless a backoff wait is cut short by the
    context, the run makes exactly [MaxAttempts] attempts and
    [MaxAttempts - 1] waits, of the delays that [calculateBackoff] gives for
    the attempts 0 to [MaxAttempts - 2], and returns the wrapped error; a
    wait that is cut short is the last event of the run, which then returns
    the error of the context. *)
Theorem CreateIncident_unbuildable_request_is_retried_unsent
    {lib : GoLib} {json : GoJSON} {impl : GoImpl} {W : Type} {out : Outside W}
    (c : servicenow_client.Client) (incident : models.ServiceNowIncident.t)
    (body : string) (e : LibError) (w : W) :
  let endpoint := servicenow_client.baseURL c ++ servicenow_client.endpointPath c in
  let cfg := servicenow_client.retryConfig c in
  let run := servicenow_client.CreateIncident c incident w in
  let unbuilt := wrapError "failed to create request" (errorString e) in
  1 <= servicenow_retry.MaxAttempts cfg →
  json_Marshal_incident incident = (body, None) →
  http_NewRequest_error http.MethodPost endpoint = Some e →
  exchanges_of (history_of run) = []
  ∧ Forall (fun a => a.2 = Some unbuilt) (retry_policy.attempts_of (history_of run))
  ∧ (Forall (fun ev => retry_policy.is_cancelled_wait ev = false) (history_of run) →
     Z.of_nat (List.length (retry_policy.attempts_of (history_of run)))
     = servicenow_retry.MaxAttempts cfg
     ∧ retry_policy.waits_of (history_of run)
       = List.map (fun j => servicenow_retry.calculateBackoff j
                              (servicenow_retry.BaseDelay cfg) (servicenow_retry.MaxDelay cfg))
                  (seqZ 0 (servicenow_retry.MaxAttempts cfg - 1))
     ∧ result_of run = (None, Some unbuilt))
  ∧ (∀ pre d ctxErr post,
       history_of run = (pre ++ EvWait d (CtxDone ctxErr) :: post)%list →
       post = [] ∧ result_of run = (None, Some ctxErr)).
Proof.
  intros endpoint cfg run unbuilt Hm Hbody Hnew. subst run.
  rewrite (CreateIncident_run c incident body w Hbody).
  fold endpoint cfg.
  set (fn := servicenow_client.CreateIncident_fn c endpoint body) in *.
  assert (Hfn : ∀ ws, fn ws = (Some unbuilt, [], ws)).
  { intros ws. by apply CreateIncident_fn_unbuilt. }
  pose proof (WithRetry_loop_attempts cfg fn
                (fun h r => r = Some unbuilt)
                ltac:(intros ws; by rewrite Hfn)
                (Z.to_nat (servicenow_retry.MaxAttempts cfg))
                0 None (w, None)) as Hall.
  pose proof (WithRetry_loop_exchanges cfg fn
                (fun _ => False)
                ltac:(intros ws; rewrite Hfn; split; [constructor|cbn; lia])
                (Z.to_nat (servicenow_retry.MaxAttempts cfg))
                0 None (w, None)) as [Hnone _].
  pose proof (WithRetry_run cfg fn (w, None) Hm) as Hrun.
  unfold servicenow_retry.WithRetry, history_of, result_of in *.
  destruct (servicenow_retry.WithRetry_loop _ 0 _ fn None (w, None)) as [[res h] ws].
  cbn [fst snd] in *.
  assert (Hfail : Forall (fun a => a.2 = Some unbuilt) (retry_policy.attempts_of h)).
  { clear -Hall. induction Hall as [|ev h Hev _ IH]; [constructor|].
    destruct ev; try exact IH. constructor; [exact Hev|exact IH]. }
  split; [|split; [|split]].
  - rewrite exchanges_of_cons_log. by destruct (exchanges_of h); [|inversion Hnone].
  - exact Hfail.
  - intros Hwaits. apply Forall_cons in Hwaits as [_ Hwaits].
    assert (Hretried : Forall (fun a => ∃ err, a.2 = Some err
                                 ∧ retry_policy.is_client_failure err = false)
                         (retry_policy.attempts_of h)).
    { eapply Forall_impl; [exact Hfail|]. intros a Ha. by exists unbuilt. }
    destruct (RetryRun_exhausts _ _ _ _ Hrun Hretried Hwaits)
      as (Hlen & hl & errl & Hlast & ->).
    pose proof (RetryRun_exhausts_waits _ _ _ _ Hrun Hretried Hwaits) as Hw.
    rewrite Z.sub_0_r in Hlen, Hw.
    split; [exact Hlen|]. split; [exact Hw|].
    apply last_Some in Hlast as (pre & ->).
    apply Forall_app in Hall as [_ Hall]. apply Forall_cons in Hall as [[= ->] _].
    done.
  - intros pre d ctxErr post Hd.
    destruct pre as [|ev pre]; [discriminate|]. injection Hd as _ Hd.
    by destruct (RetryRun_cancelled_last _ _ _ _ Hrun _ _ _ _ Hd) as [-> ->].
Qed.

(* ===================================================================== *)
(** * Further properties of the handler *)
(* ===================================================================== *)

(** X15. [ServeHTTP] turns a request away before it touches the client:
    a method other than POST is answered 405, whatever the body; a POST
    whose body cannot be read, or does not decode, is answered 400; in all
    three cases no client call is made, at most the one error record is
    logged, and whatever the decoder filled in is dropped. *)
Theorem ServeHTTP_rejects_before_any_call
    {lib : GoLib} {json : GoJSON} {W : Type} {client : ServiceNowClient W}
    (cfg : config.Config) (r : webhook_handler.InboundRequest) (w : W) :
  let run := webhook_handler.ServeHTTP cfg r w in
  (webhook_handler.Method r ≠ "POST" →
   run = (Returned {| webhook_handler.Code := 405;
                      webhook_handler.Written := "Method not allowed" ++ webhook_transformer.nl |},
          [], w))
  ∧ (webhook_handler.Method r = "POST" →
     ∀ body e,
       webhook_handler.ReadAll_Body r = (body, Some e) →
       run = (Returned {| webhook_handler.Code := 400;
                          webhook_handler.Written :=
                            "Failed to read request body" ++ webhook_transformer.nl |},
              [EvLog "ERROR" "failed to read request body" [("error", AError (errorString e))]],
              w))
  ∧ (webhook_handler.Method r = "POST" →
     ∀ body payload e,
       webhook_handler.ReadAll_Body r = (body, None) →
       json_Unmarshal_payload body = (payload, Some e) →
       run = (Returned {| webhook_handler.Code := 400;
                          webhook_handler.Written :=
                            "Invalid JSON payload" ++ webhook_transformer.nl |},
              [EvLog "ERROR" "failed to parse alertmanager payload"
                 [("error", AError (errorString e))]],
              w)).
Proof.
  intros run. subst run. unfold webhook_handler.ServeHTTP. split; [|split].
  - intros Hm. destruct (String.eqb_spec (webhook_handler.Method r) http.MethodPost); done.
  - intros -> body e ->. reflexivity.
  - intros -> body payload e -> ->. reflexivity.
Qed.

Section resolved_alerts.
Import config models webhook_transformer webhook_handler.
Context `{GoLib} {W : Type} `{ServiceNowClient W}.
Variable cfg : Config.

(** The run of [processAlert] on a firing alert and on a resolved one. *)
Lemma processAlert_firing (alert : Alert.t) (externalURL : string) (w : W) :
  Alert.Status alert = AlertStatusFiring →
  processAlert cfg alert externalURL w
  = handleFiringAlert cfg alert externalURL
      (GenerateCorrelationID (map_get (Alert.Labels alert) "alertname") (Alert.Labels alert))
      w.
Proof. intros Hs. unfold processAlert. by rewrite Hs. Qed.

Lemma processAlert_resolved (alert : Alert.t) (externalURL : string) (w : W) :
  Alert.Status alert = AlertStatusResolved →
  processAlert cfg alert externalURL w
  = handleResolvedAlert
      (GenerateCorrelationID (map_get (Alert.Labels alert) "alertname") (Alert.Labels alert))
      (map_get (Alert.Labels alert) "alertname") w.
Proof. intros Hs. unfold processAlert. by rewrite Hs. Qed.

End resolved_alerts.

(** X16. An alert whose status is neither [firing] nor [resolved] is
    skipped: [processAlert] logs one warning, makes no client call, leaves
    the world as it was and returns nil, so that the batch goes on with the
    next alert and the same count of failures. *)
Theorem alert_of_unknown_status_is_skipped
    {lib : GoLib} {W : Type} {client : ServiceNowClient W}
    (cfg : config.Config) (alert : models.Alert.t) (externalURL : string) (w : W) :
  models.Alert.Status alert ≠ models.AlertStatusFiring →
  models.Alert.Status alert ≠ models.AlertStatusResolved →
  webhook_handler.processAlert cfg alert externalURL w
  = (Returned None,
     [EvLog "WARN" "unknown alert status"
        [("alertname", AString (map_get (models.Alert.Labels alert) "alertname"));
         ("status", AString (models.Alert.Status alert))]],
     w)
  ∧ ∀ (rest : list models.Alert.t) (errCount : Z),
      result_of (webhook_handler.processAlerts cfg (alert :: rest) externalURL errCount w)
      = result_of (webhook_handler.processAlerts cfg rest externalURL errCount w)
      ∧ webhook_handler.calls_of
          (history_of (webhook_handler.processAlerts cfg (alert :: rest) externalURL errCount w))
        = webhook_handler.calls_of
            (history_of (webhook_handler.processAlerts cfg rest externalURL errCount w)).
Proof.
  intros Hf Hr.
  assert (Hrun : webhook_handler.processAlert cfg alert externalURL w
                 = (Returned None,
                    [EvLog "WARN" "unknown alert status"
                       [("alertname", AString (map_get (models.Alert.Labels alert) "alertname"));
                        ("status", AString (models.Alert.Status alert))]],
                    w)).
  { unfold webhook_handler.processAlert.
    destruct (String.eqb_spec (models.Alert.Status alert) models.AlertStatusFiring); [done|].
    destruct (String.eqb_spec (models.Alert.Status alert) models.AlertStatusResolved); done. }
  split; [exact Hrun|]. intros rest errCount.
  cbn [webhook_handler.processAlerts]. unfold bind. rewrite Hrun.
  unfold result_of, history_of.
  by destruct (webhook_handler.processAlerts cfg rest externalURL errCount w) as [[r h] w'].
Qed.

(** X17. A resolved alert whose lookup finds an incident: [processAlert]
    calls [ResolveIncident] once, with the identifier of the record that the
    lookup returned, right after the lookup and from the world the lookup
    left; it makes no other call, and it returns what [ResolveIncident]
    returned. *)
Theorem resolved_alert_resolves_the_incident_found
    {lib : GoLib} {W : Type} {client : ServiceNowClient W}
    (cfg : config.Config) (alert : models.Alert.t) (externalURL : string)
    (existing : models.ServiceNowResult.t) (w w1 : W) (hfind : list Event) :
  let correlationID :=
    webhook_transformer.GenerateCorrelationID
      (map_get (models.Alert.Labels alert) "alertname") (models.Alert.Labels alert) in
  let sysID := models.ServiceNowResult.SysID existing in
  models.Alert.Status alert = models.AlertStatusResolved →
  snow_FindIncidentByCorrelationID correlationID w = ((Some existing, None), hfind, w1) →
  let run := webhook_handler.processAlert cfg alert externalURL w in
  webhook_handler.calls_of (history_of run)
  = [FindIncidentByCorrelationIDCall correlationID; ResolveIncidentCall sysID]
  ∧ result_of run = Returned (result_of (snow_ResolveIncident sysID w1))
  ∧ world_of run = world_of (snow_ResolveIncident sysID w1).
Proof.
  intros correlationID sysID Hstatus Hfind run. subst run.
  rewrite processAlert_resolved by done. fold correlationID.
  unfold webhook_handler.handleResolvedAlert, bind, slog, emit, enclosed, ret.
  rewrite Hfind. fold sysID. unfold result_of, history_of, world_of.
  by destruct (snow_ResolveIncident sysID w1) as [[[err|] h2] w2].
Qed.

(** X18. A resolved alert whose lookup returns an error: [processAlert]
    returns that error -- even when the lookup returned a record beside it
    -- after the one lookup and no other call, and the batch counts the
    alert as failed and goes on. *)
Theorem resolved_alert_lookup_error_is_returned
    {lib : GoLib} {W : Type} {client : ServiceNowClient W}
    (cfg : config.Config) (alert : models.Alert.t) (externalURL : string)
    (found : option models.ServiceNowResult.t) (err : error)
    (w w1 : W) (hfind : list Event) :
  let correlationID :=
    webhook_transformer.GenerateCorrelationID
      (map_get (models.Alert.Labels alert) "alertname") (models.Alert.Labels alert) in
  models.Alert.Status alert = models.AlertStatusResolved →
  snow_FindIncidentByCorrelationID correlationID w = ((found, Some err), hfind, w1) →
  let run := webhook_handler.processAlert cfg alert externalURL w in
  result_of run = Returned (Some err)
  ∧ webhook_handler.calls_of (history_of run)
    = [FindIncidentByCorrelationIDCall correlationID]
  ∧ world_of run = w1
  ∧ ∀ (rest : list models.Alert.t) (errCount : Z),
      result_of (webhook_handler.processAlerts cfg (alert :: rest) externalURL errCount w)
      = result_of (webhook_handler.processAlerts cfg rest externalURL (errCount + 1) w1).
Proof.
  intros correlationID Hstatus Hfind run.
  assert (Hrun : run = (Returned (Some err),
                        [EvLog "INFO" "processing resolved alert"
                           [("alertname", AString (map_get (models.Alert.Labels alert) "alertname"));
                            ("correlation_id", AString correlationID)];
                         EvCall (FindIncidentByCorrelationIDCall correlationID) hfind],
                        w1)).
  { subst run. rewrite processAlert_resolved by done. fold correlationID.
    unfold webhook_handler.handleResolvedAlert, bind, slog, emit, enclosed, ret.
    rewrite Hfind. by destruct found. }
  split; [by rewrite Hrun|]. split; [by rewrite Hrun|]. split; [by rewrite Hrun|].
  intros rest errCount. cbn [webhook_handler.processAlerts]. unfold bind at 1.
  fold run. rewrite Hrun. unfold bind, slog, emit, result_of.
  by destruct (webhook_handler.processAlerts cfg rest externalURL (errCount + 1) w1)
    as [[r h] w'].
Qed.

(** X19. A client that answers a create with neither a result nor an
    error makes the handler panic: [handleFiringAlert] reads the number of
    the nil result.  The panic leaves [processAlert], the loop over the
    batch and [ServeHTTP]; the alerts that follow in the batch are not
    processed and no response is written. *)
Theorem firing_alert_with_nil_result_panics
    {lib : GoLib} {json : GoJSON} {W : Type} {client : ServiceNowClient W}
    (cfg : config.Config) (alert : models.Alert.t) (rest : list models.Alert.t)
    (r : webhook_handler.InboundRequest) (body : string)
    (payload : models.AlertmanagerPayload.t) (w w1 : W) (hcreate : list Event) :
  let externalURL := models.AlertmanagerPayload.ExternalURL payload in
  let incident := webhook_transformer.Transform cfg alert externalURL in
  webhook_handler.Method r = http.MethodPost →
  webhook_handler.ReadAll_Body r = (body, None) →
  json_Unmarshal_payload body = (payload, None) →
  models.AlertmanagerPayload.Alerts payload = alert :: rest →
  models.Alert.Status alert = models.AlertStatusFiring →
  snow_CreateIncident incident w = ((None, None), hcreate, w1) →
  let run := webhook_handler.ServeHTTP cfg r w in
  (∃ msg, result_of run = Panicked msg)
  ∧ webhook_handler.calls_of (history_of run) = [CreateIncidentCall incident]
  ∧ world_of run = w1.
Proof.
  intros externalURL incident Hpost Hread Hjson Halerts Hstatus Hcreate run. subst run.
  assert (∃ msg log,
            webhook_handler.processAlert cfg alert externalURL w
            = (Panicked msg, [log; EvCall (CreateIncidentCall incident) hcreate], w1)
            ∧ webhook_handler.calls_of [log] = []) as (msg & log & Hone & Hlog).
  { rewrite processAlert_firing by done.
    unfold webhook_handler.handleFiringAlert, bind, slog, emit, enclosed, ret.
    fold incident. rewrite Hcreate. by eexists _, _. }
  assert (Hall : webhook_handler.processAlerts cfg (alert :: rest) externalURL 0 w
                 = (Panicked msg, [log; EvCall (CreateIncidentCall incident) hcreate], w1)).
  { cbn [webhook_handler.processAlerts]. unfold bind. rewrite Hone. reflexivity. }
  assert (∃ info,
            webhook_handler.ServeHTTP cfg r w
            = (Panicked msg, [info; log; EvCall (CreateIncidentCall incident) hcreate], w1)
            ∧ webhook_handler.calls_of [info] = []) as (info & Hrun & Hinfo).
  { unfold webhook_handler.ServeHTTP. rewrite Hpost. simpl (negb _). cbn iota.
    rewrite Hread, Hjson, Halerts. fold externalURL.
    unfold bind, slog, emit. rewrite Hall. by eexists. }
  rewrite Hrun. cbn [fst snd result_of history_of world_of].
  split; [by eexists|]. split; [|done].
  change [info; log; EvCall (CreateIncidentCall incident) hcreate]
    with ([info] ++ [log] ++ [EvCall (CreateIncidentCall incident) hcreate])%list.
  rewrite !calls_of_app, Hlog, Hinfo. reflexivity.
Qed.

(** X20. The create for a firing alert and the lookup for a resolved
    alert carry the same correlation ID whenever the two alerts have the
    same labels, whatever else differs between them (annotations, times,
    source URL), whatever the configuration and the external URL: the ID of
    the incident that [Transform] builds is the ID that the lookup asks
    for, a string of 16 characters. *)
Theorem firing_and_resolved_alerts_share_the_correlation_id
    {lib : GoLib} {W : Type} {client : ServiceNowClient W}
    (cfg1 cfg2 : config.Config) (firing resolved : models.Alert.t)
    (externalURL1 externalURL2 : string) (w1 w2 : W) :
  models.Alert.Status firing = models.AlertStatusFiring →
  models.Alert.Status resolved = models.AlertStatusResolved →
  models.Alert.Labels firing = models.Alert.Labels resolved →
  ∃ incident rest1 rest2,
    webhook_handler.calls_of
      (history_of (webhook_handler.processAlert cfg1 firing externalURL1 w1))
    = CreateIncidentCall incident :: rest1
    ∧ webhook_handler.calls_of
        (history_of (webhook_handler.processAlert cfg2 resolved externalURL2 w2))
      = FindIncidentByCorrelationIDCall (models.ServiceNowIncident.CorrelationID incident)
        :: rest2
    ∧ String.length (models.ServiceNowIncident.CorrelationID incident) = 16%nat.
Proof.
  intros Hf Hr Hlabels.
  exists (webhook_transformer.Transform cfg1 firing externalURL1).
  rewrite processAlert_firing, processAlert_resolved by done.
  cbn [webhook_transformer.Transform models.ServiceNowIncident.CorrelationID].
  rewrite <- Hlabels.
  assert (Hlen : String.length
                   (webhook_transformer.GenerateCorrelationID
                      (map_get (models.Alert.Labels firing) "alertname")
                      (models.Alert.Labels firing)) = 16%nat).
  { unfold webhook_transformer.GenerateCorrelationID.
    apply GenerateCorrelationID_visiting_length. }
  revert Hlen.
  generalize (webhook_transformer.GenerateCorrelationID
                (map_get (models.Alert.Labels firing) "alertname")
                (models.Alert.Labels firing)).
  intros cid Hlen.
  unfold webhook_handler.handleFiringAlert, webhook_handler.handleResolvedAlert,
    bind, slog, emit, enclosed, ret, history_of.
  destruct (snow_CreateIncident _ w1) as [[[[result|] [err|]] h] w1'];
    destruct (snow_FindIncidentByCorrelationID cid w2) as [[[[existing|] [err'|]] h'] w2'];
    cbn [fst snd app];
    try (destruct (snow_ResolveIncident _ w2') as [[[rerr|] h2] w3]; cbn [fst snd app]);
    by eexists _, _.
Qed.

Section handler_logs.
Import config models webhook_transformer webhook_handler.
Context `{GoLib} `{GoJSON} {W : Type} `{ServiceNowClient W}.
Variable cfg : Config.

(** The records that [processAlert] logs are neither the record of a
    failed alert nor the summary. *)
Lemma processAlert_logs (alert : Alert.t) (externalURL : string) (w : W) :
  List.filter is_failure_log (history_of (processAlert cfg alert externalURL w)) = []
  ∧ List.filter is_summary_log (history_of (processAlert cfg alert externalURL w)) = [].
Proof.
  unfold processAlert.
  destruct (String.eqb (Alert.Status alert) AlertStatusFiring).
  - unfold handleFiringAlert, bind, slog, emit, enclosed, ret, history_of.
    by destruct (snow_CreateIncident _ w) as [[[[result|] [err|]] h] w1].
  - destruct (String.eqb (Alert.Status alert) AlertStatusResolved).
    + unfold handleResolvedAlert, bind, slog, emit, enclosed, ret, history_of.
      destruct (snow_FindIncidentByCorrelationID _ w)
        as [[[[existing|] [err|]] h] w1]; try done.
      by destruct (snow_ResolveIncident _ w1) as [[[err|] h2] w2].
    + done.
Qed.

(** The count that the loop returns is the count it started from plus
    the number of failure records it logged, at most one per alert. *)
Lemma processAlerts_failures (alerts : list Alert.t) (externalURL : string) :
  ∀ (errCount : Z) (w : W) (failed : Z),
    result_of (processAlerts cfg alerts externalURL errCount w) = Returned failed →
    failed = errCount
             + Z.of_nat (List.length
                 (List.filter is_failure_log
                    (history_of (processAlerts cfg alerts externalURL errCount w))))
    ∧ (List.length (List.filter is_failure_log
                      (history_of (processAlerts cfg alerts externalURL errCount w)))
       <= List.length alerts)%nat
    ∧ List.filter is_summary_log
        (history_of (processAlerts cfg alerts externalURL errCount w)) = [].
Proof.
  induction alerts as [|alert rest IH]; intros errCount w failed.
  { cbn. intros [= <-]. split; [lia|done]. }
  destruct (processAlert_logs alert externalURL w) as [Hf Hs].
  cbn [processAlerts]. unfold bind, slog, emit. unfold result_of, history_of in *.
  destruct (processAlert cfg alert externalURL w) as [[[[err|]|msg] h] w1];
    cbn [fst snd] in Hf, Hs.
  - specialize (IH (errCount + 1) w1 failed).
    destruct (processAlerts cfg rest externalURL (errCount + 1) w1) as [[r' h'] w2].
    cbn [fst snd app] in *. intros Hres. destruct (IH Hres) as (Hcount & Hle & Hsum).
    rewrite !List.filter_app, Hf, Hs. cbn [app List.filter is_failure_log is_summary_log].
    change (("ERROR" =? "ERROR")%string && ("failed to process alert" =? "failed to process alert")%string)
      with true.
    change (("ERROR" =? "WARN")%string && ("failed to process alert" =? "some alerts failed to process")%string)
      with false.
    cbn [List.length]. split; [lia|]. split; [lia|done].
  - specialize (IH errCount w1 failed).
    destruct (processAlerts cfg rest externalURL errCount w1) as [[r' h'] w2].
    cbn [fst snd app] in *. intros Hres. destruct (IH Hres) as (Hcount & Hle & Hsum).
    rewrite !List.filter_app, Hf, Hs. cbn [app List.length]. split; [lia|]. split; [lia|done].
  - done.
Qed.

End handler_logs.

(** X21. When [ServeHTTP] has decoded a payload and returns, it has
    logged one failure record for each alert whose processing returned an
    error -- at most one per alert -- and, if there is at least one, it ends
    its log with the summary warning, which gives the number of alerts of
    the batch and the number of failure records; if there is none, it logs
    no summary. *)
Theorem ServeHTTP_logs_failures_and_their_count
    {lib : GoLib} {json : GoJSON} {W : Type} {client : ServiceNowClient W}
    (cfg : config.Config) (r : webhook_handler.InboundRequest)
    (body : string) (payload : models.AlertmanagerPayload.t)
    (resp : webhook_handler.ResponseWritten) (w : W) :
  webhook_handler.Method r = http.MethodPost →
  webhook_handler.ReadAll_Body r = (body, None) →
  json_Unmarshal_payload body = (payload, None) →
  let run := webhook_handler.ServeHTTP cfg r w in
  let alerts := models.AlertmanagerPayload.Alerts payload in
  let failed :=
    Z.of_nat (List.length (List.filter webhook_handler.is_failure_log (history_of run))) in
  result_of run = Returned resp →
  failed <= Z.of_nat (List.length alerts)
  ∧ (0 < failed →
     last (history_of run)
     = Some (EvLog "WARN" "some alerts failed to process"
               [("total", AInt (Z.of_nat (List.length alerts))); ("failed", AInt failed)]))
  ∧ (failed = 0 → List.filter webhook_handler.is_summary_log (history_of run) = []).
Proof.
  intros Hpost Hread Hjson run alerts failed.
  assert (Hrun : run
                 = let '(res, h, w1) :=
                     webhook_handler.processAlerts cfg alerts
                       (models.AlertmanagerPayload.ExternalURL payload) 0 w in
                   (match res with
                    | Panicked msg => Panicked msg
                    | Returned _ =>
                        Returned {| webhook_handler.Code := http.StatusOK;
                                    webhook_handler.Written := webhook_handler.status_ok_body |}
                    end,
                    EvLog "INFO" "received alertmanager webhook"
                      [("alert_count", AInt (Z.of_nat (List.length alerts)));
                       ("status", AString (models.AlertmanagerPayload.Status payload));
                       ("receiver", AString (models.AlertmanagerPayload.Receiver payload))]
                    :: (h ++ match res with
                             | Returned errCount =>
                                 if 0 <? errCount
                                 then [EvLog "WARN" "some alerts failed to process"
                                         [("total", AInt (Z.of_nat (List.length alerts)));
                                          ("failed", AInt errCount)]]
                                 else []
                             | Panicked _ => []
                             end)%list,
                    w1)).
  { subst run. unfold webhook_handler.ServeHTTP. rewrite Hpost. simpl (negb _). cbn iota.
    rewrite Hread, Hjson. fold alerts. unfold bind, slog, emit, ret.
    destruct (webhook_handler.processAlerts cfg alerts _ 0 w) as [[[errCount|msg] h] w1];
      [|by rewrite app_nil_r].
    destruct (0 <? errCount); cbn [fst snd app]; by rewrite ?app_nil_r. }
  subst failed. rewrite Hrun. clear Hrun run.
  pose proof (processAlerts_failures cfg alerts
                (models.AlertmanagerPayload.ExternalURL payload) 0 w) as Hloop.
  unfold result_of, history_of in *.
  destruct (webhook_handler.processAlerts cfg alerts _ 0 w) as [[[errCount|msg] h] w1];
    [|done].
  cbn [fst snd] in *. intros _.
  destruct (Hloop errCount eq_refl) as (Hcount & Hle & Hsum).
  cbn [List.filter webhook_handler.is_failure_log webhook_handler.is_summary_log].
  change (("INFO" =? "ERROR")%string && _) with false.
  change (("INFO" =? "WARN")%string && _) with false. cbn iota.
  rewrite !List.filter_app, Hsum.
  destruct (Z.ltb_spec 0 errCount) as [Hpos|Hzero].
  - cbn [List.filter webhook_handler.is_failure_log webhook_handler.is_summary_log].
    change (("WARN" =? "ERROR")%string && _) with false. cbn iota.
    rewrite app_nil_r. split; [lia|]. split; [|lia].
    intros _. replace (Z.of_nat (List.length (List.filter _ h))) with errCount by lia.
    change (?x :: (h ++ [?y]))%list with ((x :: h) ++ [y])%list.
    by rewrite last_app.
  - cbn [List.filter app]. rewrite app_nil_r. split; [lia|]. split; [lia|done].
Qed.

Section mock_client.
Import config models webhook_transformer webhook_handler testing.
Context `{GoLib} `{GoJSON}.
Variables (cfg : Config) (m : mockServiceNowClient).

Lemma created_of_app (c1 c2 : list ClientCall) :
  created_of (c1 ++ c2) = (created_of c1 ++ created_of c2)%list.
Proof. apply omap_app. Qed.

Lemma resolved_of_app (c1 c2 : list ClientCall) :
  resolved_of (c1 ++ c2) = (resolved_of c1 ++ resolved_of c2)%list.
Proof. apply omap_app. Qed.

Lemma mock_processAlert (alert : Alert.t) (externalURL : string) (w : mockCalls) :
  let run := processAlert (H1 := mock m) cfg alert externalURL w in
  createCalls (world_of run)
  = (createCalls w ++ created_of (calls_of (history_of run)))%list
  ∧ resolveCalls (world_of run)
    = (resolveCalls w ++ resolved_of (calls_of (history_of run)))%list.
Proof.
  intros run. subst run. unfold processAlert.
  destruct (String.eqb (Alert.Status alert) AlertStatusFiring).
  - unfold handleFiringAlert, bind, slog, emit, enclosed, ret, world_of, history_of.
    cbn [snow_CreateIncident mock].
    destruct (createIncidentFn m) as [f|].
    + destruct (f (Transform cfg alert externalURL)) as [[result|] [err|]];
        cbn; by rewrite app_nil_r.
    + cbn. by rewrite app_nil_r.
  - destruct (String.eqb (Alert.Status alert) AlertStatusResolved).
    + unfold handleResolvedAlert, bind, slog, emit, enclosed, ret, world_of, history_of.
      cbn [snow_FindIncidentByCorrelationID snow_ResolveIncident mock].
      destruct (findIncidentByCorrelationFn m) as [f|].
      * destruct (f _) as [[existing|] [err|]]; cbn; rewrite ?app_nil_r; try done.
        destruct (resolveIncidentFn m) as [g|]; [destruct (g _) as [rerr|]|];
          cbn; by rewrite app_nil_r.
      * cbn. by rewrite !app_nil_r.
    + cbn. by rewrite !app_nil_r.
Qed.

Lemma mock_processAlerts (alerts : list Alert.t) (externalURL : string) :
  ∀ (errCount : Z) (w : mockCalls),
    let run := processAlerts (H1 := mock m) cfg alerts externalURL errCount w in
    createCalls (world_of run)
    = (createCalls w ++ created_of (calls_of (history_of run)))%list
    ∧ resolveCalls (world_of run)
      = (resolveCalls w ++ resolved_of (calls_of (history_of run)))%list.
Proof.
  induction alerts as [|alert rest IH]; intros errCount w run; subst run.
  { cbn. by rewrite !app_nil_r. }
  destruct (mock_processAlert alert externalURL w) as [Hc Hr].
  cbn [processAlerts]. unfold bind, slog, emit. unfold world_of, history_of in *.
  destruct (processAlert cfg alert externalURL w) as [[[[err|]|msg] h] w1];
    cbn [fst snd] in Hc, Hr.
  - destruct (IH (errCount + 1) w1) as [Hc' Hr'].
    destruct (processAlerts cfg rest externalURL (errCount + 1) w1) as [[r' h'] w2].
    cbn [fst snd app] in *.
    rewrite calls_of_app, created_of_app, resolved_of_app.
    change (calls_of (EvLog ?l ?s ?a :: h')) with (calls_of h').
    rewrite Hc', Hr', Hc, Hr, <- !app_assoc. done.
  - destruct (IH errCount w1) as [Hc' Hr'].
    destruct (processAlerts cfg rest externalURL errCount w1) as [[r' h'] w2].
    cbn [fst snd app] in *.
    rewrite calls_of_app, created_of_app, resolved_of_app.
    rewrite Hc', Hr', Hc, Hr, <- !app_assoc. done.
  - unfold ret. cbn [fst snd]. by rewrite app_nil_r.
Qed.

End mock_client.

(** X22. The test double records what the handler asks of it: after
    [ServeHTTP] has run against [mockServiceNowClient], whatever the
    request and however the run ends, [createCalls] has grown by the
    incidents of the creates the handler made, in order, and
    [resolveCalls] by the identifiers of the resolves it made, in order;
    lookups leave no trace. *)
Theorem mock_client_records_creates_and_resolves
    {lib : GoLib} {json : GoJSON}
    (cfg : config.Config) (m : testing.mockServiceNowClient)
    (r : webhook_handler.InboundRequest) (w : testing.mockCalls) :
  let run := webhook_handler.ServeHTTP (H1 := testing.mock m) cfg r w in
  let calls := webhook_handler.calls_of (history_of run) in
  testing.createCalls (world_of run)
  = (testing.createCalls w ++ webhook_handler.created_of calls)%list
  ∧ testing.resolveCalls (world_of run)
    = (testing.resolveCalls w ++ webhook_handler.resolved_of calls)%list.
Proof.
  intros run calls. subst calls run. unfold webhook_handler.ServeHTTP.
  destruct (negb (String.eqb (webhook_handler.Method r) http.MethodPost)).
  { cbn. by rewrite !app_nil_r. }
  destruct (webhook_handler.ReadAll_Body r) as [body [rerr|]].
  { cbn. by rewrite !app_nil_r. }
  destruct (json_Unmarshal_payload body) as [payload [uerr|]].
  { cbn. by rewrite !app_nil_r. }
  destruct (mock_processAlerts cfg m (models.AlertmanagerPayload.Alerts payload)
              (models.AlertmanagerPayload.ExternalURL payload) 0 w) as [Hc Hr].
  unfold bind, slog, emit, ret. unfold world_of, history_of in *.
  destruct (webhook_handler.processAlerts cfg _ _ 0 w) as [[[errCount|msg] h] w1];
    cbn [fst snd app] in *.
  - destruct (0 <? errCount); cbn [fst snd app];
      change (webhook_handler.calls_of (EvLog ?l ?s ?a :: ?t))
        with (webhook_handler.calls_of t);
      rewrite !calls_of_app; cbn [webhook_handler.calls_of omap];
      rewrite ?app_nil_r; done.
  - change (webhook_handler.calls_of (EvLog ?l ?s ?a :: ?t))
      with (webhook_handler.calls_of t).
    by rewrite app_nil_r.
Qed.

Section production_runs.
Import config models servicenow_retry retry_policy servicenow_client.
Context `{GoLib} `{GoJSON} `{GoImpl} {W : Type} `{Outside W}.

(** The lookup when the first answer is a list that holds a record. *)
Lemma FindIncidentByCorrelationID_present (c : Client) (correlationID respBody : string)
    (resp : http.Response) (first : ServiceNowResult.t) (others : list ServiceNowResult.t)
    (w w1 : W) :
  let endpoint :=
    baseURL c ++ endpointPath c ++ "?sysparm_query=correlation_id="
    ++ url_QueryEscape correlationID ++ "&sysparm_limit=1" in
  let req := setHeaders c (newRequest http.MethodGet endpoint "") in
  1 <= MaxAttempts (retryConfig c) →
  http_NewRequest_error http.MethodGet endpoint = None →
  httpClient_Do req w = (inl resp, w1) →
  200 <= http.StatusCode resp < 300 →
  http.ReadAll resp = (respBody, None) →
  json_Unmarshal_list respBody = (first :: others, None) →
  FindIncidentByCorrelationID c correlationID w
  = ((Some first, None),
     [EvLog "DEBUG" "searching for incident by correlation_id"
        [("correlation_id", AString correlationID)];
      EvAttempt 0 [EvHTTP req (inl resp)] None],
     w1).
Proof.
  intros endpoint req Hm Hnew Hdo Hcode Hread Hlist.
  unfold FindIncidentByCorrelationID. fold endpoint.
  unfold bind, slog, emit, with_local, ret, WithRetry.
  destruct (Z.to_nat (MaxAttempts (retryConfig c))) as [|n] eqn:En; [lia|].
  rewrite WithRetry_loop_unfold.
  unfold FindIncidentByCorrelationID_fn, send. rewrite Hnew. fold req.
  unfold bind, outside. cbn [httpClient_Do Outside_with_local fst snd].
  rewrite Hdo, checkResponse_accepts by done.
  rewrite Hread, Hlist. reflexivity.
Qed.

(** The resolve when the first answer has a 2xx status. *)
Lemma ResolveIncident_accepted (c : Client) (sysID now body : string)
    (resp : http.Response) (w w1 w2 : W) :
  let endpoint := baseURL c ++ endpointPath c ++ "/" ++ sysID in
  let req := setHeaders c (newRequest http.MethodPatch endpoint body) in
  1 <= MaxAttempts (retryConfig c) →
  time_Now_Format w = (now, w1) →
  json_Marshal_update
    {| ServiceNowUpdatePayload.State := "6";
       ServiceNowUpdatePayload.CloseCode := "Solved (Permanently)";
       ServiceNowUpdatePayload.CloseNotes :=
         "Alert resolved - condition cleared automatically";
       ServiceNowUpdatePayload.RootCause := rootCause c;
       ServiceNowUpdatePayload.RestoredDate := now |} = (body, None) →
  http_NewRequest_error http.MethodPatch endpoint = None →
  httpClient_Do req w1 = (inl resp, w2) →
  200 <= http.StatusCode resp < 300 →
  ResolveIncident c sysID w
  = (None,
     [EvLog "DEBUG" "resolving incident in ServiceNow" [("sys_id", AString sysID)];
      EvAttempt 0 [EvHTTP req (inl resp)] None],
     w2).
Proof.
  intros endpoint req Hm Hnow Hbody Hnew Hdo Hcode.
  unfold ResolveIncident. fold endpoint. unfold bind at 1. rewrite Hnow.
  change StateResolved with "6". rewrite Hbody.
  unfold bind, slog, emit, WithRetry.
  destruct (Z.to_nat (MaxAttempts (retryConfig c))) as [|n] eqn:En; [lia|].
  rewrite WithRetry_loop_unfold.
  unfold send. rewrite Hnew. fold req. unfold bind, outside.
  rewrite Hdo, checkResponse_accepts by done. reflexivity.
Qed.

End production_runs.

(** X23. A resolved alert, served end to end by the client of package
    [servicenow]: when the lookup is answered with a list that holds a
    record and the update is accepted, exactly two requests leave the
    process -- the GET that asks for the correlation ID of the alert, then
    the PATCH whose path ends with the identifier of the first record of
    that list and whose body is the update stamped with the time read after
    the lookup -- and the alert is processed without error. *)
Theorem resolved_alert_patches_the_record_the_lookup_returned
    {lib : GoLib} {json : GoJSON} {impl : GoImpl} {W : Type} {out : Outside W}
    (cfg : config.Config) (c : servicenow_client.Client)
    (alert : models.Alert.t) (externalURL : string)
    (resp1 resp2 : http.Response) (body1 body2 now : string)
    (existing : models.ServiceNowResult.t) (others : list models.ServiceNowResult.t)
    (w w1 w2 w3 : W) :
  let correlationID :=
    webhook_transformer.GenerateCorrelationID
      (map_get (models.Alert.Labels alert) "alertname") (models.Alert.Labels alert) in
  let get :=
    servicenow_client.setHeaders c
      (servicenow_client.newRequest "GET"
         (servicenow_client.baseURL c ++ servicenow_client.endpointPath c
          ++ "?sysparm_query=correlation_id=" ++ url_QueryEscape correlationID
          ++ "&sysparm_limit=1") "") in
  let patch :=
    servicenow_client.setHeaders c
      (servicenow_client.newRequest "PATCH"
         (servicenow_client.baseURL c ++ servicenow_client.endpointPath c
          ++ "/" ++ models.ServiceNowResult.SysID existing) body2) in
  let run := webhook_handler.processAlert (H1 := Client_ServiceNowClient c)
               cfg alert externalURL w in
  models.Alert.Status alert = models.AlertStatusResolved →
  1 <= servicenow_retry.MaxAttempts (servicenow_client.retryConfig c) →
  http_NewRequest_error "GET" (http.URL get) = None →
  httpClient_Do get w = (inl resp1, w1) →
  200 <= http.StatusCode resp1 < 300 →
  http.ReadAll resp1 = (body1, None) →
  json_Unmarshal_list body1 = (existing :: others, None) →
  time_Now_Format w1 = (now, w2) →
  json_Marshal_update
    {| models.ServiceNowUpdatePayload.State := "6";
       models.ServiceNowUpdatePayload.CloseCode := "Solved (Permanently)";
       models.ServiceNowUpdatePayload.CloseNotes :=
         "Alert resolved - condition cleared automatically";
       models.ServiceNowUpdatePayload.RootCause := servicenow_client.rootCause c;
       models.ServiceNowUpdatePayload.RestoredDate := now |} = (body2, None) →
  http_NewRequest_error "PATCH" (http.URL patch) = None →
  httpClient_Do patch w2 = (inl resp2, w3) →
  200 <= http.StatusCode resp2 < 300 →
  result_of run = Returned None
  ∧ exchanges_of (history_of run) = [(get, inl resp1); (patch, inl resp2)]
  ∧ world_of run = w3.
Proof.
  intros correlationID get patch run Hstatus Hm Hnew1 Hdo1 Hcode1 Hread1 Hlist
    Hnow Hbody2 Hnew2 Hdo2 Hcode2.
  subst run. rewrite processAlert_resolved by done. fold correlationID.
  unfold webhook_handler.handleResolvedAlert, bind, slog, emit, enclosed, ret.
  cbn [snow_FindIncidentByCorrelationID snow_ResolveIncident Client_ServiceNowClient].
  rewrite (FindIncidentByCorrelationID_present c correlationID body1 resp1 existing others
             w w1 Hm Hnew1 Hdo1 Hcode1 Hread1 Hlist).
  rewrite (ResolveIncident_accepted c (models.ServiceNowResult.SysID existing) now body2
             resp2 w1 w2 w3 Hm Hnow Hbody2 Hnew2 Hdo2 Hcode2).
  by repeat split.
Qed.

(** X24. A firing alert: [processAlert] makes one call, the create of
    the incident that [Transform] builds, and returns what the create
    returned -- its error, even beside a result; nil after a result, whose
    number and identifier then end the log of the alert. *)
Theorem firing_alert_returns_what_the_create_returned
    {lib : GoLib} {W : Type} {client : ServiceNowClient W}
    (cfg : config.Config) (alert : models.Alert.t) (externalURL : string)
    (created : option servicenow_client.CreateIncidentResult.t) (err : option error)
    (w w1 : W) (hcreate : list Event) :
  let incident := webhook_transformer.Transform cfg alert externalURL in
  let run := webhook_handler.processAlert cfg alert externalURL w in
  models.Alert.Status alert = models.AlertStatusFiring →
  snow_CreateIncident incident w = ((created, err), hcreate, w1) →
  (created ≠ None ∨ err ≠ None) →
  result_of run = Returned err
  ∧ webhook_handler.calls_of (history_of run) = [CreateIncidentCall incident]
  ∧ world_of run = w1
  ∧ (err = None →
     ∃ result, created = Some result
       ∧ last (history_of run)
         = Some (EvLog "INFO" "created incident in ServiceNow"
                   [("alertname", AString (map_get (models.Alert.Labels alert) "alertname"));
                    ("correlation_id",
                     AString (models.ServiceNowIncident.CorrelationID incident));
                    ("incident_number",
                     AString (servicenow_client.CreateIncidentResult.Number result));
                    ("sys_id",
                     AString (servicenow_client.CreateIncidentResult.SysID result))])).
Proof.
  intros incident run Hstatus Hcreate Hsome. subst run.
  rewrite processAlert_firing by done.
  unfold webhook_handler.handleFiringAlert, bind, slog, emit, enclosed, ret.
  fold incident. rewrite Hcreate.
  destruct created as [result|], err as [e|]; cbn [fst snd result_of history_of world_of app].
  - by repeat split.
  - repeat split. intros _. by exists result.
  - by repeat split.
  - by destruct Hsome.
Qed.

(** X25. The handler as [main] wires it, with the client that [NewClient]
    builds, always writes a response, whatever ServiceNow and the context
    do: it never panics, and the status code depends on the request alone --
    405 for a method other than POST, 400 for a body that cannot be read or
    decoded, 200 for every payload that decodes. *)
Theorem production_handler_always_answers
    {lib : GoLib} {json : GoJSON} {impl : GoImpl} {W : Type} {out : Outside W}
    (cfg : config.Config) (r : webhook_handler.InboundRequest) (w : W) :
  let run :=
    webhook_handler.ServeHTTP
      (H1 := Client_ServiceNowClient (servicenow_client.NewClient cfg)) cfg r w in
  let body := (webhook_handler.ReadAll_Body r).1 in
  let unreadable := (webhook_handler.ReadAll_Body r).2 ≠ None in
  let undecodable := (json_Unmarshal_payload body).2 ≠ None in
  ∃ resp,
    result_of run = Returned resp
    ∧ (webhook_handler.Code resp = 405 ↔ webhook_handler.Method r ≠ "POST")
    ∧ (webhook_handler.Code resp = 400
       ↔ webhook_handler.Method r = "POST" ∧ (unreadable ∨ undecodable))
    ∧ (webhook_handler.Code resp = 200
       ↔ webhook_handler.Method r = "POST" ∧ ¬ unreadable ∧ ¬ undecodable).
Proof.
  intros run body unreadable undecodable. subst run body unreadable undecodable.
  destruct (String.eqb_spec (webhook_handler.Method r) http.MethodPost) as [Hpost|Hpost].
  2:{ unfold webhook_handler.ServeHTTP.
      destruct (String.eqb_spec (webhook_handler.Method r) http.MethodPost); [done|].
      eexists. split; [reflexivity|]. cbn. repeat split; try done; intros [? ?]; done. }
  destruct (webhook_handler.ReadAll_Body r) as [body [rerr|]] eqn:Hread.
  { unfold webhook_handler.ServeHTTP. rewrite Hpost, Hread.
    eexists. split; [reflexivity|]. cbn.
    repeat split; try done; try (intros [? ?]; done); try (by left).
    intros (_ & Hr & _). by destruct Hr. }
  destruct (json_Unmarshal_payload body) as [payload [uerr|]] eqn:Hjson.
  { unfold webhook_handler.ServeHTTP. rewrite Hpost, Hread, Hjson.
    eexists. split; [reflexivity|]. cbn. rewrite Hjson. cbn.
    repeat split; try done; try (intros [? ?]; done); try (by right).
    intros (_ & _ & Hu). by destruct Hu. }
  destruct (ServeHTTP_accepts (H1 := Client_ServiceNowClient (servicenow_client.NewClient cfg))
              cfg r body payload w Hpost Hread Hjson) as [Hres _].
  { intros incident w'. apply CreateIncident_answers. simpl. lia. }
  eexists. split; [exact Hres|]. cbn. rewrite Hjson. cbn.
  repeat split; try done; try (intros [? ?]; done).
  - intros (_ & [Hr | Hu]); done.
  - intros Hn. by apply Hn.
  - intros Hn. by apply Hn.
Qed.

Section request_budgets.
Import config models servicenow_retry retry_policy servicenow_client webhook_handler.
Context `{GoLib} `{GoJSON} `{GoImpl} {W : Type} `{Outside W}.
Variables (cfg : Config) (c : Client).

Lemma exchanges_of_cons_call (call : ClientCall) (inner h : list Event) :
  exchanges_of (EvCall call inner :: h) = (exchanges_of inner ++ exchanges_of h)%list.
Proof. reflexivity. Qed.

Lemma CreateIncident_exchanges_le (incident : ServiceNowIncident.t) (w : W) :
  (List.length (exchanges_of (history_of (CreateIncident c incident w)))
   <= Z.to_nat (MaxAttempts (retryConfig c)))%nat.
Proof.
  unfold CreateIncident.
  destruct (json_Marshal_incident incident) as [body [merr|]]; [cbn; lia|].
  unfold bind, slog, emit, with_local, WithRetry.
  pose proof (WithRetry_loop_exchanges (retryConfig c)
                (CreateIncident_fn c (baseURL c ++ endpointPath c) body)
                (fun _ => True)
                (fun ws => conj (Forall_true _ _ (fun _ => I))
                                (proj2 (CreateIncident_fn_exchanges c _ body ws)))
                (Z.to_nat (MaxAttempts (retryConfig c))) 0 None (w, None)) as [_ Hlen].
  unfold history_of in *.
  destruct (WithRetry_loop _ 0 _ _ None (w, None)) as [[[err|] h] ws];
    unfold ret; cbn [fst snd app] in *;
    by rewrite exchanges_of_cons_log, app_nil_r.
Qed.

Lemma FindIncidentByCorrelationID_exchanges_le (correlationID : string) (w : W) :
  (List.length (exchanges_of (history_of (FindIncidentByCorrelationID c correlationID w)))
   <= Z.to_nat (MaxAttempts (retryConfig c)))%nat.
Proof.
  unfold FindIncidentByCorrelationID.
  unfold bind, slog, emit, with_local, WithRetry.
  match goal with |- context [FindIncidentByCorrelationID_fn c ?e] =>
    pose proof (WithRetry_loop_exchanges (retryConfig c)
                  (FindIncidentByCorrelationID_fn c e)
                  (fun _ => True)
                  (fun ws => conj (Forall_true _ _ (fun _ => I))
                                  (proj2 (FindIncidentByCorrelationID_fn_exchanges c e ws)))
                  (Z.to_nat (MaxAttempts (retryConfig c))) 0 None (w, None)) as [_ Hlen]
  end.
  unfold history_of in *.
  destruct (WithRetry_loop _ 0 _ _ None (w, None)) as [[[err|] h] ws];
    unfold ret; cbn [fst snd app] in *;
    by rewrite exchanges_of_cons_log, app_nil_r.
Qed.

Lemma ResolveIncident_exchanges_le (sysID : string) (w : W) :
  (List.length (exchanges_of (history_of (ResolveIncident c sysID w)))
   <= Z.to_nat (MaxAttempts (retryConfig c)))%nat.
Proof.
  unfold ResolveIncident, bind at 1.
  destruct (time_Now_Format w) as [now w0].
  destruct (json_Marshal_update _) as [body [merr|]]; [cbn; lia|].
  unfold bind, slog, emit, WithRetry.
  match goal with |- context [WithRetry_loop _ 0 _ ?fn None w0] =>
    pose proof (WithRetry_loop_exchanges (retryConfig c) fn (fun _ => True)) as Hloop
  end.
  destruct (Hloop ltac:(intros v; split; [by apply Forall_true|];
                        by apply send_exchanges)
              (Z.to_nat (MaxAttempts (retryConfig c))) 0 None w0) as [_ Hlen].
  unfold history_of in *.
  destruct (WithRetry_loop _ 0 _ _ None w0) as [[res h] w1].
  cbn [fst snd app] in *. by rewrite exchanges_of_cons_log.
Qed.

Lemma production_processAlert_budget (alert : Alert.t) (externalURL : string) (w : W) :
  (List.length
     (exchanges_of
        (history_of (processAlert (H1 := Client_ServiceNowClient c) cfg alert externalURL w)))
   <= request_budget (Z.to_nat (MaxAttempts (retryConfig c))) alert)%nat.
Proof.
  unfold processAlert, request_budget.
  destruct (String.eqb (Alert.Status alert) AlertStatusFiring).
  - unfold handleFiringAlert, bind, slog, emit, enclosed, ret.
    cbn [snow_CreateIncident Client_ServiceNowClient].
    pose proof (CreateIncident_exchanges_le
                  (webhook_transformer.Transform cfg alert externalURL) w) as Hle.
    unfold history_of in *.
    destruct (CreateIncident c _ w) as [[[[result|] [err|]] h] w1];
      cbn [fst snd app] in *;
      rewrite exchanges_of_cons_log, exchanges_of_cons_call, length_app;
      cbn [exchanges_of flat_map exchanges_of_event List.length app]; lia.
  - destruct (String.eqb (Alert.Status alert) AlertStatusResolved); [|cbn; lia].
    unfold handleResolvedAlert, bind, slog, emit, enclosed, ret.
    cbn [snow_FindIncidentByCorrelationID snow_ResolveIncident Client_ServiceNowClient].
    match goal with |- context [FindIncidentByCorrelationID c ?cid w] =>
      pose proof (FindIncidentByCorrelationID_exchanges_le cid w) as Hle;
      unfold history_of in *;
      destruct (FindIncidentByCorrelationID c cid w) as [[[[existing|] [err|]] h] w1]
    end;
      cbn [fst snd app] in *;
      try (rewrite exchanges_of_cons_log, exchanges_of_cons_call, length_app;
           cbn [exchanges_of flat_map exchanges_of_event List.length app]; lia).
    pose proof (ResolveIncident_exchanges_le (ServiceNowResult.SysID existing) w1) as Hle2.
    unfold history_of in *.
    destruct (ResolveIncident c _ w1) as [[[err|] h2] w2];
      cbn [fst snd app] in *;
      rewrite exchanges_of_cons_log, !exchanges_of_cons_call, !length_app;
      cbn [exchanges_of flat_map exchanges_of_event List.length app]; lia.
Qed.

Lemma production_processAlerts_budget (alerts : list Alert.t) (externalURL : string) :
  ∀ (errCount : Z) (w : W),
    (List.length
       (exchanges_of
          (history_of (processAlerts (H1 := Client_ServiceNowClient c) cfg alerts externalURL
                         errCount w)))
     <= batch_budget (Z.to_nat (MaxAttempts (retryConfig c))) alerts)%nat.
Proof.
  induction alerts as [|alert rest IH]; intros errCount w; [cbn; lia|].
  pose proof (production_processAlert_budget alert externalURL w) as Hone.
  cbn [processAlerts batch_budget fold_right]. fold (batch_budget (Z.to_nat (MaxAttempts (retryConfig c))) rest).
  unfold bind, slog, emit. unfold history_of in *.
  destruct (processAlert cfg alert externalURL w) as [[[[err|]|msg] h] w1];
    cbn [fst snd] in Hone.
  - specialize (IH (errCount + 1) w1).
    destruct (processAlerts cfg rest externalURL (errCount + 1) w1) as [[r' h'] w2].
    cbn [fst snd app] in *.
    rewrite exchanges_of_app, exchanges_of_cons_log, length_app. lia.
  - specialize (IH errCount w1).
    destruct (processAlerts cfg rest externalURL errCount w1) as [[r' h'] w2].
    cbn [fst snd app] in *. rewrite exchanges_of_app, length_app. lia.
  - unfold ret. cbn [fst snd]. rewrite app_nil_r. lia.
Qed.

End request_budgets.

(** X26. The requests that one webhook delivery can cost: served by a
    client of package [servicenow] that tries each operation at most [n]
    times, [ServeHTTP] sends at most [n] requests for every firing alert of
    the payload and [2 * n] for every resolved one, and none for any other
    alert -- none at all when the request is turned away --, whatever
    ServiceNow answers. *)
Theorem ServeHTTP_request_budget
    {lib : GoLib} {json : GoJSON} {impl : GoImpl} {W : Type} {out : Outside W}
    (cfg : config.Config) (c : servicenow_client.Client)
    (r : webhook_handler.InboundRequest) (w : W) :
  let run := webhook_handler.ServeHTTP (H1 := Client_ServiceNowClient c) cfg r w in
  let n := Z.to_nat (servicenow_retry.MaxAttempts (servicenow_client.retryConfig c)) in
  let payload := (json_Unmarshal_payload (webhook_handler.ReadAll_Body r).1).1 in
  (List.length (exchanges_of (history_of run))
   <= webhook_handler.batch_budget n (models.AlertmanagerPayload.Alerts payload))%nat
  ∧ (webhook_handler.Method r ≠ "POST" ∨ (webhook_handler.ReadAll_Body r).2 ≠ None
     ∨ (json_Unmarshal_payload (webhook_handler.ReadAll_Body r).1).2 ≠ None →
     exchanges_of (history_of run) = []).
Proof.
  intros run n payload. subst run n payload. unfold webhook_handler.ServeHTTP.
  destruct (String.eqb_spec (webhook_handler.Method r) http.MethodPost) as [Hpost|Hpost];
    cbn [negb]; [|split; [cbn; lia|done]].
  destruct (webhook_handler.ReadAll_Body r) as [body [rerr|]];
    [split; [cbn; lia|done]|].
  cbn [fst snd].
  destruct (json_Unmarshal_payload body) as [payload [uerr|]];
    [split; [cbn; lia|done]|].
  cbn [fst snd]. split; [|intros [?|[?|?]]; done].
  pose proof (production_processAlerts_budget cfg c
                (models.AlertmanagerPayload.Alerts payload)
                (models.AlertmanagerPayload.ExternalURL payload) 0 w) as Hle.
  unfold bind, slog, emit, ret. unfold history_of in *.
  destruct (webhook_handler.processAlerts cfg _ _ 0 w) as [[[errCount|msg] h] w1];
    cbn [fst snd app] in *.
  - destruct (0 <? errCount); cbn [fst snd app];
      rewrite exchanges_of_cons_log, !exchanges_of_app, !length_app;
      cbn [exchanges_of flat_map exchanges_of_event List.length app]; lia.
  - by rewrite exchanges_of_cons_log, app_nil_r.
Qed.

(* ===================================================================== *)
(** * Further properties of the transformer *)
(* ===================================================================== *)

Section description_text.
Import config models GoString cluster_spec webhook_transformer.

Lemma contains_refl (s : string) : contains s s.
Proof. exists "", "". by rewrite append_nil_l, append_nil_r. Qed.

Lemma contains_app_l (s t x : string) : contains s x → contains (s ++ t) x.
Proof.
  intros (pre & post & ->). exists pre, (post ++ t). by rewrite !append_assoc.
Qed.

Lemma contains_app_r (s t x : string) : contains t x → contains (s ++ t) x.
Proof.
  intros (pre & post & ->). exists (s ++ pre), post. by rewrite !append_assoc.
Qed.

Lemma contains_concat (l : list string) (x : string) :
  x ∈ l → contains (concat l) x.
Proof.
  induction 1 as [x l|x y l _ IH]; cbn [concat fold_right].
  - apply contains_app_l, contains_refl.
  - by apply contains_app_r.
Qed.

(** The keys that the label loops go through: every key of the map,
    once, in increasing order, whatever order [range] visited them in. *)
Lemma sorted_keys (labels : gmap string string) :
  Sorted le (sort_Strings (map_keys labels))
  ∧ NoDup (sort_Strings (map_keys labels))
  ∧ (∀ k, k ∈ sort_Strings (map_keys labels) ↔ is_Some (labels !! k))
  ∧ (∀ visit, visit ≡ₚ map_keys labels →
              sort_Strings visit = sort_Strings (map_keys labels)).
Proof.
  split; [apply sort_Strings_sorted|]. split; [|split].
  - rewrite sort_Strings_Permutation. apply NoDup_fst_map_to_list.
  - intros k. rewrite sort_Strings_Permutation. unfold map_keys.
    rewrite list_elem_of_fmap. split.
    + intros ([k' v] & -> & Hin). apply elem_of_map_to_list in Hin. by eexists.
    + intros [v Hv]. exists (k, v). split; [done|]. by apply elem_of_map_to_list.
  - intros visit Hp. by apply sort_Strings_perm.
Qed.

End description_text.

(** X27. What [extractClusterFromURL] returns is one label of the
    hostname: it never holds a dot, and when it is not empty the hostname
    that [net/url] found holds [.apps.] followed by it; it is empty when the
    URL does not parse. *)
Theorem extractClusterFromURL_yields_one_label_of_the_hostname
    {lib : GoLib} (rawURL : string) :
  let cluster := webhook_transformer.extractClusterFromURL rawURL in
  ¬ cluster_spec.contains cluster "."
  ∧ (cluster ≠ "" →
     ∃ host pre rest,
       url_Parse_Hostname rawURL = Some host
       ∧ host = pre ++ ".apps." ++ cluster ++ rest
       ∧ (rest = "" ∨ ∃ rest', rest = "." ++ rest'))
  ∧ (url_Parse_Hostname rawURL = None → cluster = "").
Proof.
  intros cluster. subst cluster.
  assert (Hempty : ¬ cluster_spec.contains "" ".").
  { intros (pre & post & Heq). symmetry in Heq.
    apply append_eq_nil in Heq as [_ Heq]. discriminate. }
  destruct (url_Parse_Hostname rawURL) as [host|] eqn:Hhost.
  - destruct (extractClusterFromURL_resolves rawURL host Hhost)
      as [(Hnone & ->) | (pre & rest & [Hfirst _] & Hfree & Hrest)].
    + split; [done|]. split; done.
    + split; [done|]. split; [|done]. intros _. by exists host, pre, rest.
  - unfold webhook_transformer.extractClusterFromURL. rewrite Hhost.
    split; [done|]. split; done.
Qed.

(** X28. The description that [Transform] builds shows what the alert
    carries: the lines of the environment (the value of the configured
    label, empty when the alert has none), of the severity and of the start
    time; the summary and the description annotations, each under its
    heading, when not empty; the namespace, the pod and the container, when
    not empty; the console link, when both the cluster name and the
    namespace are known; the source URL, when not empty; and one line for
    every label of the alert. *)
Theorem Transform_description_shows_the_alert
    {lib : GoLib} (cfg : config.Config) (alert : models.Alert.t) (externalURL : string) :
  let labels := models.Alert.Labels alert in
  let annotations := models.Alert.Annotations alert in
  let cluster := webhook_transformer.extractClusterName cfg alert in
  let namespace := map_get labels "namespace" in
  let nl := webhook_transformer.nl in
  let shows (text : string) :=
    cluster_spec.contains
      (models.ServiceNowIncident.Description
         (webhook_transformer.Transform cfg alert externalURL)) text in
  shows ("Environment: " ++ map_get labels (config.EnvironmentLabelKey cfg) ++ nl)
  ∧ shows ("Severity: " ++ map_get labels "severity" ++ nl)
  ∧ shows ("Started At: " ++ time_Format_UTC (models.Alert.StartsAt alert) ++ nl)
  ∧ (map_get annotations "summary" ≠ "" →
     shows (nl ++ "Summary:" ++ nl ++ map_get annotations "summary" ++ nl))
  ∧ (map_get annotations "description" ≠ "" →
     shows (nl ++ "Description:" ++ nl ++ map_get annotations "description" ++ nl))
  ∧ (namespace ≠ "" → shows ("  Namespace: " ++ namespace ++ nl))
  ∧ (map_get labels "pod" ≠ "" → shows ("  Pod: " ++ map_get labels "pod" ++ nl))
  ∧ (map_get labels "container" ≠ "" →
     shows ("  Container: " ++ map_get labels "container" ++ nl))
  ∧ (cluster ≠ "" → namespace ≠ "" →
     shows (nl ++ "OpenShift Console: https://console-openshift-console.apps."
            ++ url_PathEscape cluster ++ ".example.com/k8s/cluster/projects/"
            ++ url_PathEscape namespace ++ nl))
  ∧ (models.Alert.GeneratorURL alert ≠ "" →
     shows (nl ++ "Prometheus Link: " ++ models.Alert.GeneratorURL alert ++ nl))
  ∧ (∀ k v, labels !! k = Some v → shows ("  " ++ k ++ ": " ++ v ++ nl)).
Proof.
  intros labels annotations cluster namespace nl shows. subst shows. cbv beta.
  cbn [webhook_transformer.Transform models.ServiceNowIncident.Description].
  fold labels cluster namespace.
  unfold webhook_transformer.buildDescription. fold labels annotations nl. cbv zeta.
  set (pod := map_get labels "pod"). set (container := map_get labels "container").
  set (summary := map_get annotations "summary").
  set (desc := map_get annotations "description").
  repeat match goal with |- _ ∧ _ => split end.
  - apply contains_app_l. do 6 apply contains_app_r.
    eexists "", _. rewrite ?append_assoc. reflexivity.
  - apply contains_app_l. do 9 apply contains_app_r.
    eexists "", _. rewrite ?append_assoc. reflexivity.
  - apply contains_app_l. do 12 apply contains_app_r.
    eexists "", _. rewrite ?append_assoc, append_nil_r. reflexivity.
  - intros Hne. apply contains_app_r, contains_app_l.
    destruct (String.eqb_spec summary ""); [done|]. apply contains_refl.
  - intros Hne. do 2 apply contains_app_r. apply contains_app_l.
    destruct (String.eqb_spec desc ""); [done|]. apply contains_refl.
  - intros Hne. do 3 apply contains_app_r. apply contains_app_l.
    destruct (String.eqb_spec namespace ""); [done|]. cbn [negb orb].
    do 3 apply contains_app_r. apply contains_app_l, contains_refl.
  - intros Hne. do 3 apply contains_app_r. apply contains_app_l.
    destruct (String.eqb_spec pod ""); [done|]. cbn [negb]. rewrite orb_true_r. cbn [orb].
    do 4 apply contains_app_r. apply contains_app_l, contains_refl.
  - intros Hne. do 3 apply contains_app_r. apply contains_app_l.
    destruct (String.eqb_spec container ""); [done|]. cbn [negb]. rewrite orb_true_r.
    do 5 apply contains_app_r. apply contains_refl.
  - intros Hc Hn. do 4 apply contains_app_r. apply contains_app_l.
    destruct (String.eqb_spec cluster ""); [done|].
    destruct (String.eqb_spec namespace ""); [done|]. cbn [negb andb].
    unfold webhook_transformer.buildConsoleURL.
    eexists "", "". rewrite ?append_assoc, append_nil_r. reflexivity.
  - intros Hne. do 5 apply contains_app_r. apply contains_app_l.
    destruct (String.eqb_spec (models.Alert.GeneratorURL alert) ""); [done|].
    apply contains_refl.
  - intros k v Hk. do 9 apply contains_app_r.
    apply contains_concat.
    assert (Hv : map_get labels k = v) by (unfold map_get; by rewrite Hk).
    rewrite <- Hv.
    apply list_elem_of_In, in_map_iff. exists k. split; [done|].
    apply list_elem_of_In. apply sorted_keys. by eexists.
Qed.

(** X29. The description ends with the labels of the alert: after the
    heading [All Labels:] comes one line [  key: value] for every key of the
    label map, each key once, in increasing order of the keys, whatever
    order the [range] loop visited the map in, and nothing after them. *)
Theorem Transform_description_lists_labels_in_key_order
    {lib : GoLib} (cfg : config.Config) (alert : models.Alert.t) (externalURL : string) :
  let labels := models.Alert.Labels alert in
  let nl := webhook_transformer.nl in
  ∃ before keys,
    models.ServiceNowIncident.Description
      (webhook_transformer.Transform cfg alert externalURL)
    = before ++ nl ++ "All Labels:" ++ nl
      ++ GoString.concat
           (List.map (fun k => "  " ++ k ++ ": " ++ map_get labels k ++ nl) keys)
    ∧ Sorted GoString.le keys
    ∧ NoDup keys
    ∧ (∀ k, k ∈ keys ↔ is_Some (labels !! k))
    ∧ (∀ visit, visit ≡ₚ map_keys labels → GoString.sort_Strings visit = keys).
Proof.
  intros labels nl.
  cbn [webhook_transformer.Transform models.ServiceNowIncident.Description].
  fold labels.
  unfold webhook_transformer.buildDescription. fold labels nl. cbv zeta.
  eexists _, (GoString.sort_Strings (map_keys labels)).
  split; [|apply sorted_keys].
  rewrite <- !append_assoc. reflexivity.
Qed.

(* ===================================================================== *)
(** * Examples for the further properties *)
(* ===================================================================== *)

Section further_examples.
Import config models servicenow_retry retry_policy servicenow_client webhook_handler testing.

(** A refused connection is retried. *)
Lemma WithRetry_retries_what_IsRetryable_accepts_witness :
  ∃ r post',
    [EvWait 1000000000 TimerFired; EvAttempt 1 [] (Some transport_error);
     EvWait 2000000000 TimerFired; EvAttempt 2 [] (Some transport_error)]
    = EvWait (calculateBackoff 0 (BaseDelay DefaultRetryConfig) (MaxDelay DefaultRetryConfig)) r
      :: post'
    ∧ (r = TimerFired → ∃ hj' r' post'', post' = EvAttempt (0 + 1) hj' r' :: post'').
Proof.
  apply (WithRetry_retries_what_IsRetryable_accepts
           DefaultRetryConfig (always transport_error) quiet
           [] 0 [] transport_error).
  - vm_compute. reflexivity.
  - reflexivity.
  - vm_compute. reflexivity.
Defined.

(** The first two waits of the default configuration. *)
Lemma calculateBackoff_grows_and_at_most_doubles_witness :
  0 <= calculateBackoff 0 (1 * Second) (10 * Second)
  ∧ calculateBackoff 0 (1 * Second) (10 * Second)
    <= calculateBackoff (0 + 1) (1 * Second) (10 * Second)
  ∧ calculateBackoff (0 + 1) (1 * Second) (10 * Second)
    <= 2 * calculateBackoff 0 (1 * Second) (10 * Second).
Proof.
  apply (calculateBackoff_grows_and_at_most_doubles 0 (1 * Second) (10 * Second)).
  - lia.
  - vm_compute. split; [discriminate|reflexivity].
  - vm_compute. discriminate.
  - vm_compute. reflexivity.
Defined.

(** [TestClient_CreateIncident]: one POST with the credentials of the
    configuration. *)
Lemma CreateIncident_sends_the_same_authenticated_post_witness :
  let sent :=
    exchanges_of (history_of (CreateIncident (NewClient test_config) test_incident
                                {| responses := [answer 201 "created"]; selects := [] |})) in
  Forall (fun x => x.1 = {| http.Method := "POST";
                            http.URL := "https://snow.example.com/api/now/table/incident";
                            http.Body := "test123";
                            http.BasicAuth := Some ("testuser", "testpass");
                            http.Header := [("Content-Type", "application/json");
                                            ("Accept", "application/json")] |}) sent
  ∧ Z.of_nat (List.length sent) <= 3.
Proof.
  apply (CreateIncident_sends_the_same_authenticated_post
           (NewClient test_config) test_incident "test123"
           {| responses := [answer 201 "created"]; selects := [] |}).
  reflexivity.
Defined.

(** [TestClient_ResolveIncident]: a PATCH to the record, answered 200. *)
Lemma ResolveIncident_sends_the_same_authenticated_patch_witness :
  let run := ResolveIncident (NewClient test_config) "sys123"
               {| responses := [answer 200 "resolved"]; selects := [] |} in
  let sent := exchanges_of (history_of run) in
  let req := {| http.Method := "PATCH";
                http.URL := "https://snow.example.com/api/now/table/incident/sys123";
                http.Body := "6";
                http.BasicAuth := Some ("testuser", "testpass");
                http.Header := [("Content-Type", "application/json");
                                ("Accept", "application/json")] |} in
  Forall (fun x => x.1 = req) sent
  ∧ Z.of_nat (List.length sent) <= 3
  ∧ (1 <= 3 → result_of run = None →
     ∃ resp, last sent = Some (req, inl resp) ∧ 200 <= http.StatusCode resp < 300).
Proof.
  apply (ResolveIncident_sends_the_same_authenticated_patch
           (NewClient test_config) "sys123" "6"
           {| responses := [answer 200 "resolved"]; selects := [] |}).
  reflexivity.
Defined.

(** [TestClient_CreateIncident]: the result is the record of the answer. *)
Lemma CreateIncident_returns_what_the_last_answer_holds_witness :
  result_of (CreateIncident (NewClient test_config) test_incident
               {| responses := [answer 500 "internal server error"; answer 201 "created"];
                  selects := [] |})
  = (Some {| CreateIncidentResult.SysID := "abc123";
             CreateIncidentResult.Number := "INC0001234" |}, None).
Proof.
  pose proof (CreateIncident_returns_what_the_last_answer_holds
                (NewClient test_config) test_incident
                {| responses := [answer 500 "internal server error"; answer 201 "created"];
                   selects := [] |}) as Hw.
  cbv zeta in Hw.
  destruct (result_of (CreateIncident (NewClient test_config) test_incident
                         {| responses := [answer 500 "internal server error";
                                          answer 201 "created"];
                            selects := [] |})) as [[result|] [err|]] eqn:Hres;
    vm_compute in Hres; try discriminate.
  destruct Hw as (req & resp & respBody & snowResp & Hlast & _ & Hread & Hjson & ->).
  { vm_compute. discriminate. }
  vm_compute in Hlast. injection Hlast as <- <-.
  vm_compute in Hread. injection Hread as <-.
  vm_compute in Hjson. injection Hjson as <-. reflexivity.
Defined.

(** [TestClient_FindIncidentByCorrelationID], with a second record in
    the list: the first one is returned. *)
Lemma FindIncidentByCorrelationID_returns_the_first_record_witness :
  let run := FindIncidentByCorrelationID (H0 := records_json)
               (NewClient test_config) "test-correlation-id"
               {| responses := [answer 200 "two records"]; selects := [] |} in
  result_of run = (Some test_record, None)
  ∧ ∃ req resp respBody listResp,
      last (exchanges_of (history_of run)) = Some (req, inl resp)
      ∧ 200 <= http.StatusCode resp < 300
      ∧ http.ReadAll resp = (respBody, None)
      ∧ json_Unmarshal_list (GoJSON := records_json) respBody = (listResp, None)
      ∧ Some test_record = head listResp.
Proof.
  intros run.
  assert (Hres : result_of run = (Some test_record, None)) by (vm_compute; reflexivity).
  split; [exact Hres|].
  pose proof (FindIncidentByCorrelationID_returns_the_first_record (json := records_json)
                (NewClient test_config) "test-correlation-id"
                {| responses := [answer 200 "two records"]; selects := [] |}
                ltac:(vm_compute; discriminate)) as Hw.
  cbv zeta in Hw. fold run in Hw. rewrite Hres in Hw. exact Hw.
Defined.

(** [TestClient_CreateIncident_ClientError_NoRetry]. *)
Lemma CreateIncident_client_error_sends_one_request_witness :
  let run := CreateIncident (NewClient test_config) test_incident
               {| responses := [answer 400 "bad request"; answer 201 "created"];
                  selects := [] |} in
  List.length (exchanges_of (history_of run)) = 1%nat
  ∧ waits_of (history_of run) = []
  ∧ result_of run
    = (None, Some (RetryableError
                     (errorString "ServiceNow API returned status 400: bad request") 400)).
Proof.
  destruct (CreateIncident_client_error_sends_one_request
              (NewClient test_config) test_incident "test123"
              {| http.StatusCode := 400; http.ReadAll := ("bad request", None) |}
              {| responses := [answer 400 "bad request"; answer 201 "created"];
                 selects := [] |}
              {| responses := [answer 201 "created"]; selects := [] |})
    as (Hsent & Hwaits & Hres & _).
  - vm_compute. discriminate.
  - reflexivity.
  - reflexivity.
  - reflexivity.
  - vm_compute. split; [discriminate|reflexivity].
  - cbv zeta. rewrite Hsent, Hwaits, Hres. split; [reflexivity|]. split; [reflexivity|].
    vm_compute. reflexivity.
Defined.

(** [TestClient_CreateIncident_ServerError], with the three attempts of
    [NewClient]. *)
Lemma CreateIncident_failing_server_gets_every_attempt_witness :
  let run := CreateIncident (H2 := failing_server) (NewClient test_config) test_incident tt in
  Z.of_nat (List.length (exchanges_of (history_of run))) = 3
  ∧ ∃ e, result_of run = (None, Some (RetryableError e 500)).
Proof.
  destruct (CreateIncident_failing_server_gets_every_attempt (out := failing_server)
              (NewClient test_config) test_incident "test123" tt)
    as (Hlen & answer & err & Hlast & Hres & Hans).
  - vm_compute. discriminate.
  - reflexivity.
  - reflexivity.
  - intros []. vm_compute. split; intros [? ?]; done.
  - vm_compute. repeat constructor.
  - cbv zeta. split; [exact Hlen|].
    vm_compute in Hlast. injection Hlast as <-.
    destruct Hans as (e & ->). exists e. exact Hres.
Defined.

(** A base URL that does not parse: three attempts and two waits with
    nothing sent; one attempt when the context is cancelled during the first
    wait. *)
Lemma CreateIncident_unbuildable_request_is_retried_unsent_witness :
  let run := CreateIncident (H := unparsable_lib) (NewClient test_config) test_incident quiet in
  let cut :=
    CreateIncident (H := unparsable_lib) (NewClient test_config) test_incident
      {| responses := []; selects := [CtxDone context_Canceled] |} in
  (exchanges_of (history_of run) = []
   ∧ Z.of_nat (List.length (attempts_of (history_of run))) = 3
   ∧ waits_of (history_of run) = [1000000000; 2000000000]
   ∧ result_of run
     = (None, Some (wrapError "failed to create request" (errorString "missing protocol scheme"))))
  ∧ (exchanges_of (history_of cut) = []
     ∧ result_of cut = (None, Some context_Canceled)).
Proof.
  split.
  - destruct (CreateIncident_unbuildable_request_is_retried_unsent (lib := unparsable_lib)
                (NewClient test_config) test_incident "test123" "missing protocol scheme" quiet)
      as (Hsent & _ & Hall & _).
    + vm_compute. discriminate.
    + reflexivity.
    + reflexivity.
    + destruct Hall as (Hlen & Hwaits & Hres); [vm_compute; repeat constructor|].
      split; [exact Hsent|]. split; [exact Hlen|]. split; [|exact Hres].
      rewrite Hwaits. vm_compute. reflexivity.
  - destruct (CreateIncident_unbuildable_request_is_retried_unsent (lib := unparsable_lib)
                (NewClient test_config) test_incident "test123" "missing protocol scheme"
                {| responses := []; selects := [CtxDone context_Canceled] |})
      as (Hsent & _ & _ & Hcut).
    + vm_compute. discriminate.
    + reflexivity.
    + reflexivity.
    + split; [exact Hsent|].
      refine (proj2 (Hcut [_; _] _ context_Canceled [] _)). vm_compute. reflexivity.
Defined.

(** An alert that is neither firing nor resolved is passed over. *)
Lemma alert_of_unknown_status_is_skipped_witness :
  let pending := alert_with "pending" {[ "alertname" := "TestAlert" ]} in
  let run := processAlert (H1 := mock mock_create_fails) test_config pending "" no_calls in
  result_of run = Returned None
  ∧ calls_of (history_of run) = []
  ∧ world_of run = no_calls.
Proof.
  intros pending run.
  destruct (alert_of_unknown_status_is_skipped
              (lib := plain_lib) (client := mock mock_create_fails)
              test_config pending "" no_calls) as [Hrun _].
  - vm_compute. discriminate.
  - vm_compute. discriminate.
  - subst run. rewrite Hrun. by repeat split.
Defined.

(** [TestHandler_ServeHTTP_ResolvedAlert]: one resolve, of the record
    that the lookup found. *)
Lemma resolved_alert_resolves_the_incident_found_witness :
  let alert := alert_with "resolved" {[ "alertname" := "TestAlert" ]} in
  let run := processAlert (H1 := mock mock_existing_incident) test_config alert "" no_calls in
  result_of run = Returned None
  ∧ resolved_of (calls_of (history_of run)) = ["abc123"]
  ∧ resolveCalls (world_of run) = ["abc123"]
  ∧ createCalls (world_of run) = [].
Proof.
  intros alert run.
  destruct (resolved_alert_resolves_the_incident_found
              (lib := plain_lib) (client := mock mock_existing_incident)
              test_config alert ""
              {| ServiceNowResult.SysID := "abc123"; ServiceNowResult.Number := "INC0001234";
                 ServiceNowResult.State := ""; ServiceNowResult.CorrelationID := "";
                 ServiceNowResult.ShortDescription := "" |}
              no_calls no_calls [] eq_refl eq_refl) as (Hcalls & Hres & Hworld).
  fold run in Hcalls, Hres, Hworld.
  rewrite Hcalls, Hres, Hworld. by repeat split.
Defined.

(** A lookup that fails: the alert is counted as failed, nothing is
    resolved. *)
Lemma resolved_alert_lookup_error_is_returned_witness :
  let alert := alert_with "resolved" {[ "alertname" := "TestAlert" ]} in
  let run := processAlert (H1 := mock mock_lookup_fails) test_config alert "" no_calls in
  result_of run = Returned (Some (errorString "lookup failed"))
  ∧ resolved_of (calls_of (history_of run)) = []
  ∧ result_of (processAlerts (H1 := mock mock_lookup_fails) test_config [alert] "" 0 no_calls)
    = Returned 1.
Proof.
  intros alert run.
  destruct (resolved_alert_lookup_error_is_returned
              (lib := plain_lib) (client := mock mock_lookup_fails)
              test_config alert "" None (errorString "lookup failed")
              no_calls no_calls [] eq_refl eq_refl) as (Hres & Hcalls & _ & Hbatch).
  fold run in Hres, Hcalls. rewrite Hres, Hcalls, (Hbatch [] 0). by repeat split.
Defined.

(** A create answered with neither a result nor an error: the first
    alert of the batch of three ends the run. *)
Lemma firing_alert_with_nil_result_panics_witness :
  let run := ServeHTTP (H1 := mock mock_create_nil) test_config (post "three firing") no_calls in
  (∃ msg, result_of run = Panicked msg)
  ∧ List.length (calls_of (history_of run)) = 1%nat
  ∧ List.length (createCalls (world_of run)) = 1%nat.
Proof.
  intros run.
  destruct (firing_alert_with_nil_result_panics
              (lib := plain_lib) (json := table_json) (client := mock mock_create_nil)
              test_config (alert_with "firing" {[ "alertname" := "Alert1" ]})
              [alert_with "firing" {[ "alertname" := "Alert2" ]};
               alert_with "firing" {[ "alertname" := "Alert3" ]}]
              (post "three firing") "three firing" three_firing no_calls
              _ _ eq_refl eq_refl eq_refl eq_refl eq_refl eq_refl)
    as (Hres & Hcalls & Hworld).
  fold run in Hres, Hcalls, Hworld.
  split; [exact Hres|]. rewrite Hcalls, Hworld. split; reflexivity.
Defined.

(** The alert fires, then resolves: the lookup asks for the ID that the
    create carried. *)
Lemma firing_and_resolved_alerts_share_the_correlation_id_witness :
  ∃ incident rest1 rest2,
    calls_of (history_of (processAlert (H1 := mock mock_existing_incident) test_config
                            (alert_with "firing" {[ "alertname" := "TestAlert" ]}) "" no_calls))
    = CreateIncidentCall incident :: rest1
    ∧ calls_of (history_of (processAlert (H1 := mock mock_existing_incident) test_config
                              (alert_with "resolved" {[ "alertname" := "TestAlert" ]})
                              "http://alertmanager" no_calls))
      = FindIncidentByCorrelationIDCall (ServiceNowIncident.CorrelationID incident) :: rest2
    ∧ String.length (ServiceNowIncident.CorrelationID incident) = 16%nat.
Proof.
  apply (firing_and_resolved_alerts_share_the_correlation_id
           (lib := plain_lib) (client := mock mock_existing_incident) test_config test_config
           (alert_with "firing" {[ "alertname" := "TestAlert" ]})
           (alert_with "resolved" {[ "alertname" := "TestAlert" ]})
           "" "http://alertmanager" no_calls no_calls eq_refl eq_refl eq_refl).
Defined.

(** [TestHandler_ServeHTTP_MultipleAlerts], every create failing: three
    failure records, and the summary. *)
Lemma ServeHTTP_logs_failures_and_their_count_witness :
  let run := ServeHTTP (H1 := mock mock_create_fails) test_config (post "three firing")
               no_calls in
  last (history_of run)
  = Some (EvLog "WARN" "some alerts failed to process"
            [("total", AInt 3); ("failed", AInt 3)]).
Proof.
  intros run.
  destruct (ServeHTTP_logs_failures_and_their_count
              (lib := plain_lib) (json := table_json) (client := mock mock_create_fails)
              test_config (post "three firing") "three firing" three_firing
              {| Code := 200; Written := status_ok_body |} no_calls
              eq_refl eq_refl eq_refl) as (_ & Hlast & _).
  - vm_compute. reflexivity.
  - fold run in Hlast. rewrite Hlast; [|vm_compute; reflexivity].
    vm_compute. reflexivity.
Defined.

(** [TestHandler_ServeHTTP_MethodNotAllowed] and
    [TestHandler_ServeHTTP_InvalidJSON]. *)
Lemma ServeHTTP_rejects_before_any_call_witness :
  (result_of (ServeHTTP (H1 := mock mock_default) test_config get_request no_calls)
   = Returned {| Code := 405; Written := "Method not allowed" ++ webhook_transformer.nl |}
   ∧ world_of (ServeHTTP (H1 := mock mock_default) test_config get_request no_calls)
     = no_calls)
  ∧ (result_of (ServeHTTP (H1 := mock mock_default) test_config (post "invalid json") no_calls)
     = Returned {| Code := 400; Written := "Invalid JSON payload" ++ webhook_transformer.nl |}
     ∧ calls_of (history_of (ServeHTTP (H1 := mock mock_default) test_config
                               (post "invalid json") no_calls)) = []).
Proof.
  split.
  - destruct (ServeHTTP_rejects_before_any_call
                (lib := plain_lib) (json := table_json) (client := mock mock_default)
                test_config get_request no_calls) as (Hmethod & _ & _).
    rewrite Hmethod; [by split|]. vm_compute. discriminate.
  - destruct (ServeHTTP_rejects_before_any_call
                (lib := plain_lib) (json := table_json) (client := mock mock_default)
                test_config (post "invalid json") no_calls) as (_ & _ & Hjson).
    rewrite (Hjson eq_refl "invalid json" zero_payload "invalid character" eq_refl eq_refl).
    by split.
Defined.

(** [TestHandler_ServeHTTP_FiringAlert]: the default result of the test
    double ends the log. *)
Lemma firing_alert_returns_what_the_create_returned_witness :
  let alert := alert_with "firing" {[ "alertname" := "TestAlert" ]} in
  let run := processAlert (H1 := mock mock_default) test_config alert "" no_calls in
  result_of run = Returned None
  ∧ List.length (calls_of (history_of run)) = 1%nat
  ∧ List.length (createCalls (world_of run)) = 1%nat.
Proof.
  intros alert run.
  destruct (firing_alert_returns_what_the_create_returned
              (lib := plain_lib) (client := mock mock_default)
              test_config alert "" _ _ no_calls _ _ eq_refl eq_refl)
    as (Hres & Hcalls & Hworld & _).
  - left. discriminate.
  - fold run in Hres, Hcalls, Hworld. rewrite Hres, Hcalls, Hworld. by repeat split.
Defined.

(** A resolved alert against a server that answers the lookup with two
    records and accepts the update: a GET, then a PATCH of the first
    record. *)
Lemma resolved_alert_patches_the_record_the_lookup_returned_witness :
  let alert := alert_with "resolved" {[ "alertname" := "TestAlert" ]} in
  let run :=
    processAlert (H1 := Client_ServiceNowClient (H1 := records_json) (NewClient test_config))
      test_config alert ""
      {| responses := [answer 200 "two records"; answer 200 "resolved"]; selects := [] |} in
  result_of run = Returned None
  ∧ List.map (fun x => (http.Method x.1, http.URL x.1)) (exchanges_of (history_of run))
    = [("GET", "https://snow.example.com/api/now/table/incident"
               ++ "?sysparm_query=correlation_id="
               ++ webhook_transformer.GenerateCorrelationID "TestAlert"
                    {[ "alertname" := "TestAlert" ]}
               ++ "&sysparm_limit=1");
       ("PATCH", "https://snow.example.com/api/now/table/incident/sys123")].
Proof.
  intros alert run.
  destruct (resolved_alert_patches_the_record_the_lookup_returned
              (lib := plain_lib) (json := records_json) (impl := amd64) (out := Script_Outside)
              test_config (NewClient test_config) alert ""
              {| http.StatusCode := 200; http.ReadAll := ("two records", None) |}
              {| http.StatusCode := 200; http.ReadAll := ("resolved", None) |}
              "two records" "6" "01/15/2024 10:00:00 AM"
              test_record [other_record]
              {| responses := [answer 200 "two records"; answer 200 "resolved"]; selects := [] |}
              {| responses := [answer 200 "resolved"]; selects := [] |}
              {| responses := [answer 200 "resolved"]; selects := [] |}
              {| responses := []; selects := [] |}
              eq_refl) as (Hres & Hsent & _).
  - vm_compute. discriminate.
  - reflexivity.
  - reflexivity.
  - vm_compute. split; [discriminate|reflexivity].
  - reflexivity.
  - reflexivity.
  - reflexivity.
  - reflexivity.
  - reflexivity.
  - reflexivity.
  - vm_compute. split; [discriminate|reflexivity].
  - fold run in Hres, Hsent. rewrite Hres, Hsent. split; [reflexivity|].
    vm_compute. reflexivity.
Defined.

End further_examples.
